(** * TCEES validator service: a shallow embedding and its properties

    The development follows [tcees_validator.py] (the browser-driving
    validator) and [tcees_service.py] (the HTTP wrapper).

    Conventions of the embedding
    - A Python [str] is a Rocq [string] holding its UTF-8 encoding.  The
      only string operations the two files implement themselves are
      substring, suffix and equality tests, and on well-formed UTF-8 these
      agree with the same tests on code points.
    - [True]/[False]/[None] status values are [option bool].
    - A [dict] is a [gmap string pyval].
    - A call that may raise is a value of [res]: [Ret v] or [Exc msg], where
      [msg] is [str(error)].
    - Library functions whose behaviour the code merely relies on
      ([str.lower], [os.path.basename], [re.findall], ...) are the methods
      of the class [PyRuntime]; every theorem holds for every runtime.
    - The browser, the portal and the file system are explicit inputs
      ([Session], [FS]). *)

From Stdlib Require Import ZArith QArith String Ascii List Bool Lia SpecFloat.
From stdpp Require Import base option gmap strings list pretty.
From Equations Require Import Equations.
Import ListNotations.

Local Open Scope string_scope.
Local Open Scope Z_scope.

(* ===================================================================== *)
(** * Python values, results and dictionaries *)
(* ===================================================================== *)

Inductive pyval : Type :=
| VBool (b : bool)
| VInt (n : Z)
| VStr (s : string).

#[global] Instance pyval_eq_dec : EqDecision pyval.
Proof. solve_decision. Defined.

#[global] Instance pyval_inhabited : Inhabited pyval := populate (VBool false).

Abbreviation dict := (gmap string pyval).

(** Outcome of a call: a value, or a raised exception carried by its text. *)
Inductive res (A : Type) : Type :=
| Ret (a : A)
| Exc (e : string).
Arguments Ret {A} a.
Arguments Exc {A} e.

#[global] Instance res_ret : MRet res := fun A a => Ret a.

#[global] Instance res_bind : MBind res := fun A B k m =>
  match m with
  | Ret a => k a
  | Exc e => Exc e
  end.

(** [try: body except Exception as error: handler] *)
Definition try_except {A} (body : res A) (handler : string -> res A) : res A :=
  match body with
  | Ret a => Ret a
  | Exc e => handler e
  end.

(** Truthiness of the values stored in result records. *)
Definition truthy (v : pyval) : bool :=
  match v with
  | VBool b => b
  | VInt n => negb (n =? 0)
  | VStr s => negb (String.eqb s "")
  end.

(** [d[k]]: raises [KeyError] on a missing key. *)
Definition getitem (d : dict) (k : string) : res pyval :=
  match d !! k with
  | Some v => Ret v
  | None => Exc ("KeyError: " +:+ k)
  end.

(** [l[i]]: raises [IndexError] out of range (only non-negative indices are
    used by the code). *)
Definition getidx {A} (l : list A) (i : nat) : res A :=
  match l !! i with
  | Some x => Ret x
  | None => Exc "IndexError: list index out of range"
  end.

(** [sum(values)] on numbers; a [str] operand raises [TypeError]. *)
Fixpoint py_sum (vs : list pyval) : res Z :=
  match vs with
  | [] => Ret 0
  | v :: rest =>
      n ← py_sum rest;
      match v with
      | VBool b => Ret (Z.b2z b + n)
      | VInt k => Ret (k + n)
      | VStr _ => Exc "TypeError: unsupported operand type(s) for +: 'int' and 'str'"
      end
  end.

(* ===================================================================== *)
(** * Strings *)
(* ===================================================================== *)

(** [needle in hay] *)
Fixpoint contains (needle hay : string) : bool :=
  String.prefix needle hay
  || match hay with
     | EmptyString => false
     | String _ rest => contains needle rest
     end.

(** [s.endswith(suffix)] *)
Definition endswith (suffix s : string) : bool :=
  let n := String.length s in
  let k := String.length suffix in
  (k <=? n)%nat && String.eqb (String.substring (n - k) k s) suffix.

(** [x or ''] for an optional string. *)
Definition or_empty (s : option string) : string := default "" s.

(** Library functions of the Python runtime used by the two files. *)
Class PyRuntime : Type := {
  (** [s.lower()] *)
  str_lower : string -> string;
  (** [s.upper()] *)
  str_upper : string -> string;
  (** [os.path.basename(p)] *)
  os_path_basename : string -> string;
  (** [os.path.splitext(p)] *)
  os_path_splitext : string -> string * string;
  (** [s.find(sub)], [-1] when absent *)
  str_find : string -> string -> Z;
  (** [s[i:j]] *)
  str_slice : string -> Z -> Z -> string;
  (** [re.findall(pattern, s, flags=re.IGNORECASE | re.DOTALL)] for the one
      pattern of [_extract_statuses_from_html]:
      [<div[^>]*class="[^"]*d-inline-block[^"]*"[^>]*>(.*?)</div>] *)
  re_findall_cells : string -> list string;
}.

(** The double-quote character, for markers that contain one. *)
Definition dquote : string := String (ascii_of_nat 34) EmptyString.

(* ===================================================================== *)
(** * The browser as seen by the validator *)
(* ===================================================================== *)

(** A located page element; [get_attribute_innerHTML] is
    [cell.get_attribute('innerHTML')], which may raise or give [None]. *)
Record WebElement : Type := {
  get_attribute_innerHTML : res (option string);
}.

(** The page at one moment: what the driver answers when asked. *)
Record Page : Type := {
  (** [driver.find_elements(By.CSS_SELECTOR, selector)] *)
  find_elements : string -> res (list WebElement);
  (** [driver.page_source] *)
  page_source : res (option string);
  (** [driver.find_element(By.TAG_NAME, 'body').text] *)
  body_text : res (option string);
}.

(** One run of the headless browser against the portal.  The page is
    observed once per poll, [page_at waited] being the page after [waited]
    seconds of polling, and once more after the loop. *)
Record Session : Type := {
  (** [webdriver.Chrome(...)] and [driver.set_page_load_timeout(25)] *)
  chrome_start : res unit;
  (** [driver.get(TCEES_URL)] *)
  driver_get : res unit;
  (** [WebDriverWait(driver, 15).until(...)] and [file_input.send_keys(...)] *)
  send_file : res unit;
  page_at : Z -> Page;
  page_final : Page;
  (** [time.strftime('%Y-%m-%d %H:%M:%S')] *)
  strftime_now : string;
}.

(** The file system: regular files and their contents. *)
Abbreviation FS := (gmap string string).

(** [os.path.isfile(p)] *)
Definition os_path_isfile (fs : FS) (p : string) : bool :=
  bool_decide (is_Some (fs !! p)).

(** [os.path.getsize(p)] *)
Definition os_path_getsize (fs : FS) (p : string) : res Z :=
  match fs !! p with
  | Some content => Ret (Z.of_nat (String.length content))
  | None => Exc ("[Errno 2] No such file or directory: " +:+ p)
  end.

(** [os.unlink(p)] *)
Definition os_unlink (fs : FS) (p : string) : res FS :=
  match fs !! p with
  | Some _ => Ret (delete p fs)
  | None => Exc ("[Errno 2] No such file or directory: " +:+ p)
  end.

(* ===================================================================== *)
(** * Binary64 arithmetic of the score *)
(* ===================================================================== *)

(** [float(n)] for an integer that binary64 holds exactly or rounds. *)
Definition float_of_int (n : Z) : spec_float := binary_normalize 53 1024 n 0 false.

(** [a / b] on integers: true division, correctly rounded (the operands of
    the code are below [2^53], so converting them first loses nothing). *)
Definition py_truediv (a b : Z) : res spec_float :=
  if b =? 0 then Exc "ZeroDivisionError: division by zero"
  else Ret (SFdiv 53 1024 (float_of_int a) (float_of_int b)).

(** [x * n] for a float and an integer. *)
Definition py_float_mul (x : spec_float) (n : Z) : spec_float :=
  SFmul 53 1024 x (float_of_int n).

(** [int(x)]: truncation toward zero. *)
Definition py_int (x : spec_float) : res Z :=
  match x with
  | S754_zero _ => Ret 0
  | S754_finite s m e =>
      let v := if 0 <=? e then Z.pos m * 2 ^ e else Z.pos m / 2 ^ (- e) in
      Ret (if s then - v else v)
  | S754_infinity _ => Exc "OverflowError: cannot convert float infinity to integer"
  | S754_nan => Exc "ValueError: cannot convert float NaN to integer"
  end.

(** [int((campos_ok / 7) * 100)] *)
Definition pontuacao_of (campos_ok : Z) : res Z :=
  q ← py_truediv campos_ok 7;
  py_int (py_float_mul q 100).

(* ===================================================================== *)
(** * tcees_validator.py *)
(* ===================================================================== *)

Abbreviation status := (option bool).

Section Validator.
Context `{PyRuntime}.

(** The exception is represented by [str(error)]; an exception object is
    truthy, so [str(raw_error or '')] is that text. *)
Definition _friendly_network_error (raw_error : string) : option string * string :=
  let text := raw_error in
  let upper := str_upper text in
  if contains "ERR_TUNNEL_CONNECTION_FAILED" upper then
    (Some "TCEES_NETWORK_BLOCKED",
     "Servidor hospedado sem acesso ao site do TCEES (ERR_TUNNEL_CONNECTION_FAILED). "
     +:+ "No PythonAnywhere, isso costuma ocorrer por restricao de rede/proxy/allowlist.")
  else if contains "ERR_NAME_NOT_RESOLVED" upper then
    (Some "TCEES_DNS_ERROR",
     "Falha de DNS ao resolver o dominio do TCEES no servidor hospedado.")
  else if contains "ERR_CONNECTION_TIMED_OUT" upper || contains "TIMEOUT" upper then
    (Some "TCEES_TIMEOUT",
     "Tempo limite ao conectar no site do TCEES a partir do servidor hospedado.")
  else if contains "ERR_CONNECTION_REFUSED" upper then
    (Some "TCEES_CONNECTION_REFUSED",
     "Conexao recusada ao acessar o TCEES no servidor hospedado. "
     +:+ "Pode ser bloqueio de rede/firewall/allowlist.")
  else if contains "ERR_CONNECTION_CLOSED" upper then
    (Some "TCEES_CONNECTION_CLOSED",
     "Conexao encerrada pelo destino/rede ao tentar acessar o TCEES.")
  else (None, text).

Definition success_markers : list string :=
  [ "fa-check"; "text-success"; "title=" +:+ dquote +:+ "ok" +:+ dquote ].

Definition failure_markers : list string :=
  [ "fa-close"; "fa-times"; "text-danger"; "nao assinado"; "não assinado";
    "invalido"; "inválido"; "erro" ].

Definition _status_from_cell_html (cell_html : option string) : status :=
  let html := str_lower (or_empty cell_html) in
  let is_success := existsb (fun marker => contains marker html) success_markers in
  let is_failure := existsb (fun marker => contains marker html) failure_markers in
  if is_failure && negb is_success then Some false
  else if is_success && negb is_failure then Some true
  else if is_success && is_failure then Some false
  else None.

(** [not statuses] for an optional list. *)
Definition falsy_list {A} (l : option (list A)) : bool :=
  match l with
  | None | Some [] => true
  | Some (_ :: _) => false
  end.

(** [len(statuses)] once the value is known to be a list. *)
Definition len {A} (l : option (list A)) : Z := Z.of_nat (length (default [] l)).

Definition status_char (s : status) : string :=
  match s with
  | Some true => "1"
  | Some false => "0"
  | None => "?"
  end.

Definition _statuses_signature (statuses : option (list status)) : string :=
  if falsy_list statuses then EmptyString
  else fold_right (fun s acc => status_char s +:+ acc) EmptyString (default [] statuses).

(** [sum(status is not None for status in statuses)] *)
Definition count_resolved (statuses : list status) : Z :=
  fold_right (fun s acc => Z.b2z (bool_decide (s ≠ None)) + acc) 0 statuses.

(** [cell.get_attribute('innerHTML') or ''], and [''] when the call raises. *)
Definition cell_inner_html (cell : WebElement) : string :=
  match get_attribute_innerHTML cell with
  | Ret v => or_empty v
  | Exc _ => EmptyString
  end.

Definition selectors : list string :=
  [ "#validacoes-arquivo div.row.text-center div.d-inline-block";
    "#validacoes-arquivo div.d-inline-block";
    "#validacoes-body #validacoes-arquivo div.d-inline-block" ].

(** The [for selector in selectors] loop of [_extract_statuses_from_driver],
    with its two accumulators. *)
Fixpoint extract_from_selectors (driver : Page) (sels : list string)
    (best_candidate : option (list status)) (best_resolved : Z) : option (list status) :=
  match sels with
  | [] => best_candidate
  | selector :: rest =>
      match find_elements driver selector with
      | Exc _ => extract_from_selectors driver rest best_candidate best_resolved
      | Ret cells =>
          if Z.of_nat (length cells) <? 8 then
            extract_from_selectors driver rest best_candidate best_resolved
          else
            let statuses :=
              map (fun cell => _status_from_cell_html (Some (cell_inner_html cell)))
                  (take 8 cells) in
            let resolved := count_resolved statuses in
            let '(best_candidate, best_resolved) :=
              if best_resolved <? resolved then (Some statuses, resolved)
              else (best_candidate, best_resolved) in
            if 6 <=? resolved then Some statuses
            else extract_from_selectors driver rest best_candidate best_resolved
      end
  end.

Definition _extract_statuses_from_driver (driver : Page) : option (list status) :=
  extract_from_selectors driver selectors None (-1).

Definition _extract_statuses_from_html (page_html : string) : option (list status) :=
  if String.eqb page_html EmptyString then None
  else
    let start := str_find page_html ("id=" +:+ dquote +:+ "validacoes-arquivo" +:+ dquote) in
    if start <? 0 then None
    else
      let snippet := str_slice page_html start (start + 30000) in
      let cells := re_findall_cells snippet in
      if Z.of_nat (length cells) <? 8 then None
      else Some (map (fun cell_html => _status_from_cell_html (Some cell_html)) (take 8 cells)).

(** [results[k] = v] *)
Definition setitem (k : string) (v : pyval) (results : dict) : dict := <[k := v]> results.

(** [status is True] *)
Definition is_True (s : status) : bool := bool_decide (s = Some true).

(** [status is False] *)
Definition is_False (s : status) : bool := bool_decide (s = Some false).

(** The dictionary is updated in place by the code; here the updated
    dictionary is returned next to the function's own result. *)
Definition _apply_statuses_to_results (results : dict) (statuses : option (list status))
    (page_text : option string) : res (dict * bool) :=
  if falsy_list statuses || (len statuses <? 8) then Ret (results, false)
  else
    let l := default [] statuses in
    s0 ← getidx l 0;
    let results := setitem "extensao_valida" (VBool (is_True s0)) results in
    s1 ← getidx l 1;
    let results := setitem "sem_senha" (VBool (is_True s1)) results in
    s2 ← getidx l 2;
    let results := setitem "tamanho_arquivo_ok" (VBool (is_True s2)) results in
    s3 ← getidx l 3;
    let results := setitem "tamanho_pagina_ok" (VBool (is_True s3)) results in
    s4 ← getidx l 4;
    let results := setitem "assinado" (VBool (is_True s4)) results in
    assinado ← getitem results "assinado";
    let results :=
      setitem "numero_assinaturas" (VInt (if truthy assinado then 1 else 0)) results in
    aut_integ ← getidx l 5;
    let results := setitem "autenticidade_ok" (VBool (is_True aut_integ)) results in
    let results := setitem "integridade_ok" (VBool (is_True aut_integ)) results in
    s6 ← getidx l 6;
    let results := setitem "pesquisavel" (VBool (is_True s6)) results in
    s7 ← getidx l 7;
    results ←
      (if is_True s7 then Ret (setitem "resultado_final" (VStr "VALIDADO") results)
       else if is_False s7 then Ret (setitem "resultado_final" (VStr "NÃO VALIDADO") results)
       else
         r0 ← getitem results "extensao_valida";
         r1 ← getitem results "sem_senha";
         r2 ← getitem results "tamanho_arquivo_ok";
         r3 ← getitem results "tamanho_pagina_ok";
         r4 ← getitem results "assinado";
         r5 ← getitem results "autenticidade_ok";
         r6 ← getitem results "pesquisavel";
         let resultados_base := [r0; r1; r2; r3; r4; r5; r6] in
         Ret (setitem "resultado_final"
                (VStr (if forallb truthy resultados_base then "VALIDADO" else "NÃO VALIDADO"))
                results));
    let lower_text := str_lower (or_empty page_text) in
    results ←
      (if contains "nao assinado" lower_text || contains "não assinado" lower_text then
         assinado ← getitem results "assinado";
         if negb (truthy assinado)
         then Ret (setitem "mensagem_erro" (VStr "Arquivo não assinado") results)
         else Ret results
       else Ret results);
    Ret (results, true).

(** ** The polling loop of [validate_pdf_with_tcees] *)

Record PollState : Type := {
  waited : Z;
  stable_count : Z;
  last_signature : string;
  parsed_statuses : option (list status);
}.

Definition poll_interval : Z := 2.

Definition max_wait_of (quick_mode : bool) : Z := if quick_mode then 30 else 55.

Definition poll_start : PollState :=
  {| waited := 0; stable_count := 0; last_signature := EmptyString;
     parsed_statuses := None |}.

(** One pass through the body of the [while]; the boolean tells whether the
    pass ended in [break]. *)
Definition poll_body (s : Session) (st : PollState) : PollState * bool :=
  let waited' := waited st + poll_interval in
  let statuses := _extract_statuses_from_driver (page_at s waited') in
  if negb (falsy_list statuses) && (8 <=? len statuses) then
    let resolved := count_resolved (default [] statuses) in
    let signature := _statuses_signature statuses in
    if 6 <=? resolved then
      let '(stable_count', last_signature') :=
        if String.eqb signature (last_signature st)
        then (stable_count st + 1, last_signature st)
        else (0, signature) in
      ({| waited := waited'; stable_count := stable_count';
          last_signature := last_signature'; parsed_statuses := statuses |},
       1 <=? stable_count')
    else
      ({| waited := waited'; stable_count := stable_count st;
          last_signature := last_signature st;
          parsed_statuses := parsed_statuses st |}, false)
  else
    ({| waited := waited'; stable_count := stable_count st;
        last_signature := last_signature st;
        parsed_statuses := parsed_statuses st |}, false).

(** [while waited < max_wait: ...], returning the state at exit and whether
    the exit was the [break]. *)
Equations? poll_loop (s : Session) (max_wait : Z) (st : PollState) : PollState * bool
  by wf (Z.to_nat (max_wait - waited st)) lt :=
poll_loop s max_wait st with decide (waited st < max_wait) := {
  | left _ =>
      if (poll_body s st).2 then ((poll_body s st).1, true)
      else poll_loop s max_wait (poll_body s st).1
  | right _ => (st, false) }.
Proof.
  assert (waited (poll_body s st).1 = waited st + 2) as ->; [| lia].
  unfold poll_body.
  repeat match goal with
         | |- context [if ?b then _ else _] => destruct b
         end; reflexivity.
Qed.

(** ** [validate_pdf_with_tcees] *)

(** [x or y] on strings. *)
Definition str_or (x y : string) : string := if String.eqb x EmptyString then y else x.

(** The [try] block that reads [driver.page_source] and the text of the
    page body; on an exception both keep the value they had. *)
Definition read_page (driver : Page) : string * string :=
  match page_source driver with
  | Exc _ => (EmptyString, EmptyString)
  | Ret src =>
      let page_html := or_empty src in
      match body_text driver with
      | Exc _ => (page_html, EmptyString)
      | Ret txt => (page_html, or_empty txt)
      end
  end.

(** The value of [statuses] handed to [_apply_statuses_to_results]. *)
Definition select_statuses (s : Session) (parsed_statuses : option (list status))
    (page_html : string) : option (list status) :=
  let statuses := parsed_statuses in
  let statuses :=
    if falsy_list statuses then _extract_statuses_from_driver (page_final s) else statuses in
  let statuses :=
    if falsy_list statuses then _extract_statuses_from_html page_html else statuses in
  statuses.

Definition initial_results (nome_arquivo : string) (tamanho_bytes : Z)
    (data_validacao : string) : dict :=
  list_to_map
    [ ("nome_arquivo", VStr nome_arquivo);
      ("tamanho_bytes", VInt tamanho_bytes);
      ("data_validacao", VStr data_validacao);
      ("extensao_valida", VBool false);
      ("sem_senha", VBool false);
      ("tamanho_arquivo_ok", VBool false);
      ("tamanho_pagina_ok", VBool false);
      ("assinado", VBool false);
      ("numero_assinaturas", VInt 0);
      ("autenticidade_ok", VBool false);
      ("integridade_ok", VBool false);
      ("pesquisavel", VBool false);
      ("resultado_final", VStr "ERRO");
      ("pontuacao", VInt 0);
      ("titular_certificado", VStr EmptyString);
      ("emissor_certificado", VStr EmptyString);
      ("validade_certificado", VStr EmptyString);
      ("mensagem_erro", VStr EmptyString) ].

(** The statements under [if not parsed_ok:]. *)
Definition parse_fallback (fs : FS) (pdf_path : string) (results : dict) : res dict :=
  let results :=
    setitem "extensao_valida"
      (VBool (String.eqb (str_lower (os_path_splitext pdf_path).2) ".pdf")) results in
  size ← os_path_getsize fs pdf_path;
  let results := setitem "tamanho_arquivo_ok" (VBool (0 <? size)) results in
  let results :=
    setitem "mensagem_erro"
      (VStr "Não foi possível interpretar a resposta do TCEES.") results in
  Ret (setitem "resultado_final" (VStr "ERRO") results).

(** The statements from [campos_ok = sum([...])] to [return results]. *)
Definition with_pontuacao (results : dict) : res dict :=
  v0 ← getitem results "extensao_valida";
  v1 ← getitem results "sem_senha";
  v2 ← getitem results "tamanho_arquivo_ok";
  v3 ← getitem results "tamanho_pagina_ok";
  v4 ← getitem results "assinado";
  v5 ← getitem results "autenticidade_ok";
  v6 ← getitem results "pesquisavel";
  campos_ok ← py_sum [v0; v1; v2; v3; v4; v5; v6];
  pontuacao ← pontuacao_of campos_ok;
  Ret (setitem "pontuacao" (VInt pontuacao) results).

(** The body of the [try].  Printing, sleeping, the optional debug dump of
    the page and the closing of the browser leave the returned record
    untouched and are not represented. *)
Definition validate_body (fs : FS) (s : Session) (pdf_path : string)
    (quick_mode : bool) : res dict :=
  let max_wait := max_wait_of quick_mode in
  _ ← chrome_start s;
  _ ← driver_get s;
  _ ← send_file s;
  let parsed_statuses := parsed_statuses (poll_loop s max_wait poll_start).1 in
  tamanho_bytes ← os_path_getsize fs pdf_path;
  let results :=
    initial_results (os_path_basename pdf_path) tamanho_bytes (strftime_now s) in
  let '(page_html, page_text) := read_page (page_final s) in
  let statuses := select_statuses s parsed_statuses page_html in
  '(results, parsed_ok) ← _apply_statuses_to_results results statuses (Some page_text);
  results ← (if negb parsed_ok then parse_fallback fs pdf_path results else Ret results);
  with_pontuacao results.

(** The record returned when the file does not exist. *)
Definition not_found_result (pdf_path : string) : dict :=
  list_to_map
    [ ("nome_arquivo", VStr (os_path_basename pdf_path));
      ("resultado_final", VStr "ERRO");
      ("pontuacao", VInt 0);
      ("erro", VStr ("Arquivo não encontrado: " +:+ pdf_path)) ].

(** The record returned by the [except Exception as error] handler. *)
Definition error_result (pdf_path : string) (error : string) : dict :=
  let '(error_code, friendly_error) := _friendly_network_error error in
  list_to_map
    [ ("nome_arquivo", VStr (os_path_basename pdf_path));
      ("extensao_valida", VBool false);
      ("sem_senha", VBool false);
      ("tamanho_arquivo_ok", VBool false);
      ("tamanho_pagina_ok", VBool false);
      ("assinado", VBool false);
      ("numero_assinaturas", VInt 0);
      ("autenticidade_ok", VBool false);
      ("integridade_ok", VBool false);
      ("pesquisavel", VBool false);
      ("resultado_final", VStr "ERRO");
      ("pontuacao", VInt 0);
      ("titular_certificado", VStr EmptyString);
      ("emissor_certificado", VStr EmptyString);
      ("validade_certificado", VStr EmptyString);
      ("erro", VStr (str_or friendly_error error));
      ("erro_codigo", VStr (str_or (or_empty error_code) "TCEES_VALIDATION_ERROR"));
      ("erro_tecnico", VStr error) ].

(** [build_chrome_options()], called between the file test and the [try],
    only reads the environment.  The screenshot the handler attempts and
    the [finally] clause that closes the browser swallow their own
    exceptions and do not change what is returned. *)
Definition validate_pdf_with_tcees (fs : FS) (s : Session) (pdf_path : string)
    (quick_mode : bool) : res dict :=
  if negb (os_path_isfile fs pdf_path) then Ret (not_found_result pdf_path)
  else
    try_except (validate_body fs s pdf_path quick_mode)
               (fun error => Ret (error_result pdf_path error)).

(** ** [validate_multiple_pdfs] *)

(** [ThreadPoolExecutor(max_workers=n)]: the constructor rejects a
    non-positive size. *)
Definition ThreadPoolExecutor (max_workers : Z) : res unit :=
  if max_workers <=? 0 then Exc "max_workers must be greater than 0" else Ret tt.

(** Results of the calls [f 0 x0], [f 1 x1], ... in order; the first
    exception met is raised. *)
Fixpoint map_indexed {A B} (f : nat -> A -> res B) (i : nat) (l : list A) : res (list B) :=
  match l with
  | [] => Ret []
  | x :: rest =>
      y ← f i x;
      ys ← map_indexed f (S i) rest;
      Ret (y :: ys)
  end.

(** [list(executor.map(f, items))].  Each call runs in its own worker;
    [pool_error] is an exception the pool itself raises (a worker that
    cannot be started, for instance). *)
Definition executor_map {A B} (pool_error : option string) (f : nat -> A -> res B)
    (items : list A) : res (list B) :=
  match pool_error with
  | Some e => Exc e
  | None => map_indexed f 0%nat items
  end.

(** [sessions i] is the browser run of the [i]-th call. *)
Definition validate_multiple_pdfs (fs : FS) (sessions : nat -> Session)
    (pool_error : option string) (pdf_paths : list string) (max_workers : Z)
    : res (list dict) :=
  if bool_decide (pdf_paths = []) then Ret []
  else
    let pdf_paths := take 3 pdf_paths in
    _ ← ThreadPoolExecutor (Z.min max_workers (Z.of_nat (length pdf_paths)));
    try_except
      (executor_map pool_error
         (fun i pdf_path => validate_pdf_with_tcees fs (sessions i) pdf_path false)
         pdf_paths)
      (fun error =>
         Ret (map (fun pdf_path =>
                     list_to_map
                       [ ("nome_arquivo", VStr (os_path_basename pdf_path));
                         ("resultado_final", VStr "ERRO");
                         ("erro", VStr error) ] : dict)
                  pdf_paths)).

End Validator.

(* ===================================================================== *)
(** * tcees_validator.py: locating and configuring Chrome *)
(* ===================================================================== *)

(** The machine the validator runs on, as far as these functions look at
    it. *)
Record Host : Type := {
  (** [os.getenv(name)] *)
  os_getenv : string -> option string;
  (** [shutil.which(name)] *)
  shutil_which : string -> option string;
  (** [os.path.exists(path)] *)
  os_path_exists : string -> bool;
}.

(** [os.getenv(name, default)] *)
Definition os_getenv_default (h : Host) (name default_value : string) : string :=
  default default_value (os_getenv h name).

(** Truthiness of an optional string: [None] and [''] are false. *)
Definition truthy_str (s : option string) : bool :=
  match s with
  | Some s => negb (String.eqb s EmptyString)
  | None => false
  end.

Fixpoint _first_existing_path (h : Host) (candidates : list (option string))
    : option string :=
  match candidates with
  | [] => None
  | candidate :: rest =>
      if truthy_str candidate && os_path_exists h (or_empty candidate) then candidate
      else _first_existing_path h rest
  end.

Definition get_chrome_binary_path (h : Host) : option string :=
  let env_candidates :=
    [ os_getenv h "CHROME_BIN"; os_getenv h "GOOGLE_CHROME_BIN"; os_getenv h "CHROMIUM_BIN" ] in
  let which_candidates :=
    [ shutil_which h "google-chrome"; shutil_which h "google-chrome-stable";
      shutil_which h "chromium"; shutil_which h "chromium-browser";
      shutil_which h "chrome" ] in
  let common_paths :=
    [ Some "/usr/bin/google-chrome"; Some "/usr/bin/google-chrome-stable";
      Some "/usr/bin/chromium"; Some "/usr/bin/chromium-browser" ] in
  _first_existing_path h (env_candidates ++ which_candidates ++ common_paths).

Definition get_chrome_driver_path (h : Host) : option string :=
  let env_candidates :=
    [ os_getenv h "CHROMEDRIVER_PATH"; os_getenv h "SELENIUM_CHROMEDRIVER";
      os_getenv h "SELENIUM_DRIVER_PATH" ] in
  let which_candidates := [ shutil_which h "chromedriver" ] in
  let common_paths :=
    [ Some "/usr/bin/chromedriver"; Some "/usr/local/bin/chromedriver";
      Some "/snap/bin/chromium.chromedriver" ] in
  _first_existing_path h (env_candidates ++ which_candidates ++ common_paths).

(** Selenium's [Options] object, as far as the function sets it. *)
Record Options : Type := {
  arguments : list string;
  page_load_strategy : string;
  binary_location : string;
}.

(** [Options()] *)
Definition Options_new : Options :=
  {| arguments := []; page_load_strategy := "normal"; binary_location := EmptyString |}.

(** [options.add_argument(argument)] *)
Definition add_argument (argument : string) (o : Options) : Options :=
  {| arguments := arguments o ++ [argument];
     page_load_strategy := page_load_strategy o;
     binary_location := binary_location o |}.

Definition build_chrome_options (h : Host) : Options :=
  let chrome_options := Options_new in
  let chrome_options := add_argument "--headless" chrome_options in
  let chrome_options := add_argument "--no-sandbox" chrome_options in
  let chrome_options := add_argument "--disable-dev-shm-usage" chrome_options in
  let chrome_options := add_argument "--disable-gpu" chrome_options in
  let chrome_options := add_argument "--disable-software-rasterizer" chrome_options in
  let chrome_options := add_argument "--disable-extensions" chrome_options in
  let chrome_options := add_argument "--disable-infobars" chrome_options in
  let chrome_options := add_argument "--disable-notifications" chrome_options in
  let chrome_options := add_argument "--blink-settings=imagesEnabled=false" chrome_options in
  let chrome_options := add_argument "--window-size=1366,768" chrome_options in
  let chrome_options := add_argument "--lang=pt-BR" chrome_options in
  let chrome_options :=
    if String.eqb (os_getenv_default h "TCEES_DISABLE_CHROME_PROXY" "0") "1" then
      let chrome_options := add_argument "--no-proxy-server" chrome_options in
      let chrome_options := add_argument "--proxy-server=direct://" chrome_options in
      add_argument "--proxy-bypass-list=*" chrome_options
    else chrome_options in
  let chrome_options :=
    {| arguments := arguments chrome_options;
       page_load_strategy := "eager";
       binary_location := binary_location chrome_options |} in
  let chrome_binary := get_chrome_binary_path h in
  if truthy_str chrome_binary then
    {| arguments := arguments chrome_options;
       page_load_strategy := page_load_strategy chrome_options;
       binary_location := or_empty chrome_binary |}
  else chrome_options.

(* ===================================================================== *)
(** * tcees_service.py *)
(* ===================================================================== *)

Section Service.
Context `{PyRuntime}.

(** An uploaded file of the request: its declared name and its bytes. *)
Record FileStorage : Type := {
  filename : string;
  stream : string;
}.

Record Request : Type := {
  (** [request.headers.get(name)] *)
  headers_get : string -> option string;
  (** [request.files] *)
  files : gmap string FileStorage;
}.

(** The two module-level settings read from the environment at start-up. *)
Record Config : Type := {
  API_SECRET : string;
  MAX_FILE_MB : Z;
}.

(** Settings when neither environment variable is defined. *)
Definition default_config : Config := {| API_SECRET := EmptyString; MAX_FILE_MB := 20 |}.

(** What a request meets outside the service: the name handed out by
    [tempfile.NamedTemporaryFile] and the browser run of the validator. *)
Record Env : Type := {
  tmp_name : string;
  session : Session;
}.

(** Body and status code of a JSON response. *)
Abbreviation Response := (dict * Z)%type.

Definition _auth_ok (cfg : Config) (req : Request) : bool :=
  if String.eqb (API_SECRET cfg) EmptyString then true
  else bool_decide (headers_get req "X-API-Secret" = Some (API_SECRET cfg)).

(** [uploaded.tell() / (1024 * 1024)] after seeking to the end.  Dividing
    by a power of two is exact in binary64 for every length below [2^53],
    so the quotient is kept as a rational. *)
Definition size_mb_of (uploaded : FileStorage) : Q :=
  (inject_Z (Z.of_nat (String.length (stream uploaded))) / inject_Z (1024 * 1024))%Q.

(** The [finally] clause: [os.unlink(tmp_path)], any exception ignored. *)
Definition unlink_quietly (fs : FS) (tmp_path : string) : FS :=
  match os_unlink fs tmp_path with
  | Ret fs' => fs'
  | Exc _ => fs
  end.

(** [POST /validate]: the file system after the request and the response
    (an exception that leaves the handler is [Exc]).  The file system
    followed is that of the handler itself, the temporary file it saves and
    removes; the files the validator may write while it runs (the debug
    dump of the page, the screenshot taken when the run fails) are not
    represented. *)
Definition validate (cfg : Config) (env : Env) (fs : FS) (request : Request)
    : FS * res Response :=
  if negb (_auth_ok cfg request) then
    (fs, Ret (list_to_map
                [ ("resultado_final", VStr "ERRO");
                  ("erro", VStr "Não autorizado.");
                  ("erro_codigo", VStr "AUTH_ERROR") ], 401))
  else
    match files request !! "file" with
    | None =>
        (fs, Ret (list_to_map
                    [ ("resultado_final", VStr "ERRO");
                      ("erro", VStr "Nenhum arquivo enviado (campo 'file').");
                      ("erro_codigo", VStr "NO_FILE") ], 400))
    | Some uploaded =>
        if negb (endswith ".pdf" (str_lower (filename uploaded))) then
          (fs, Ret (list_to_map
                      [ ("resultado_final", VStr "ERRO");
                        ("erro", VStr "Apenas arquivos PDF são aceitos.");
                        ("erro_codigo", VStr "NOT_PDF") ], 400))
        else
          let size_mb := size_mb_of uploaded in
          if negb (Qle_bool size_mb (inject_Z (MAX_FILE_MB cfg))) then
            (fs, Ret (list_to_map
                        [ ("resultado_final", VStr "ERRO");
                          ("erro", VStr ("Arquivo excede " +:+ pretty (MAX_FILE_MB cfg)
                                         +:+ " MB."));
                          ("erro_codigo", VStr "FILE_TOO_LARGE") ], 413))
          else
            let tmp_path := tmp_name env in
            let fs := <[tmp_path := stream uploaded]> fs in
            match validate_pdf_with_tcees fs (session env) tmp_path false with
            | Ret resultado =>
                let resultado := setitem "nome_arquivo" (VStr (filename uploaded)) resultado in
                (unlink_quietly fs tmp_path, Ret (resultado, 200))
            | Exc e => (unlink_quietly fs tmp_path, Exc e)
            end
    end.

End Service.

(* ===================================================================== *)
(** * A runtime to evaluate the model on concrete inputs *)
(* ===================================================================== *)

(** The functions below follow CPython on the inputs the examples use:
    letters of ASCII and of the Latin-1 supplement, POSIX paths, and result
    cells written [<div class=d-inline-block>] with the class in double
    quotes and no other attribute. *)

Local Open Scope nat_scope.

(** Continuation byte of a UTF-8 sequence. *)
Definition is_continuation (c : ascii) : bool :=
  let n := nat_of_ascii c in (128 <=? n) && (n <? 192).

Fixpoint cpython_lower (s : string) : string :=
  match s with
  | EmptyString => EmptyString
  | String c rest =>
      let n := nat_of_ascii c in
      if (65 <=? n) && (n <=? 90) then String (ascii_of_nat (n + 32)) (cpython_lower rest)
      else if n =? 195 then
        match rest with
        | EmptyString => String c EmptyString
        | String d rest' =>
            let m := nat_of_ascii d in
            if (128 <=? m) && (m <=? 158) && negb (m =? 151)
            then String c (String (ascii_of_nat (m + 32)) (cpython_lower rest'))
            else String c (String d (cpython_lower rest'))
        end
      else String c (cpython_lower rest)
  end.

Fixpoint cpython_upper (s : string) : string :=
  match s with
  | EmptyString => EmptyString
  | String c rest =>
      let n := nat_of_ascii c in
      if (97 <=? n) && (n <=? 122) then String (ascii_of_nat (n - 32)) (cpython_upper rest)
      else if n =? 195 then
        match rest with
        | EmptyString => String c EmptyString
        | String d rest' =>
            let m := nat_of_ascii d in
            if (160 <=? m) && (m <=? 190) && negb (m =? 183)
            then String c (String (ascii_of_nat (m - 32)) (cpython_upper rest'))
            else String c (String d (cpython_upper rest'))
        end
      else String c (cpython_upper rest)
  end.

(** The part of [s] after the last [sep], all of [s] when there is none. *)
Fixpoint after_last (sep : ascii) (s : string) : string :=
  match s with
  | EmptyString => EmptyString
  | String c rest =>
      if contains (String sep EmptyString) rest then after_last sep rest
      else if Ascii.eqb c sep then rest
      else s
  end.

Definition posix_basename (p : string) : string := after_last "/" p.

Fixpoint strip_leading_dots (s : string) : string :=
  match s with
  | String "." rest => strip_leading_dots rest
  | _ => s
  end.

Definition posix_splitext (p : string) : string * string :=
  let stem := strip_leading_dots (posix_basename p) in
  if contains "." stem then
    let ext := String "." (after_last "." stem) in
    (String.substring 0 (String.length p - String.length ext) p, ext)
  else (p, EmptyString).

(** Index, in code points, of the first occurrence of [sub] in [s]. *)
Fixpoint find_from (sub s : string) (i : Z) : Z :=
  if String.prefix sub s then i
  else match s with
       | EmptyString => (-1)%Z
       | String c rest => find_from sub rest (if is_continuation c then i else (i + 1)%Z)
       end.

Fixpoint drop_code_points (n : nat) (s : string) : string :=
  match s with
  | EmptyString => EmptyString
  | String c rest =>
      if is_continuation c then drop_code_points n rest
      else match n with
           | O => s
           | S n' => drop_code_points n' rest
           end
  end.

Fixpoint take_code_points (n : nat) (s : string) : string :=
  match s with
  | EmptyString => EmptyString
  | String c rest =>
      if is_continuation c then String c (take_code_points n rest)
      else match n with
           | O => EmptyString
           | S n' => String c (take_code_points n' rest)
           end
  end.

(** [s[i:j]] for [0 <= i <= j]. *)
Definition slice_code_points (s : string) (i j : Z) : string :=
  take_code_points (Z.to_nat (j - i)) (drop_code_points (Z.to_nat i) s).

Definition cell_open : string := "<div class=" +:+ dquote +:+ "d-inline-block" +:+ dquote +:+ ">".
Definition cell_close : string := "</div>".

(** Contents of the successive cells of [s]: [skip] bytes are still to be
    passed over, [cur] is the content read so far of the cell being read. *)
Fixpoint scan_cells (s : string) (skip : nat) (cur : option string) : list string :=
  match s with
  | EmptyString => []
  | String c rest =>
      match skip with
      | S k => scan_cells rest k cur
      | O =>
          match cur with
          | None =>
              if String.prefix cell_open s
              then scan_cells rest (String.length cell_open - 1) (Some EmptyString)
              else scan_cells rest 0 None
          | Some acc =>
              if String.prefix cell_close s
              then acc :: scan_cells rest (String.length cell_close - 1) None
              else scan_cells rest 0 (Some (acc +:+ String c EmptyString))
          end
      end
  end.

Local Close Scope nat_scope.

#[global] Instance example_runtime : PyRuntime := {|
  str_lower := cpython_lower;
  str_upper := cpython_upper;
  os_path_basename := posix_basename;
  os_path_splitext := posix_splitext;
  str_find := fun s sub => find_from sub s 0;
  str_slice := slice_code_points;
  re_findall_cells := fun s => scan_cells s 0 None;
|}.

(* ===================================================================== *)
(** * Concrete pages, sessions and requests *)
(* ===================================================================== *)

Definition cell_of (inner : string) : WebElement :=
  {| get_attribute_innerHTML := Ret (Some inner) |}.

Definition cell_ok : WebElement := cell_of "<i class='fa fa-check text-success'></i>".
Definition cell_bad : WebElement := cell_of "<i class='fa fa-times text-danger'></i>".
Definition cell_pending : WebElement := cell_of "<i class='fa fa-spinner'></i>".

(** A page whose result area holds [cells], whatever selector is used. *)
Definition page_with (cells : list WebElement) : Page :=
  {| find_elements := fun _ => Ret cells;
     page_source := Ret (Some "<html><body><div id='validacoes-arquivo'></div></body></html>");
     body_text := Ret (Some "Conformidade PDF") |}.

(** The portal has not rendered anything yet. *)
Definition page_blank : Page := page_with [].

(** Signed, valid document: the eight icons are check marks. *)
Definition page_all_ok : Page := page_with (replicate 8 cell_ok).

(** Unsigned document: signature, authenticity and verdict fail. *)
Definition page_unsigned : Page :=
  page_with [cell_ok; cell_ok; cell_ok; cell_ok; cell_bad; cell_bad; cell_ok; cell_bad].

Definition session_on (pages : Z -> Page) (final : Page) : Session :=
  {| chrome_start := Ret tt; driver_get := Ret tt; send_file := Ret tt;
     page_at := pages; page_final := final;
     strftime_now := "2024-05-06 10:00:00" |}.

(** The result is on the page from the first poll on. *)
Definition session_ok : Session := session_on (fun _ => page_all_ok) page_all_ok.

Definition session_unsigned : Session := session_on (fun _ => page_unsigned) page_unsigned.

(** The portal never answers. *)
Definition session_silent : Session := session_on (fun _ => page_blank) page_blank.

(** The result shows at the first poll, the page is blank at the second
    poll, the same result shows again at the third, and nothing after. *)
Definition session_gap : Session :=
  session_on (fun waited => if (waited =? 2) || (waited =? 6) then page_all_ok else page_blank)
             page_blank.

(** Every check passed but the portal shows no verdict yet. *)
Definition page_no_verdict : Page :=
  page_with [cell_ok; cell_ok; cell_ok; cell_ok; cell_ok; cell_ok; cell_ok; cell_pending].

Definition session_no_verdict : Session := session_on (fun _ => page_no_verdict) page_no_verdict.

(** The page changes between every two polls: the odd polls show the
    unsigned result, the even polls the valid one. *)
Definition session_flicker : Session :=
  session_on (fun waited => if Z.even (waited / 2) then page_all_ok else page_unsigned)
             page_blank.

(** The upload control never appears. *)
Definition session_timeout : Session :=
  {| chrome_start := Ret tt; driver_get := Ret tt;
     send_file := Exc "Message: timeout: Timed out receiving message from renderer";
     page_at := fun _ => page_blank; page_final := page_blank;
     strftime_now := "2024-05-06 10:00:00" |}.

(** Chrome cannot be started. *)
Definition session_no_chrome : Session :=
  {| chrome_start := Exc "Message: unknown error: cannot find Chrome binary";
     driver_get := Ret tt; send_file := Ret tt;
     page_at := fun _ => page_blank; page_final := page_blank;
     strftime_now := "2024-05-06 10:00:00" |}.

Definition fs_doc : FS := {[ "/srv/uploads/doc.pdf" := "%PDF-1.4 example" ]}.

Definition upload_small : FileStorage :=
  {| filename := "Contrato.PDF"; stream := "%PDF-1.4 example" |}.

(** An upload whose name does not end in .pdf. *)
Definition upload_text : FileStorage := {| filename := "notes.txt"; stream := "hello" |}.

Definition request_plain (f : FileStorage) : Request :=
  {| headers_get := fun _ => None; files := {[ "file" := f ]} |}.

Definition request_with_secret (secret : string) (f : FileStorage) : Request :=
  {| headers_get := fun name => if String.eqb name "X-API-Secret" then Some secret else None;
     files := {[ "file" := f ]} |}.

Definition env_ok : Env := {| tmp_name := "/tmp/tmpab12_0f3c.pdf"; session := session_ok |}.

Definition config_secret : Config := {| API_SECRET := "s3cret"; MAX_FILE_MB := 20 |}.

(** A limit of zero megabytes: every non-empty upload is too large. *)
Definition config_zero : Config := {| API_SECRET := EmptyString; MAX_FILE_MB := 0 |}.

Definition doc_path : string := "/srv/uploads/doc.pdf".

(** The record a call returned, the empty record if it raised. *)
Definition record_of (r : res dict) : dict :=
  match r with
  | Ret d => d
  | Exc _ => ∅
  end.

(** A host where only the distribution's Chromium and its driver are
    installed, both on the search path. *)
Definition host_chromium : Host :=
  {| os_getenv := fun _ => None;
     shutil_which := fun name =>
       if String.eqb name "chromium" then Some "/usr/bin/chromium"
       else if String.eqb name "chromedriver" then Some "/usr/bin/chromedriver"
       else None;
     os_path_exists := fun path =>
       String.eqb path "/usr/bin/chromium" || String.eqb path "/usr/bin/chromedriver" |}.

(** The same host with the environment pointing at a Chrome of its own and
    asking for a direct connection. *)
Definition host_custom : Host :=
  {| os_getenv := fun name =>
       if String.eqb name "CHROME_BIN" then Some "/opt/chrome/chrome"
       else if String.eqb name "TCEES_DISABLE_CHROME_PROXY" then Some "1"
       else None;
     shutil_which := shutil_which host_chromium;
     os_path_exists := fun path =>
       String.eqb path "/opt/chrome/chrome" || os_path_exists host_chromium path |}.

(** An upload of zero bytes. *)
Definition upload_empty : FileStorage := {| filename := "vazio.pdf"; stream := EmptyString |}.
(* ===================================================================== *)
(** * Vocabulary of the properties *)
(* ===================================================================== *)

(** ** Markers of a cell *)

Definition has_success_marker (html : string) : Prop :=
  contains "fa-check" html = true
  ∨ contains "text-success" html = true
  ∨ contains ("title=" +:+ dquote +:+ "ok" +:+ dquote) html = true.

Definition has_failure_marker (html : string) : Prop :=
  contains "fa-close" html = true
  ∨ contains "fa-times" html = true
  ∨ contains "text-danger" html = true
  ∨ contains "nao assinado" html = true
  ∨ contains "não assinado" html = true
  ∨ contains "invalido" html = true
  ∨ contains "inválido" html = true
  ∨ contains "erro" html = true.


(** ** Positional reading of a status list *)

(** [statuses[i] is True] *)
Definition True_at (l : list status) (i : nat) : bool :=
  bool_decide (l !! i = Some (Some true)).

(** [statuses[i] is False] *)
Definition False_at (l : list status) (i : nat) : bool :=
  bool_decide (l !! i = Some (Some false)).

(** The verdict: the eighth status when it is resolved, otherwise the
    conjunction of the seven base checks. *)
Definition verdict_of (l : list status) : string :=
  if True_at l 7 then "VALIDADO"
  else if False_at l 7 then "NÃO VALIDADO"
  else if forallb (True_at l) [0; 1; 2; 3; 4; 5; 6]%nat then "VALIDADO"
  else "NÃO VALIDADO".

(** The record after the ten positional assignments. *)
Definition positional_update (results : dict) (l : list status) : dict :=
  setitem "resultado_final" (VStr (verdict_of l))
    (setitem "pesquisavel" (VBool (True_at l 6))
    (setitem "integridade_ok" (VBool (True_at l 5))
    (setitem "autenticidade_ok" (VBool (True_at l 5))
    (setitem "numero_assinaturas" (VInt (if True_at l 4 then 1 else 0))
    (setitem "assinado" (VBool (True_at l 4))
    (setitem "tamanho_pagina_ok" (VBool (True_at l 3))
    (setitem "tamanho_arquivo_ok" (VBool (True_at l 2))
    (setitem "sem_senha" (VBool (True_at l 1))
    (setitem "extensao_valida" (VBool (True_at l 0)) results))))))))).

(** ** Routes through [validate_pdf_with_tcees] *)

(** The list handed to [_apply_statuses_to_results] in a run. *)
Definition statuses_for_results `{PyRuntime} (s : Session) (quick_mode : bool)
    : option (list status) :=
  select_statuses s
    (parsed_statuses (poll_loop s (max_wait_of quick_mode) poll_start).1)
    (read_page (page_final s)).1.

(** The four ways the function returns. *)
Inductive route : Type :=
| NotFound
| Raised (error : string)
| ParseFailed
| Parsed.

Definition route_of `{PyRuntime} (fs : FS) (s : Session) (pdf_path : string)
    (quick_mode : bool) : route :=
  if negb (os_path_isfile fs pdf_path) then NotFound
  else match validate_body fs s pdf_path quick_mode with
       | Exc error => Raised error
       | Ret _ =>
           if 8 <=? len (statuses_for_results s quick_mode) then Parsed else ParseFailed
       end.

(** ** The score *)

(** The seven check fields that count. *)
Definition campos : list string :=
  [ "extensao_valida"; "sem_senha"; "tamanho_arquivo_ok"; "tamanho_pagina_ok";
    "assinado"; "autenticidade_ok"; "pesquisavel" ].

(** [d[k]] is [True]. *)
Definition field_True (d : dict) (k : string) : bool :=
  bool_decide (d !! k = Some (VBool true)).

(** Number of [True] values among the seven check fields of [d]. *)
Definition campos_True (d : dict) : Z :=
  foldr (fun k acc => Z.b2z (field_True d k) + acc) 0 campos.

(** A record whose seven check fields hold booleans. *)
Definition bool_campos (d : dict) (b0 b1 b2 b3 b4 b5 b6 : bool) : Prop :=
  d !! "extensao_valida" = Some (VBool b0)
  ∧ d !! "sem_senha" = Some (VBool b1)
  ∧ d !! "tamanho_arquivo_ok" = Some (VBool b2)
  ∧ d !! "tamanho_pagina_ok" = Some (VBool b3)
  ∧ d !! "assinado" = Some (VBool b4)
  ∧ d !! "autenticidade_ok" = Some (VBool b5)
  ∧ d !! "pesquisavel" = Some (VBool b6).

(** The record after the four assignments of the parse-failure fallback. *)
Definition fallback_update `{PyRuntime} (results : dict) (pdf_path : string) (size : Z) : dict :=
  setitem "resultado_final" (VStr "ERRO")
    (setitem "mensagem_erro" (VStr "Não foi possível interpretar a resposta do TCEES.")
    (setitem "tamanho_arquivo_ok" (VBool (0 <? size))
    (setitem "extensao_valida"
       (VBool (String.eqb (str_lower (os_path_splitext pdf_path).2) ".pdf")) results))).

(** The shapes of the record that reaches the computation of the score. *)
Inductive scored_record `{PyRuntime} (s : Session) (pdf_path : string) (quick_mode : bool)
    (size : Z) (results : dict) : Prop :=
| scored_parsed (l : list status) :
    statuses_for_results s quick_mode = Some l →
    (8 ≤ length l)%nat →
    results = positional_update
                (initial_results (os_path_basename pdf_path) size (strftime_now s)) l
    ∨ results = setitem "mensagem_erro" (VStr "Arquivo não assinado")
                  (positional_update
                     (initial_results (os_path_basename pdf_path) size (strftime_now s)) l) →
    scored_record s pdf_path quick_mode size results
| scored_fallback :
    len (statuses_for_results s quick_mode) < 8 →
    results = fallback_update
                (initial_results (os_path_basename pdf_path) size (strftime_now s))
                pdf_path size →
    scored_record s pdf_path quick_mode size results.

(** The eight boolean check fields of a record. *)
Definition check_fields : list string :=
  [ "extensao_valida"; "sem_senha"; "tamanho_arquivo_ok"; "tamanho_pagina_ok";
    "assinado"; "autenticidade_ok"; "integridade_ok"; "pesquisavel" ].

(** ** Network error codes *)

(** The five network codes in the order they are tried, each with the
    substrings of the uppercased exception text that select it. *)
Definition network_codes : list (string * list string) :=
  [ ("TCEES_NETWORK_BLOCKED", ["ERR_TUNNEL_CONNECTION_FAILED"]);
    ("TCEES_DNS_ERROR", ["ERR_NAME_NOT_RESOLVED"]);
    ("TCEES_TIMEOUT", ["ERR_CONNECTION_TIMED_OUT"; "TIMEOUT"]);
    ("TCEES_CONNECTION_REFUSED", ["ERR_CONNECTION_REFUSED"]);
    ("TCEES_CONNECTION_CLOSED", ["ERR_CONNECTION_CLOSED"]) ].

(** The first code of [table] one of whose markers occurs in [upper]. *)
Fixpoint first_matching (table : list (string * list string)) (upper : string)
    : option string :=
  match table with
  | [] => None
  | (code, markers) :: rest =>
      if existsb (fun marker => contains marker upper) markers then Some code
      else first_matching rest upper
  end.

(** ** The upload limit *)

(** The upload is larger than the limit: its size in megabytes strictly
    exceeds [MAX_FILE_MB]. *)
Definition too_large (cfg : Config) (uploaded : FileStorage) : Prop :=
  (inject_Z (MAX_FILE_MB cfg) < size_mb_of uploaded)%Q.

(** ** Polling *)

(** What the [k]-th poll reads, for [k = 1, 2, ...]. *)
Definition observed `{PyRuntime} (s : Session) (k : nat) : option (list status) :=
  _extract_statuses_from_driver (page_at s (poll_interval * Z.of_nat k)).

(** A poll that counts: it yields a list of at least eight statuses of
    which at least six are resolved. *)
Definition qualifies (statuses : option (list status)) : bool :=
  negb (falsy_list statuses) && (8 <=? len statuses)
  && (6 <=? count_resolved (default [] statuses)).

(** The largest number of polls of a run. *)
Definition max_polls (quick_mode : bool) : nat := if quick_mode then 15%nat else 28%nat.

(** Polls [k] and [k + 1] both count and have identical signatures. *)
Definition consecutive_stable `{PyRuntime} (s : Session) (k : nat) : Prop :=
  qualifies (observed s k) = true
  ∧ qualifies (observed s (S k)) = true
  ∧ _statuses_signature (observed s k) = _statuses_signature (observed s (S k)).

(** Poll [k] counts and has the signature of the latest earlier poll that
    counts; the polls in between do not count. *)
Definition repeats_last `{PyRuntime} (s : Session) (k : nat) : Prop :=
  qualifies (observed s k) = true
  ∧ ∃ j, (1 ≤ j < k)%nat
         ∧ qualifies (observed s j) = true
         ∧ (∀ i, (j < i < k)%nat → qualifies (observed s i) = false)
         ∧ _statuses_signature (observed s j) = _statuses_signature (observed s k).

(** The state of the loop after [n] polls none of which ended it. *)
Definition poll_invariant `{PyRuntime} (s : Session) (n : nat) (st : PollState) : Prop :=
  waited st = poll_interval * Z.of_nat n
  ∧ stable_count st = 0
  ∧ ((∃ j, (1 ≤ j ≤ n)%nat
           ∧ qualifies (observed s j) = true
           ∧ (∀ i, (j < i ≤ n)%nat → qualifies (observed s i) = false)
           ∧ last_signature st = _statuses_signature (observed s j)
           ∧ parsed_statuses st = observed s j)
     ∨ ((∀ i, (1 ≤ i ≤ n)%nat → qualifies (observed s i) = false)
        ∧ last_signature st = EmptyString
        ∧ parsed_statuses st = None)).

(** ** Signatures *)

(** The signature of a list, without the test for emptiness. *)
Definition signature_chars (l : list status) : string :=
  fold_right (fun s acc => status_char s +:+ acc) EmptyString l.

(** ** Reading the statuses off the page *)

(** What one selector contributes: the statuses of its first eight cells,
    nothing when the lookup raises or finds fewer than eight cells. *)
Definition selector_statuses `{PyRuntime} (driver : Page) (selector : string)
    : option (list status) :=
  match find_elements driver selector with
  | Exc _ => None
  | Ret cells =>
      if Z.of_nat (length cells) <? 8 then None
      else Some (map (fun cell => _status_from_cell_html (Some (cell_inner_html cell)))
                     (take 8 cells))
  end.

(** The accumulators of the loop over the selectors: the count kept is that
    of the candidate kept, and it is negative while there is none. *)
Definition best_so_far (best_candidate : option (list status)) (best_resolved : Z) : Prop :=
  match best_candidate with
  | Some l => best_resolved = count_resolved l
  | None => best_resolved < 0
  end.

(** Nothing, or exactly eight statuses. *)
Definition eight_or_none (statuses : option (list status)) : Prop :=
  match statuses with
  | Some l => length l = 8%nat
  | None => True
  end.

(** ** Keys of the record *)

(** The keys [_apply_statuses_to_results] may write. *)
Definition applied_keys : list string :=
  [ "extensao_valida"; "sem_senha"; "tamanho_arquivo_ok"; "tamanho_pagina_ok";
    "assinado"; "numero_assinaturas"; "autenticidade_ok"; "integridade_ok";
    "pesquisavel"; "resultado_final"; "mensagem_erro" ].

(** The page text says that the file is not signed. *)
Definition says_unsigned `{PyRuntime} (page_text : option string) : bool :=
  contains "nao assinado" (str_lower (or_empty page_text))
  || contains "não assinado" (str_lower (or_empty page_text)).

(** The three certificate fields of a record. *)
Definition certificate_fields : list string :=
  [ "titular_certificado"; "emissor_certificado"; "validade_certificado" ].

(** ** Locating and configuring Chrome *)

(** A candidate that can be returned: a non-empty path that exists. *)
Definition usable_candidate (h : Host) (candidate : option string) : bool :=
  truthy_str candidate && os_path_exists h (or_empty candidate).

(** The candidates of the two look-ups, in the order they are tried. *)
Definition chrome_binary_candidates (h : Host) : list (option string) :=
  [ os_getenv h "CHROME_BIN"; os_getenv h "GOOGLE_CHROME_BIN"; os_getenv h "CHROMIUM_BIN";
    shutil_which h "google-chrome"; shutil_which h "google-chrome-stable";
    shutil_which h "chromium"; shutil_which h "chromium-browser"; shutil_which h "chrome";
    Some "/usr/bin/google-chrome"; Some "/usr/bin/google-chrome-stable";
    Some "/usr/bin/chromium"; Some "/usr/bin/chromium-browser" ].

Definition chrome_driver_candidates (h : Host) : list (option string) :=
  [ os_getenv h "CHROMEDRIVER_PATH"; os_getenv h "SELENIUM_CHROMEDRIVER";
    os_getenv h "SELENIUM_DRIVER_PATH"; shutil_which h "chromedriver";
    Some "/usr/bin/chromedriver"; Some "/usr/local/bin/chromedriver";
    Some "/snap/bin/chromium.chromedriver" ].

(** The arguments every run passes to Chrome, and those that switch the
    proxy off. *)
Definition base_arguments : list string :=
  [ "--headless"; "--no-sandbox"; "--disable-dev-shm-usage"; "--disable-gpu";
    "--disable-software-rasterizer"; "--disable-extensions"; "--disable-infobars";
    "--disable-notifications"; "--blink-settings=imagesEnabled=false";
    "--window-size=1366,768"; "--lang=pt-BR" ].

Definition proxy_arguments : list string :=
  [ "--no-proxy-server"; "--proxy-server=direct://"; "--proxy-bypass-list=*" ].
(* ===================================================================== *)
(** * Properties *)
(* ===================================================================== *)

(** ** Dictionaries *)

Lemma getitem_setitem_eq (d : dict) (k : string) (v : pyval) :
  getitem (setitem k v d) k = Ret v.
Proof. unfold getitem, setitem. by rewrite lookup_insert_eq. Qed.

Lemma getitem_setitem_ne (d : dict) (k k' : string) (v : pyval) :
  k ≠ k' → getitem (setitem k v d) k' = getitem d k'.
Proof. intros Hne. unfold getitem, setitem. by rewrite lookup_insert_ne. Qed.

Lemma lookup_setitem_eq (d : dict) (k : string) (v : pyval) :
  setitem k v d !! k = Some v.
Proof. apply lookup_insert_eq. Qed.

Lemma lookup_setitem_ne (d : dict) (k k' : string) (v : pyval) :
  k ≠ k' → setitem k v d !! k' = d !! k'.
Proof. apply lookup_insert_ne. Qed.

(** Rewrites reads of a dictionary built by successive [setitem]. *)
Ltac dict_reads :=
  repeat first
    [ rewrite getitem_setitem_eq
    | rewrite getitem_setitem_ne by discriminate
    | rewrite lookup_setitem_eq
    | rewrite lookup_setitem_ne by discriminate ].

(** ** Classification of one cell *)

Lemma success_markers_spec (html : string) :
  existsb (fun marker => contains marker html) success_markers = true
  ↔ has_success_marker html.
Proof.
  unfold success_markers, has_success_marker. cbn [existsb].
  rewrite !orb_true_iff. intuition discriminate.
Qed.

Lemma failure_markers_spec (html : string) :
  existsb (fun marker => contains marker html) failure_markers = true
  ↔ has_failure_marker html.
Proof.
  unfold failure_markers, has_failure_marker. cbn [existsb].
  rewrite !orb_true_iff. intuition discriminate.
Qed.

(** C4. [_status_from_cell_html] is defined on every input, [None]
    included.  On the lowercased cell text: a failure marker, with or
    without a success marker, gives [False]; a success marker and no
    failure marker gives [True]; no marker of either kind gives [None]. *)
Theorem status_from_cell_html_classifies `{PyRuntime} (cell_html : option string) :
  let html := str_lower (or_empty cell_html) in
  (has_failure_marker html → _status_from_cell_html cell_html = Some false)
  ∧ (has_success_marker html → ¬ has_failure_marker html →
     _status_from_cell_html cell_html = Some true)
  ∧ (¬ has_success_marker html → ¬ has_failure_marker html →
     _status_from_cell_html cell_html = None).
Proof.
  intros html. unfold _status_from_cell_html. fold html.
  rewrite <- success_markers_spec, <- failure_markers_spec.
  destruct (existsb _ success_markers), (existsb _ failure_markers);
    cbn; repeat split; intros; congruence.
Qed.

Lemma status_from_cell_html_witness :
  _status_from_cell_html (Some "<i class='fa fa-check' title='Erro'></i>") = Some false
  ∧ _status_from_cell_html (Some "<I CLASS='FA FA-CHECK'></I>") = Some true
  ∧ _status_from_cell_html None = None.
Proof.
  split; [| split].
  - apply (proj1 (status_from_cell_html_classifies _)).
    unfold has_failure_marker. vm_compute. tauto.
  - apply (proj1 (proj2 (status_from_cell_html_classifies _))).
    + unfold has_success_marker. vm_compute. tauto.
    + unfold has_failure_marker. vm_compute. intuition discriminate.
  - apply (proj2 (proj2 (status_from_cell_html_classifies _))).
    + unfold has_success_marker. vm_compute. intuition discriminate.
    + unfold has_failure_marker. vm_compute. intuition discriminate.
Defined.

(** ** Applying a status list *)

Lemma apply_statuses_short `{PyRuntime} (results : dict) (statuses : option (list status))
    (page_text : option string) :
  len statuses < 8 →
  _apply_statuses_to_results results statuses page_text = Ret (results, false).
Proof.
  intros Hlen. unfold _apply_statuses_to_results.
  destruct (falsy_list statuses); [done |].
  cbn. apply Z.ltb_lt in Hlen. by rewrite Hlen.
Qed.

Lemma eight_or_more {A} (l : list A) :
  (8 ≤ length l)%nat →
  ∃ a0 a1 a2 a3 a4 a5 a6 a7 rest, l = a0 :: a1 :: a2 :: a3 :: a4 :: a5 :: a6 :: a7 :: rest.
Proof.
  intros Hlen.
  do 8 (destruct l as [| ? l]; [cbn in Hlen; lia |]).
  by repeat eexists.
Qed.

Lemma bind_Ret {A B} (a : A) (f : A → res B) : (Ret a ≫= f) = f a.
Proof. reflexivity. Qed.

Lemma True_at_lookup (l : list status) (i : nat) (s : status) :
  l !! i = Some s → True_at l i = is_True s.
Proof.
  intros Hl. unfold True_at, is_True. rewrite Hl.
  destruct s as [[|]|]; reflexivity.
Qed.

Lemma False_at_lookup (l : list status) (i : nat) (s : status) :
  l !! i = Some s → False_at l i = is_False s.
Proof.
  intros Hl. unfold False_at, is_False. rewrite Hl.
  destruct s as [[|]|]; reflexivity.
Qed.

(** With eight statuses or more the function succeeds, and the record it
    leaves is the positional update, with [mensagem_erro] set in addition
    when the page text says the file is unsigned. *)
Lemma apply_statuses_long `{PyRuntime} (results : dict) (l : list status)
    (page_text : option string) :
  (8 ≤ length l)%nat →
  ∃ results',
    _apply_statuses_to_results results (Some l) page_text = Ret (results', true)
    ∧ (results' = positional_update results l
       ∨ results' = setitem "mensagem_erro" (VStr "Arquivo não assinado")
                      (positional_update results l)).
Proof.
  intros Hlen.
  assert ((len (Some l) <? 8) = false) as Hlong.
  { apply Z.ltb_ge. unfold len. cbn. lia. }
  destruct (eight_or_more l Hlen) as (s0 & s1 & s2 & s3 & s4 & s5 & s6 & s7 & rest & Hl).
  unfold positional_update, verdict_of.
  rewrite (True_at_lookup l 0 s0), (True_at_lookup l 1 s1), (True_at_lookup l 2 s2),
    (True_at_lookup l 3 s3), (True_at_lookup l 4 s4), (True_at_lookup l 5 s5),
    (True_at_lookup l 6 s6), (True_at_lookup l 7 s7), (False_at_lookup l 7 s7)
    by (subst l; reflexivity).
  cbn [forallb].
  rewrite (True_at_lookup l 0 s0), (True_at_lookup l 1 s1), (True_at_lookup l 2 s2),
    (True_at_lookup l 3 s3), (True_at_lookup l 4 s4), (True_at_lookup l 5 s5),
    (True_at_lookup l 6 s6) by (subst l; reflexivity).
  unfold _apply_statuses_to_results. rewrite Hlong.
  replace (falsy_list (Some l)) with false by (subst l; reflexivity).
  cbn [orb default from_option id].
  replace (getidx l 0) with (Ret s0) by (subst l; reflexivity).
  replace (getidx l 1) with (Ret s1) by (subst l; reflexivity).
  replace (getidx l 2) with (Ret s2) by (subst l; reflexivity).
  replace (getidx l 3) with (Ret s3) by (subst l; reflexivity).
  replace (getidx l 4) with (Ret s4) by (subst l; reflexivity).
  replace (getidx l 5) with (Ret s5) by (subst l; reflexivity).
  replace (getidx l 6) with (Ret s6) by (subst l; reflexivity).
  replace (getidx l 7) with (Ret s7) by (subst l; reflexivity).
  rewrite !bind_Ret. dict_reads. rewrite !bind_Ret. cbn [truthy].
  set (text_says_unsigned := contains _ _ || contains _ _).
  destruct (is_True s7); [| destruct (is_False s7)];
    repeat first [rewrite bind_Ret | progress dict_reads];
    cbn [truthy forallb];
    (destruct text_says_unsigned;
     repeat first [rewrite bind_Ret | progress dict_reads];
     cbn [truthy];
     [ destruct (is_True s4); cbn [negb andb] | ];
     eexists; (split; [reflexivity |]); auto).
Qed.

(** The fields written by the positional update. *)
Lemma positional_update_fields (results : dict) (l : list status) :
  let r := positional_update results l in
  r !! "extensao_valida" = Some (VBool (True_at l 0))
  ∧ r !! "sem_senha" = Some (VBool (True_at l 1))
  ∧ r !! "tamanho_arquivo_ok" = Some (VBool (True_at l 2))
  ∧ r !! "tamanho_pagina_ok" = Some (VBool (True_at l 3))
  ∧ r !! "assinado" = Some (VBool (True_at l 4))
  ∧ r !! "numero_assinaturas" = Some (VInt (if True_at l 4 then 1 else 0))
  ∧ r !! "autenticidade_ok" = Some (VBool (True_at l 5))
  ∧ r !! "integridade_ok" = Some (VBool (True_at l 5))
  ∧ r !! "pesquisavel" = Some (VBool (True_at l 6))
  ∧ r !! "resultado_final" = Some (VStr (verdict_of l)).
Proof. cbv zeta. unfold positional_update. repeat split; by dict_reads. Qed.

(** C2. For a list of at least eight statuses [_apply_statuses_to_results]
    returns [True] and writes each boolean field from the status at its
    position (index 5 into both [autenticidade_ok] and [integridade_ok]);
    [resultado_final] follows the eighth status when it is [True] or
    [False], and otherwise is VALIDADO exactly when the seven base checks
    are all [True].  For a shorter list, an empty list or [None] it returns
    [False] and the record is unchanged. *)
Theorem apply_statuses_to_results_positional `{PyRuntime} (results : dict)
    (l : list status) (page_text : option string) :
  ((8 ≤ length l)%nat →
   ∃ results',
     _apply_statuses_to_results results (Some l) page_text = Ret (results', true)
     ∧ results' !! "extensao_valida" = Some (VBool (True_at l 0))
     ∧ results' !! "sem_senha" = Some (VBool (True_at l 1))
     ∧ results' !! "tamanho_arquivo_ok" = Some (VBool (True_at l 2))
     ∧ results' !! "tamanho_pagina_ok" = Some (VBool (True_at l 3))
     ∧ results' !! "assinado" = Some (VBool (True_at l 4))
     ∧ results' !! "autenticidade_ok" = Some (VBool (True_at l 5))
     ∧ results' !! "integridade_ok" = Some (VBool (True_at l 5))
     ∧ results' !! "pesquisavel" = Some (VBool (True_at l 6))
     ∧ results' !! "resultado_final" =
         Some (VStr (if True_at l 7 then "VALIDADO"
                     else if False_at l 7 then "NÃO VALIDADO"
                     else if forallb (True_at l) [0; 1; 2; 3; 4; 5; 6]%nat then "VALIDADO"
                     else "NÃO VALIDADO")))
  ∧ ((length l < 8)%nat →
     _apply_statuses_to_results results (Some l) page_text = Ret (results, false))
  ∧ _apply_statuses_to_results results None page_text = Ret (results, false).
Proof.
  split; [| split].
  - intros Hlen.
    destruct (apply_statuses_long results l page_text Hlen) as (r & Hr & Hshape).
    exists r. split; [exact Hr |].
    pose proof (positional_update_fields results l) as Hf. cbv zeta in Hf.
    fold (verdict_of l).
    destruct Hshape as [-> | ->]; repeat split; dict_reads; apply Hf.
  - intros Hlen. apply apply_statuses_short. unfold len. cbn. lia.
  - by apply apply_statuses_short.
Qed.

Lemma apply_statuses_to_results_positional_witness :
  (∃ results',
     _apply_statuses_to_results (initial_results "doc.pdf" 16 "2024-05-06 10:00:00")
       (Some [Some true; Some true; Some true; Some true; Some false; None; Some true; None])
       (Some "Arquivo NÃO ASSINADO") = Ret (results', true)
     ∧ results' !! "assinado" = Some (VBool false)
     ∧ results' !! "integridade_ok" = Some (VBool false)
     ∧ results' !! "resultado_final" = Some (VStr "NÃO VALIDADO"))
  ∧ _apply_statuses_to_results (initial_results "doc.pdf" 16 "2024-05-06 10:00:00")
      (Some [Some true; Some true; Some true]) None
    = Ret (initial_results "doc.pdf" 16 "2024-05-06 10:00:00", false).
Proof.
  split.
  - destruct (proj1 (apply_statuses_to_results_positional
        (initial_results "doc.pdf" 16 "2024-05-06 10:00:00")
        [Some true; Some true; Some true; Some true; Some false; None; Some true; None]
        (Some "Arquivo NÃO ASSINADO")))
      as (r & Hr & _ & _ & _ & _ & H4 & _ & H5 & _ & H7); [cbn; lia |].
    exists r. repeat split; assumption.
  - apply (proj1 (proj2 (apply_statuses_to_results_positional _ _ _))). cbn; lia.
Defined.

(** ** The score *)

Lemma pontuacao_of_range (k : Z) : 0 ≤ k ≤ 7 → pontuacao_of k = Ret (100 * k / 7).
Proof.
  intros Hk.
  assert (k = 0 ∨ k = 1 ∨ k = 2 ∨ k = 3 ∨ k = 4 ∨ k = 5 ∨ k = 6 ∨ k = 7) as Hcases by lia.
  repeat (destruct Hcases as [-> | Hcases]; [vm_compute; reflexivity |]).
  subst. vm_compute; reflexivity.
Qed.

Lemma field_True_bool (d : dict) (k : string) (b : bool) :
  d !! k = Some (VBool b) → field_True d k = b.
Proof. intros Hd. unfold field_True. rewrite Hd. by destruct b. Qed.

Lemma campos_True_bools (d : dict) (b0 b1 b2 b3 b4 b5 b6 : bool) :
  bool_campos d b0 b1 b2 b3 b4 b5 b6 →
  campos_True d
  = Z.b2z b0 + (Z.b2z b1 + (Z.b2z b2 + (Z.b2z b3 + (Z.b2z b4 + (Z.b2z b5 + (Z.b2z b6 + 0)))))).
Proof.
  intros (H0 & H1 & H2 & H3 & H4 & H5 & H6).
  unfold campos_True, campos. cbn [foldr].
  by rewrite (field_True_bool _ _ _ H0), (field_True_bool _ _ _ H1),
    (field_True_bool _ _ _ H2), (field_True_bool _ _ _ H3), (field_True_bool _ _ _ H4),
    (field_True_bool _ _ _ H5), (field_True_bool _ _ _ H6).
Qed.

Lemma campos_True_range (d : dict) : 0 ≤ campos_True d ≤ 7.
Proof.
  unfold campos_True, campos. cbn [foldr].
  repeat match goal with |- context [Z.b2z (field_True ?d ?k)] => destruct (field_True d k) end;
    cbn; lia.
Qed.

Lemma getitem_lookup (d : dict) (k : string) (v : pyval) :
  d !! k = Some v → getitem d k = Ret v.
Proof. intros Hd. unfold getitem. by rewrite Hd. Qed.

Lemma with_pontuacao_bools (d : dict) (b0 b1 b2 b3 b4 b5 b6 : bool) :
  bool_campos d b0 b1 b2 b3 b4 b5 b6 →
  with_pontuacao d = Ret (setitem "pontuacao" (VInt (100 * campos_True d / 7)) d).
Proof.
  intros Hb. rewrite (campos_True_bools _ _ _ _ _ _ _ _ Hb).
  destruct Hb as (H0 & H1 & H2 & H3 & H4 & H5 & H6).
  unfold with_pontuacao.
  rewrite (getitem_lookup _ _ _ H0), (getitem_lookup _ _ _ H1), (getitem_lookup _ _ _ H2),
    (getitem_lookup _ _ _ H3), (getitem_lookup _ _ _ H4), (getitem_lookup _ _ _ H5),
    (getitem_lookup _ _ _ H6).
  rewrite !bind_Ret. cbn [py_sum]. rewrite !bind_Ret.
  rewrite pontuacao_of_range; [reflexivity |].
  destruct b0, b1, b2, b3, b4, b5, b6; cbn; lia.
Qed.

Lemma campos_True_setitem (d : dict) (k : string) (v : pyval) :
  k ∉ campos → campos_True (setitem k v d) = campos_True d.
Proof.
  intros Hk. unfold campos_True, field_True.
  induction campos as [| c cs IH]; [reflexivity |].
  cbn [foldr]. rewrite IH by set_solver.
  rewrite lookup_setitem_ne; [reflexivity |].
  intros ->. apply Hk. set_solver.
Qed.

(** ** The body of [validate_pdf_with_tcees] *)

Lemma positional_update_bools (results : dict) (l : list status) :
  bool_campos (positional_update results l)
    (True_at l 0) (True_at l 1) (True_at l 2) (True_at l 3) (True_at l 4) (True_at l 5)
    (True_at l 6).
Proof. unfold bool_campos, positional_update. repeat split; by dict_reads. Qed.

Lemma fallback_update_bools `{PyRuntime} (nome data : string) (size : Z) (pdf_path : string) :
  bool_campos (fallback_update (initial_results nome size data) pdf_path size)
    (String.eqb (str_lower (os_path_splitext pdf_path).2) ".pdf") false (0 <? size)
    false false false false.
Proof. unfold bool_campos, fallback_update. repeat split; by dict_reads. Qed.

Lemma bool_campos_setitem (d : dict) (k : string) (v : pyval) (b0 b1 b2 b3 b4 b5 b6 : bool) :
  k ∉ campos → bool_campos d b0 b1 b2 b3 b4 b5 b6 →
  bool_campos (setitem k v d) b0 b1 b2 b3 b4 b5 b6.
Proof.
  intros Hk Hb. unfold campos in Hk. rewrite !not_elem_of_cons in Hk.
  destruct Hk as (? & ? & ? & ? & ? & ? & ? & _).
  unfold bool_campos in *. by rewrite !lookup_setitem_ne.
Qed.

Lemma validate_body_Ret `{PyRuntime} (fs : FS) (s : Session) (pdf_path : string)
    (quick_mode : bool) (d : dict) :
  validate_body fs s pdf_path quick_mode = Ret d →
  ∃ size results,
    os_path_getsize fs pdf_path = Ret size
    ∧ scored_record s pdf_path quick_mode size results
    ∧ with_pontuacao results = Ret d.
Proof.
  unfold validate_body.
  destruct (chrome_start s) as [[] |]; [| discriminate].
  destruct (driver_get s) as [[] |]; [| discriminate].
  destruct (send_file s) as [[] |]; [| discriminate].
  rewrite !bind_Ret.
  destruct (os_path_getsize fs pdf_path) as [size |] eqn:Hsize; [| discriminate].
  rewrite bind_Ret.
  destruct (read_page (page_final s)) as [page_html page_text] eqn:Hpage.
  replace (select_statuses s _ page_html) with (statuses_for_results s quick_mode)
    by (unfold statuses_for_results; by rewrite Hpage).
  destruct (statuses_for_results s quick_mode) as [l |] eqn:Hl.
  - destruct (le_lt_dec 8 (length l)) as [Hlong | Hshort].
    + destruct (apply_statuses_long
                  (initial_results (os_path_basename pdf_path) size (strftime_now s))
                  l (Some page_text) Hlong) as (r & -> & Hr).
      rewrite bind_Ret. cbn [negb]. rewrite bind_Ret. intros Hd.
      exists size, r. split; [reflexivity |]. split; [| exact Hd].
      by eapply scored_parsed.
    + rewrite apply_statuses_short by (unfold len; cbn [default from_option id]; unfold id; lia).
      rewrite bind_Ret. cbn [negb]. unfold parse_fallback. rewrite Hsize, !bind_Ret.
      intros Hd. eexists size, _. split; [reflexivity |]. split; [| exact Hd].
      apply scored_fallback; [| reflexivity].
      rewrite Hl. unfold len; cbn [default from_option id]; unfold id; lia.
  - rewrite apply_statuses_short by done.
    rewrite bind_Ret. cbn [negb]. unfold parse_fallback. rewrite Hsize, !bind_Ret.
    intros Hd. eexists size, _. split; [reflexivity |]. split; [| exact Hd].
    apply scored_fallback; [by rewrite Hl | reflexivity].
Qed.

Lemma scored_record_bools `{PyRuntime} (s : Session) (pdf_path : string) (quick_mode : bool)
    (size : Z) (results : dict) :
  scored_record s pdf_path quick_mode size results →
  ∃ b0 b1 b2 b3 b4 b5 b6, bool_campos results b0 b1 b2 b3 b4 b5 b6.
Proof.
  intros [l _ _ [-> | ->] | _ ->].
  - do 7 eexists. apply positional_update_bools.
  - do 7 eexists. apply bool_campos_setitem; [| apply positional_update_bools].
    unfold campos. repeat (apply not_elem_of_cons; split; [discriminate |]).
    apply not_elem_of_nil.
  - do 7 eexists. apply fallback_update_bools.
Qed.

(** Every normal return of the body is a scored record with its score. *)
Lemma validate_body_scored `{PyRuntime} (fs : FS) (s : Session) (pdf_path : string)
    (quick_mode : bool) (d : dict) :
  validate_body fs s pdf_path quick_mode = Ret d →
  ∃ size results,
    os_path_getsize fs pdf_path = Ret size
    ∧ scored_record s pdf_path quick_mode size results
    ∧ d = setitem "pontuacao" (VInt (100 * campos_True results / 7)) results.
Proof.
  intros Hd. destruct (validate_body_Ret _ _ _ _ _ Hd) as (size & results & Hsize & Hrec & Hp).
  exists size, results. split; [exact Hsize |]. split; [exact Hrec |].
  destruct (scored_record_bools _ _ _ _ _ Hrec) as (b0 & b1 & b2 & b3 & b4 & b5 & b6 & Hb).
  rewrite (with_pontuacao_bools _ _ _ _ _ _ _ _ Hb) in Hp. congruence.
Qed.

(** ** The polling loop *)

Lemma poll_loop_step `{PyRuntime} (s : Session) (max_wait : Z) (st : PollState) :
  poll_loop s max_wait st
  = if decide (waited st < max_wait) then
      if (poll_body s st).2 then ((poll_body s st).1, true)
      else poll_loop s max_wait (poll_body s st).1
    else (st, false).
Proof.
  rewrite poll_loop_equation_1.
  destruct (decide (waited st < max_wait)); [by rewrite poll_loop_clause_1_equation_1 | reflexivity].
Qed.

Lemma signature_nonempty (statuses : option (list status)) :
  qualifies statuses = true → _statuses_signature statuses ≠ EmptyString.
Proof.
  unfold qualifies, _statuses_signature.
  destruct statuses as [[| s0 l] |]; cbn; try discriminate.
  intros _. by destruct s0 as [[|]|].
Qed.

(** The body of the loop in terms of [qualifies]. *)
Lemma poll_body_spec `{PyRuntime} (s : Session) (n : nat) (st : PollState) :
  waited st = poll_interval * Z.of_nat n →
  let statuses := observed s (S n) in
  poll_body s st
  = if qualifies statuses then
      if String.eqb (_statuses_signature statuses) (last_signature st) then
        ({| waited := poll_interval * Z.of_nat (S n); stable_count := stable_count st + 1;
            last_signature := last_signature st; parsed_statuses := statuses |},
         1 <=? stable_count st + 1)
      else
        ({| waited := poll_interval * Z.of_nat (S n); stable_count := 0;
            last_signature := _statuses_signature statuses; parsed_statuses := statuses |},
         false)
    else
      ({| waited := poll_interval * Z.of_nat (S n); stable_count := stable_count st;
          last_signature := last_signature st; parsed_statuses := parsed_statuses st |},
       false).
Proof.
  intros Hw. cbv zeta. unfold poll_body, observed, qualifies.
  replace (waited st + poll_interval) with (poll_interval * Z.of_nat (S n))
    by (rewrite Hw; unfold poll_interval; lia).
  set (statuses := _extract_statuses_from_driver _).
  destruct (negb (falsy_list statuses) && (8 <=? len statuses)); cbn [andb]; [| reflexivity].
  destruct (6 <=? count_resolved (default [] statuses)); [| reflexivity].
  destruct (String.eqb _ _); reflexivity.
Qed.

Lemma poll_body_invariant `{PyRuntime} (s : Session) (n : nat) (st : PollState) :
  poll_invariant s n st →
  waited (poll_body s st).1 = poll_interval * Z.of_nat (S n)
  ∧ ((poll_body s st).2 = true →
     repeats_last s (S n) ∧ parsed_statuses (poll_body s st).1 = observed s (S n))
  ∧ ((poll_body s st).2 = false →
     poll_invariant s (S n) (poll_body s st).1 ∧ ¬ repeats_last s (S n)).
Proof.
  intros (Hw & Hsc & Hlast).
  rewrite (poll_body_spec s n st Hw). cbv zeta.
  destruct (qualifies (observed s (S n))) eqn:Hq.
  - destruct (String.eqb_spec (_statuses_signature (observed s (S n))) (last_signature st))
      as [Hsig | Hsig]; cbn [fst snd].
    + (* same signature as the last poll that counted: the loop ends *)
      split; [reflexivity |]. split; [| rewrite Hsc; discriminate].
      intros _. split; [| reflexivity].
      destruct Hlast as [(j & Hj & Hqj & Hbetween & Hls & _) | (_ & Hls & _)].
      * split; [exact Hq |]. exists j. split; [lia |]. split; [exact Hqj |].
        split; [intros i Hi; apply Hbetween; lia | congruence].
      * exfalso. apply (signature_nonempty _ Hq). congruence.
    + (* a new signature: it becomes the reference *)
      split; [reflexivity |]. split; [discriminate |].
      intros _. split.
      * split; [reflexivity |]. split; [reflexivity |]. left. exists (S n).
        split; [lia |]. split; [exact Hq |]. split; [intros i Hi; lia |]. split; reflexivity.
      * intros (_ & j & Hj & Hqj & Hbetween & Hsame).
        destruct Hlast as [(j' & Hj' & Hqj' & Hbetween' & Hls & _) | (Hnone & _)].
        -- assert (j = j') as ->.
           { destruct (Nat.lt_trichotomy j j') as [Hlt | [Heq | Hgt]]; [| exact Heq |].
             - rewrite Hbetween in Hqj' by lia. discriminate.
             - rewrite Hbetween' in Hqj by lia. discriminate. }
           congruence.
        -- rewrite Hnone in Hqj by lia. discriminate.
  - cbn [fst snd]. split; [reflexivity |]. split; [discriminate |].
    intros _. split.
    + split; [reflexivity |]. split; [exact Hsc |].
      destruct Hlast as [(j & Hj & Hqj & Hbetween & Hls & Hp) | (Hnone & Hls & Hp)].
      * left. exists j. split; [lia |]. split; [exact Hqj |]. split; [| by split].
        intros i Hi. destruct (decide (i = S n)) as [-> | Hne]; [exact Hq | apply Hbetween; lia].
      * right. split; [| by split].
        intros i Hi. destruct (decide (i = S n)) as [-> | Hne]; [exact Hq | apply Hnone; lia].
    + intros (Hq' & _). congruence.
Qed.

(** The loop from a state reached after [n] polls. *)
Lemma poll_loop_invariant `{PyRuntime} (s : Session) (max_wait : Z) (fuel n : nat)
    (st : PollState) :
  poll_invariant s n st →
  (∀ k, (k ≤ n)%nat → ¬ repeats_last s k) →
  max_wait - poll_interval * Z.of_nat n ≤ poll_interval * Z.of_nat fuel →
  ∃ m, (n ≤ m)%nat
       ∧ waited (poll_loop s max_wait st).1 = poll_interval * Z.of_nat m
       ∧ (∀ k, (k < m)%nat → ¬ repeats_last s k)
       ∧ ((poll_loop s max_wait st).2 = true →
          (n < m)%nat ∧ poll_interval * (Z.of_nat m - 1) < max_wait
          ∧ repeats_last s m
          ∧ parsed_statuses (poll_loop s max_wait st).1 = observed s m)
       ∧ ((poll_loop s max_wait st).2 = false →
          max_wait ≤ poll_interval * Z.of_nat m
          ∧ (m = n ∨ poll_interval * (Z.of_nat m - 1) < max_wait)
          ∧ ¬ repeats_last s m).
Proof.
  revert n st. induction fuel as [| fuel IH]; intros n st Hinv Hnone Hfuel;
    rewrite poll_loop_step; pose proof Hinv as (Hw & _);
    destruct (decide (waited st < max_wait)) as [Hlt | Hge];
    try (unfold poll_interval in *; lia).
  - exists n. cbn [fst snd]. split; [lia |]. split; [exact Hw |].
    split; [intros k Hk; apply Hnone; lia |]. split; [discriminate |].
    intros _. split; [lia |]. split; [by left | apply Hnone; lia].
  - destruct (poll_body_invariant s n st Hinv) as (Hw' & Hbreak & Hcont).
    destruct (poll_body s st).2 eqn:Hb; cbn [fst snd].
    + destruct (Hbreak eq_refl) as (Hrep & Hparsed).
      exists (S n). split; [lia |]. split; [exact Hw' |].
      split; [intros k Hk; apply Hnone; lia |].
      split; [| discriminate]. intros _.
      split; [lia |]. split; [| by split].
      unfold poll_interval in *. lia.
    + destruct (Hcont eq_refl) as (Hinv' & Hnot).
      destruct (IH (S n) (poll_body s st).1 Hinv') as (m & Hm & Hwm & Hbefore & Htrue & Hfalse).
      * intros k Hk. destruct (decide (k = S n)) as [-> | Hne]; [exact Hnot | apply Hnone; lia].
      * unfold poll_interval in *. lia.
      * exists m. split; [lia |]. split; [exact Hwm |]. split; [exact Hbefore |]. split.
        -- intros Ht. destruct (Htrue Ht) as (? & ? & ? & ?).
           split; [lia |]. split; [done |]. split; done.
        -- intros Hf. destruct (Hfalse Hf) as (? & Hor & ?). split; [done |].
           split; [| done]. right. destruct Hor as [-> | Hor]; [| exact Hor].
           unfold poll_interval in *. lia.
  - exists n. cbn [fst snd]. split; [lia |]. split; [exact Hw |].
    split; [intros k Hk; apply Hnone; lia |]. split; [discriminate |].
    intros _. split; [lia |]. split; [by left | apply Hnone; lia].
Qed.

Lemma poll_start_invariant `{PyRuntime} (s : Session) : poll_invariant s 0 poll_start.
Proof.
  split; [reflexivity |]. split; [reflexivity |]. right.
  split; [intros i Hi; lia | by split].
Qed.

Lemma repeats_last_after_first `{PyRuntime} (s : Session) (k : nat) :
  repeats_last s k → (2 ≤ k)%nat.
Proof. intros (_ & j & Hj & _). lia. Qed.

Lemma select_statuses_parsed `{PyRuntime} (s : Session) (parsed : option (list status))
    (page_html : string) :
  qualifies parsed = true → select_statuses s parsed page_html = parsed.
Proof.
  unfold qualifies, select_statuses. intros Hq.
  destruct (falsy_list parsed) eqn:Hfalsy; [discriminate |]. by rewrite Hfalsy.
Qed.

(** C3 (amended). The polling loop ends after at most 28 polls in normal
    mode and 15 in quick mode, two seconds apart.  It ends early exactly
    when, within that budget, some poll yields a list of at least eight
    statuses with at least six resolved whose signature is that of the
    latest earlier poll that yielded such a list (polls in between that
    yield nothing usable are skipped and do not reset the comparison); it
    ends at the first such poll, and the list read by that poll is the one
    applied to the results. *)
Theorem poll_loop_exit `{PyRuntime} (s : Session) (quick_mode : bool) :
  let result := poll_loop s (max_wait_of quick_mode) poll_start in
  ∃ n, waited result.1 = poll_interval * Z.of_nat n
       ∧ (n ≤ max_polls quick_mode)%nat
       ∧ (result.2 = true ↔ ∃ k, (k ≤ max_polls quick_mode)%nat ∧ repeats_last s k)
       ∧ (result.2 = true →
          repeats_last s n
          ∧ (∀ k, (k < n)%nat → ¬ repeats_last s k)
          ∧ parsed_statuses result.1 = observed s n
          ∧ statuses_for_results s quick_mode = observed s n)
       ∧ (result.2 = false → n = max_polls quick_mode).
Proof.
  cbv zeta.
  destruct (poll_loop_invariant s (max_wait_of quick_mode) (max_polls quick_mode) 0
              poll_start (poll_start_invariant s))
    as (n & _ & Hw & Hbefore & Htrue & Hfalse).
  { intros k Hk Hrep. apply repeats_last_after_first in Hrep. lia. }
  { unfold poll_interval. destruct quick_mode; cbn; lia. }
  assert ((poll_loop s (max_wait_of quick_mode) poll_start).2 = true →
          (n ≤ max_polls quick_mode)%nat) as Hn_true.
  { intros Ht. destruct (Htrue Ht) as (_ & Hlast & _).
    unfold poll_interval in Hlast. destruct quick_mode; cbn in *; lia. }
  assert ((poll_loop s (max_wait_of quick_mode) poll_start).2 = false →
          n = max_polls quick_mode) as Hn_false.
  { intros Hf. destruct (Hfalse Hf) as (Hge & Hor & _).
    unfold poll_interval in *. destruct quick_mode; cbn in *; lia. }
  exists n. split; [exact Hw |]. split; [| split; [| split; [| exact Hn_false]]].
  - destruct (poll_loop s (max_wait_of quick_mode) poll_start).2;
      [by apply Hn_true | by rewrite Hn_false].
  - split.
    + intros Ht. exists n. split; [by apply Hn_true | by apply Htrue].
    + intros (k & Hk & Hrep).
      destruct (poll_loop s (max_wait_of quick_mode) poll_start).2 eqn:Hb; [reflexivity |].
      exfalso. destruct (Hfalse eq_refl) as (_ & _ & Hnot).
      rewrite (Hn_false eq_refl) in *.
      destruct (decide (k = max_polls quick_mode)) as [-> | Hne]; [by apply Hnot |].
      apply (Hbefore k); [lia | exact Hrep].
  - intros Ht. destruct (Htrue Ht) as (_ & _ & Hrep & Hparsed).
    split; [exact Hrep |]. split; [exact Hbefore |]. split; [exact Hparsed |].
    unfold statuses_for_results. rewrite Hparsed.
    apply select_statuses_parsed, Hrep.
Qed.

(** C3 (as stated): the loop exits early exactly when two consecutive
    polls count and agree.  Here the first and the third poll count and
    agree, the second reads a blank page, and the loop exits at the third
    poll although no two consecutive polls count. *)
Lemma poll_exit_without_consecutive_polls :
  (poll_loop session_gap (max_wait_of false) poll_start).2 = true
  ∧ waited (poll_loop session_gap (max_wait_of false) poll_start).1 = 6
  ∧ ∀ k, ¬ consecutive_stable session_gap k.
Proof.
  split; [vm_compute; reflexivity |]. split; [vm_compute; reflexivity |].
  assert (∀ k, qualifies (observed session_gap k) = true → k = 1%nat ∨ k = 3%nat) as Hq.
  { intros k. unfold observed, session_gap, session_on, page_at, poll_interval.
    destruct ((2 * Z.of_nat k =? 2) || (2 * Z.of_nat k =? 6)) eqn:Hk.
    - intros _. apply orb_true_iff in Hk as [Hk | Hk]; apply Z.eqb_eq in Hk; lia.
    - vm_compute. discriminate. }
  intros k (Hq1 & Hq2 & _). apply Hq in Hq1, Hq2. lia.
Qed.

Lemma poll_loop_exit_witness :
  ∃ n, waited (poll_loop session_gap (max_wait_of false) poll_start).1
       = poll_interval * Z.of_nat n
       ∧ n = 3%nat
       ∧ repeats_last session_gap n
       ∧ statuses_for_results session_gap false = observed session_gap n.
Proof.
  destruct (@poll_loop_exit example_runtime session_gap false)
    as (n & Hw & _ & _ & Htrue & _).
  destruct (Htrue ltac:(vm_compute; reflexivity)) as (Hrep & _ & _ & Hsel).
  exists n. split; [exact Hw |]. split; [| by split].
  assert (waited (poll_loop session_gap (max_wait_of false) poll_start).1 = 6) as H6
    by (vm_compute; reflexivity).
  rewrite H6 in Hw. unfold poll_interval in Hw. lia.
Defined.

(** ** Routes *)

Lemma route_of_normal `{PyRuntime} (fs : FS) (s : Session) (pdf_path : string)
    (quick_mode : bool) :
  route_of fs s pdf_path quick_mode = Parsed ∨ route_of fs s pdf_path quick_mode = ParseFailed →
  os_path_isfile fs pdf_path = true
  ∧ validate_pdf_with_tcees fs s pdf_path quick_mode = validate_body fs s pdf_path quick_mode
  ∧ ∃ d, validate_body fs s pdf_path quick_mode = Ret d.
Proof.
  unfold route_of, validate_pdf_with_tcees.
  destruct (os_path_isfile fs pdf_path); cbn [negb]; [| intros [|]; discriminate].
  destruct (validate_body fs s pdf_path quick_mode) as [d |]; [| intros [|]; discriminate].
  intros _. eauto.
Qed.

Lemma verdict_of_cases (l : list status) :
  verdict_of l = "VALIDADO" ∨ verdict_of l = "NÃO VALIDADO".
Proof.
  unfold verdict_of.
  destruct (True_at l 7); [by left |].
  destruct (False_at l 7); [by right |].
  destruct (forallb _ _); [by left | by right].
Qed.

Lemma pontuacao_values (k : Z) :
  0 ≤ k ≤ 7 → 100 * k / 7 ∈ [0; 14; 28; 42; 57; 71; 85; 100] ∧ 0 ≤ 100 * k / 7 ≤ 100.
Proof.
  intros Hk.
  assert (k = 0 ∨ k = 1 ∨ k = 2 ∨ k = 3 ∨ k = 4 ∨ k = 5 ∨ k = 6 ∨ k = 7) as Hcases by lia.
  assert (∀ v, v ∈ [0; 14; 28; 42; 57; 71; 85; 100] → 0 ≤ v ≤ 100) as Hbound.
  { intros v Hv. repeat (apply elem_of_cons in Hv as [-> | Hv]; [lia |]).
    by apply elem_of_nil in Hv. }
  assert (100 * k / 7 ∈ [0; 14; 28; 42; 57; 71; 85; 100]) as Hin; [| by auto].
  repeat (destruct Hcases as [-> | Hcases];
          [ match goal with
            | |- ?v ∈ _ => let v' := eval vm_compute in v in change v with v'
            end;
            repeat first [apply list_elem_of_here | apply list_elem_of_further] |]).
  subst k. change (100 * 7 / 7) with 100.
  repeat first [apply list_elem_of_here | apply list_elem_of_further].
Qed.

Lemma scored_record_verdict `{PyRuntime} (s : Session) (pdf_path : string) (quick_mode : bool)
    (size : Z) (results : dict) :
  scored_record s pdf_path quick_mode size results →
  ∃ verdict, results !! "resultado_final" = Some (VStr verdict)
             ∧ verdict ∈ ["VALIDADO"; "NÃO VALIDADO"; "ERRO"].
Proof.
  intros [l _ _ Hr | _ ->].
  - exists (verdict_of l). split.
    + destruct Hr as [-> | ->]; dict_reads; apply positional_update_fields.
    + destruct (verdict_of_cases l) as [-> | ->];
        repeat first [apply list_elem_of_here | apply list_elem_of_further].
  - exists "ERRO". split; [unfold fallback_update; by dict_reads |].
    repeat first [apply list_elem_of_here | apply list_elem_of_further].
Qed.

(** The score for each number of fields that are [True]. *)
Lemma pontuacao_table (k : Z) :
  0 ≤ k ≤ 7 →
  (k, 100 * k / 7)
  ∈ [(0, 0); (1, 14); (2, 28); (3, 42); (4, 57); (5, 71); (6, 85); (7, 100)].
Proof.
  intros Hk.
  assert (k = 0 ∨ k = 1 ∨ k = 2 ∨ k = 3 ∨ k = 4 ∨ k = 5 ∨ k = 6 ∨ k = 7) as Hcases by lia.
  destruct Hcases as [-> | [-> | [-> | [-> | [-> | [-> | [-> | ->]]]]]]];
    match goal with
    | |- (_, ?v) ∈ _ => let v' := eval vm_compute in v in change v with v'
    end;
    repeat first [apply list_elem_of_here | apply list_elem_of_further].
Qed.

(** C1. On every return of [validate_pdf_with_tcees] that is neither the
    file-not-found return nor the exception return, [pontuacao] is
    [int((k / 7) * 100)] for [k] the number of [True] values among the seven
    fields extensao_valida, sem_senha, tamanho_arquivo_ok,
    tamanho_pagina_ok, assinado, autenticidade_ok and pesquisavel: the
    integer quotient of [100 * k] by 7, that is 0, 14, 28, 42, 57, 71, 85
    or 100 for [k] from 0 to 7, which is also what the binary64 evaluation
    of the expression gives.  Neither integridade_ok nor resultado_final
    contributes: scoring the record again after giving these two fields
    any other values yields the same [pontuacao]. *)
Theorem pontuacao_counts_seven_fields `{PyRuntime} (fs : FS) (s : Session)
    (pdf_path : string) (quick_mode : bool) (d : dict) :
  route_of fs s pdf_path quick_mode = Parsed ∨ route_of fs s pdf_path quick_mode = ParseFailed →
  validate_pdf_with_tcees fs s pdf_path quick_mode = Ret d →
  ∃ pontuacao,
    d !! "pontuacao" = Some (VInt pontuacao)
    ∧ pontuacao = 100 * campos_True d / 7
    ∧ (campos_True d, pontuacao)
      ∈ [(0, 0); (1, 14); (2, 28); (3, 42); (4, 57); (5, 71); (6, 85); (7, 100)]
    ∧ pontuacao_of (campos_True d) = Ret pontuacao
    ∧ (∀ v w, ∃ d',
         with_pontuacao (setitem "integridade_ok" v (setitem "resultado_final" w d)) = Ret d'
         ∧ d' !! "pontuacao" = Some (VInt pontuacao)).
Proof.
  intros Hroute Hd.
  destruct (route_of_normal _ _ _ _ Hroute) as (_ & Heq & _). rewrite Heq in Hd.
  destruct (validate_body_scored _ _ _ _ _ Hd) as (size & results & _ & Hrec & ->).
  destruct (scored_record_bools _ _ _ _ _ Hrec) as (b0 & b1 & b2 & b3 & b4 & b5 & b6 & Hb).
  assert (∀ k, k ∈ ["pontuacao"; "integridade_ok"; "resultado_final"] → k ∉ campos) as Hout.
  { intros k Hk Hin. unfold campos in Hin.
    repeat (apply elem_of_cons in Hk as [-> | Hk];
            [ repeat (apply elem_of_cons in Hin as [Hin | Hin]; [discriminate |]);
              by apply elem_of_nil in Hin |]).
    by apply elem_of_nil in Hk. }
  assert ("pontuacao" ∉ campos) as Hp by (apply Hout, list_elem_of_here).
  assert ("integridade_ok" ∉ campos) as Hi
    by (apply Hout, list_elem_of_further, list_elem_of_here).
  assert ("resultado_final" ∉ campos) as Hr
    by (apply Hout; do 2 apply list_elem_of_further; apply list_elem_of_here).
  pose proof (campos_True_range results) as Hrange.
  exists (100 * campos_True results / 7).
  rewrite (campos_True_setitem results "pontuacao" _ Hp).
  split; [by dict_reads |]. split; [reflexivity |].
  split; [by apply pontuacao_table |]. split; [by apply pontuacao_of_range |].
  intros v w.
  set (d := setitem "pontuacao" (VInt (100 * campos_True results / 7)) results).
  assert (bool_campos (setitem "integridade_ok" v (setitem "resultado_final" w d))
            b0 b1 b2 b3 b4 b5 b6) as Hb'
    by (do 3 (apply bool_campos_setitem; [done |]); exact Hb).
  rewrite (with_pontuacao_bools _ _ _ _ _ _ _ _ Hb').
  eexists. split; [reflexivity |].
  rewrite lookup_setitem_eq.
  rewrite (campos_True_setitem _ "integridade_ok" _ Hi),
    (campos_True_setitem _ "resultado_final" _ Hr).
  unfold d. by rewrite (campos_True_setitem results "pontuacao" _ Hp).
Qed.

Lemma pontuacao_counts_seven_fields_witness :
  campos_True (record_of (validate_pdf_with_tcees fs_doc session_unsigned doc_path false)) = 5
  ∧ ∃ pontuacao,
      record_of (validate_pdf_with_tcees fs_doc session_unsigned doc_path false) !! "pontuacao"
      = Some (VInt pontuacao)
      ∧ pontuacao
        = 100 * campos_True
                  (record_of (validate_pdf_with_tcees fs_doc session_unsigned doc_path false)) / 7
      ∧ pontuacao = 71.
Proof.
  assert (campos_True
            (record_of (validate_pdf_with_tcees fs_doc session_unsigned doc_path false)) = 5)
    as Hfive by (vm_compute; reflexivity).
  split; [exact Hfive |].
  destruct (@pontuacao_counts_seven_fields example_runtime fs_doc session_unsigned doc_path
              false
              (record_of (validate_pdf_with_tcees fs_doc session_unsigned doc_path false)))
    as (pontuacao & Hp & Hk & _).
  - left. vm_compute. reflexivity.
  - reflexivity.
  - exists pontuacao. split; [exact Hp |]. split; [exact Hk |].
    rewrite Hk, Hfive. reflexivity.
Defined.

(** C9. In a record returned after a successful status parse,
    autenticidade_ok and integridade_ok hold the same value, the one read
    from the status at index 5, and numero_assinaturas is 1 when assinado
    is [True] and 0 otherwise. *)
Theorem parsed_record_consistent `{PyRuntime} (fs : FS) (s : Session)
    (pdf_path : string) (quick_mode : bool) (d : dict) :
  route_of fs s pdf_path quick_mode = Parsed →
  validate_pdf_with_tcees fs s pdf_path quick_mode = Ret d →
  ∃ l, statuses_for_results s quick_mode = Some l
       ∧ d !! "autenticidade_ok" = Some (VBool (True_at l 5))
       ∧ d !! "integridade_ok" = Some (VBool (True_at l 5))
       ∧ d !! "assinado" = Some (VBool (True_at l 4))
       ∧ d !! "numero_assinaturas" = Some (VInt (if True_at l 4 then 1 else 0)).
Proof.
  intros Hroute Hd.
  destruct (route_of_normal _ _ _ _ (or_introl Hroute)) as (Hfile & Heq & _).
  rewrite Heq in Hd.
  destruct (validate_body_scored _ _ _ _ _ Hd) as (size & results & _ & Hrec & ->).
  unfold route_of in Hroute. rewrite Hfile, Hd in Hroute. cbn [negb] in Hroute.
  destruct Hrec as [l Hl _ Hr | Hshort _].
  - exists l. split; [exact Hl |].
    pose proof (positional_update_fields
                  (initial_results (os_path_basename pdf_path) size (strftime_now s)) l) as Hf.
    cbv zeta in Hf.
    destruct Hr as [-> | ->]; repeat split; dict_reads; apply Hf.
  - apply Z.ltb_lt in Hshort. rewrite Z.leb_antisym, Hshort in Hroute. discriminate.
Qed.

Lemma parsed_record_consistent_witness :
  ∃ l, statuses_for_results session_unsigned false = Some l
       ∧ record_of (validate_pdf_with_tcees fs_doc session_unsigned doc_path false)
           !! "autenticidade_ok" = Some (VBool (True_at l 5))
       ∧ record_of (validate_pdf_with_tcees fs_doc session_unsigned doc_path false)
           !! "integridade_ok" = Some (VBool (True_at l 5))
       ∧ record_of (validate_pdf_with_tcees fs_doc session_unsigned doc_path false)
           !! "assinado" = Some (VBool (True_at l 4))
       ∧ record_of (validate_pdf_with_tcees fs_doc session_unsigned doc_path false)
           !! "numero_assinaturas" = Some (VInt (if True_at l 4 then 1 else 0)).
Proof.
  apply (parsed_record_consistent fs_doc session_unsigned doc_path false).
  - vm_compute. reflexivity.
  - reflexivity.
Defined.

(** C10. Whatever the route (file not found, parse failure, successful
    parse, exception), [validate_pdf_with_tcees] returns a record whose
    resultado_final is VALIDADO, NÃO VALIDADO or ERRO and whose pontuacao is
    an integer between 0 and 100, one of 0, 14, 28, 42, 57, 71, 85, 100; on
    the file-not-found and exception routes pontuacao is 0. *)
Theorem validate_result_shape `{PyRuntime} (fs : FS) (s : Session)
    (pdf_path : string) (quick_mode : bool) :
  ∃ d verdict pontuacao,
    validate_pdf_with_tcees fs s pdf_path quick_mode = Ret d
    ∧ d !! "resultado_final" = Some (VStr verdict)
    ∧ verdict ∈ ["VALIDADO"; "NÃO VALIDADO"; "ERRO"]
    ∧ d !! "pontuacao" = Some (VInt pontuacao)
    ∧ 0 ≤ pontuacao ≤ 100
    ∧ pontuacao ∈ [0; 14; 28; 42; 57; 71; 85; 100]
    ∧ match route_of fs s pdf_path quick_mode with
      | NotFound | Raised _ => pontuacao = 0
      | ParseFailed | Parsed => True
      end.
Proof.
  unfold route_of, validate_pdf_with_tcees.
  destruct (os_path_isfile fs pdf_path); cbn [negb].
  - destruct (validate_body fs s pdf_path quick_mode) as [d | error] eqn:Hbody;
      cbn [try_except].
    + destruct (validate_body_scored _ _ _ _ _ Hbody) as (size & results & _ & Hrec & ->).
      destruct (scored_record_verdict _ _ _ _ _ Hrec) as (verdict & Hv & Hin).
      destruct (pontuacao_values (campos_True results) (campos_True_range results))
        as (Hp & Hrange).
      exists (setitem "pontuacao" (VInt (100 * campos_True results / 7)) results),
        verdict, (100 * campos_True results / 7).
      repeat split; try (by dict_reads); try assumption; try lia.
      by destruct (8 <=? _).
    + exists (error_result pdf_path error), "ERRO", 0.
      unfold error_result. destruct (_friendly_network_error error).
      repeat split; try reflexivity; try lia;
        repeat first [apply list_elem_of_here | apply list_elem_of_further].
  - exists (not_found_result pdf_path), "ERRO", 0.
    repeat split; try reflexivity; try lia;
      repeat first [apply list_elem_of_here | apply list_elem_of_further].
Qed.

Lemma friendly_network_error_code `{PyRuntime} (error : string) :
  (_friendly_network_error error).1 = first_matching network_codes (str_upper error).
Proof.
  unfold _friendly_network_error, network_codes. cbn [first_matching existsb].
  rewrite !orb_false_r.
  repeat match goal with
         | |- context [if ?b then _ else _] => destruct b eqn:?; cbn [orb fst]; try reflexivity
         end.
Qed.

Lemma first_matching_nonempty (upper code : string) :
  first_matching network_codes upper = Some code → code ≠ EmptyString.
Proof.
  unfold network_codes. cbn [first_matching].
  repeat match goal with
         | |- context [if ?b then _ else _] => destruct b
         end; intros [= <-]; discriminate.
Qed.

(** C5. When the body of the [try] raises, [validate_pdf_with_tcees]
    returns a record instead of raising: resultado_final is ERRO, pontuacao
    is 0, the eight boolean check fields are [False], and erro_codigo is
    the first of the five network codes one of whose markers occurs in the
    uppercased exception text, TCEES_VALIDATION_ERROR when none does. *)
Theorem exception_gives_error_record `{PyRuntime} (fs : FS) (s : Session)
    (pdf_path : string) (quick_mode : bool) (error : string) :
  route_of fs s pdf_path quick_mode = Raised error →
  ∃ d, validate_pdf_with_tcees fs s pdf_path quick_mode = Ret d
       ∧ d !! "resultado_final" = Some (VStr "ERRO")
       ∧ d !! "pontuacao" = Some (VInt 0)
       ∧ (∀ k, k ∈ check_fields → d !! k = Some (VBool false))
       ∧ d !! "erro_codigo"
         = Some (VStr (default "TCEES_VALIDATION_ERROR"
                         (first_matching network_codes (str_upper error)))).
Proof.
  unfold route_of, validate_pdf_with_tcees.
  destruct (os_path_isfile fs pdf_path); cbn [negb]; [| discriminate].
  destruct (validate_body fs s pdf_path quick_mode) as [d | e]; [by destruct (8 <=? _) |].
  intros [= ->]. cbn [try_except].
  exists (error_result pdf_path error).
  pose proof (friendly_network_error_code error) as Hcode.
  unfold error_result. destruct (_friendly_network_error error) as [code friendly].
  cbn [fst] in Hcode. subst code.
  split; [reflexivity |]. split; [reflexivity |]. split; [reflexivity |]. split.
  - intros k Hk. unfold check_fields in Hk.
    repeat (apply elem_of_cons in Hk as [-> | Hk]; [reflexivity |]).
    by apply elem_of_nil in Hk.
  - change (list_to_map _ !! "erro_codigo") with
      (Some (VStr (str_or (or_empty (first_matching network_codes (str_upper error)))
                          "TCEES_VALIDATION_ERROR"))).
    do 2 f_equal.
    destruct (first_matching network_codes (str_upper error)) as [code |] eqn:Hm;
      [| reflexivity].
    apply first_matching_nonempty in Hm. cbn [or_empty default from_option id].
    unfold str_or. destruct (String.eqb_spec code EmptyString); [done | reflexivity].
Qed.

Lemma exception_gives_error_record_witness :
  ∃ d, validate_pdf_with_tcees fs_doc session_timeout doc_path true = Ret d
       ∧ d !! "resultado_final" = Some (VStr "ERRO")
       ∧ d !! "pontuacao" = Some (VInt 0)
       ∧ (∀ k, k ∈ check_fields → d !! k = Some (VBool false))
       ∧ d !! "erro_codigo" = Some (VStr "TCEES_TIMEOUT").
Proof.
  destruct (exception_gives_error_record fs_doc session_timeout doc_path true
              "Message: timeout: Timed out receiving message from renderer")
    as (d & Hd & Hfinal & Hscore & Hchecks & Hcode); [vm_compute; reflexivity |].
  assert (default "TCEES_VALIDATION_ERROR"
            (first_matching network_codes
               (str_upper "Message: timeout: Timed out receiving message from renderer"))
          = "TCEES_TIMEOUT") as Hc by (vm_compute; reflexivity).
  rewrite Hc in Hcode.
  exists d. split; [exact Hd |]. split; [exact Hfinal |]. split; [exact Hscore |].
  split; [exact Hchecks | exact Hcode].
Defined.

(** Every call returns a record, and the record names the file. *)
Lemma validate_pdf_with_tcees_returns `{PyRuntime} (fs : FS) (s : Session)
    (pdf_path : string) (quick_mode : bool) :
  ∃ d, validate_pdf_with_tcees fs s pdf_path quick_mode = Ret d
       ∧ d !! "nome_arquivo" = Some (VStr (os_path_basename pdf_path)).
Proof.
  unfold validate_pdf_with_tcees.
  destruct (os_path_isfile fs pdf_path); cbn [negb]; [| by eexists].
  destruct (validate_body fs s pdf_path quick_mode) as [d | error] eqn:Hbody;
    cbn [try_except].
  - exists d. split; [reflexivity |].
    destruct (validate_body_scored _ _ _ _ _ Hbody) as (size & results & _ & Hrec & ->).
    destruct Hrec as [l _ _ [-> | ->] | _ ->];
      unfold positional_update, fallback_update; by dict_reads.
  - eexists. split; [reflexivity |].
    unfold error_result. by destruct (_friendly_network_error error).
Qed.

(** ** The HTTP service *)

Lemma auth_ok_spec (cfg : Config) (request : Request) :
  _auth_ok cfg request = false
  ↔ API_SECRET cfg ≠ EmptyString
    ∧ headers_get request "X-API-Secret" ≠ Some (API_SECRET cfg).
Proof.
  unfold _auth_ok.
  destruct (String.eqb_spec (API_SECRET cfg) EmptyString) as [Heq | Hne].
  - split; [discriminate | intros [Hne _]; contradiction].
  - rewrite bool_decide_eq_false. tauto.
Qed.

Lemma too_large_spec (cfg : Config) (uploaded : FileStorage) :
  negb (Qle_bool (size_mb_of uploaded) (inject_Z (MAX_FILE_MB cfg))) = true
  ↔ too_large cfg uploaded.
Proof.
  unfold too_large. rewrite negb_true_iff, <- not_true_iff_false, Qle_bool_iff.
  split; [apply Qnot_le_lt | apply Qlt_not_le].
Qed.

(** In bytes: more than [MAX_FILE_MB * 1024 * 1024]. *)
Lemma too_large_bytes (cfg : Config) (uploaded : FileStorage) :
  too_large cfg uploaded
  ↔ MAX_FILE_MB cfg * (1024 * 1024) < Z.of_nat (String.length (stream uploaded)).
Proof.
  unfold too_large, size_mb_of, Qlt, Qdiv, Qinv, Qmult, inject_Z.
  change (1024 * 1024) with 1048576. cbn [Qnum Qden]. lia.
Qed.

(** The status codes a response can carry, with the branch that sends it. *)
Lemma validate_cases `{PyRuntime} (cfg : Config) (env : Env) (fs : FS) (request : Request) :
  let response := (validate cfg env fs request).2 in
  (_auth_ok cfg request = false
   ∧ ∃ body, response = Ret (body, 401) ∧ body !! "erro_codigo" = Some (VStr "AUTH_ERROR"))
  ∨ (_auth_ok cfg request = true
     ∧ ((∃ body, response = Ret (body, 400))
        ∨ (∃ body uploaded, response = Ret (body, 413)
             ∧ files request !! "file" = Some uploaded
             ∧ too_large cfg uploaded
             ∧ body !! "erro_codigo" = Some (VStr "FILE_TOO_LARGE"))
        ∨ (∃ body, response = Ret (body, 200))
        ∨ (∃ e, response = Exc e))).
Proof.
  cbv zeta. unfold validate.
  destruct (_auth_ok cfg request); cbn [negb]; [right; split; [reflexivity |] | left].
  - destruct (files request !! "file") as [uploaded |]; [| left; eauto].
    destruct (endswith _ _); cbn [negb]; [| left; eauto].
    destruct (negb (Qle_bool _ _)) eqn:Hsize.
    + right; left. apply too_large_spec in Hsize. eexists _, uploaded. eauto.
    + destruct (validate_pdf_with_tcees _ _ _ _); cbn [snd]; eauto 6.
  - split; [reflexivity |]. eauto.
Qed.

(** C6. [POST /validate] answers 401 with erro_codigo AUTH_ERROR if and
    only if [API_SECRET] is not empty and the X-API-Secret header of the
    request is not equal to it (a missing header included); no other
    response carries status 401; with an empty [API_SECRET] every request
    passes the authentication check. *)
Theorem auth_error_iff_secret_mismatch `{PyRuntime} (cfg : Config) (env : Env) (fs : FS)
    (request : Request) :
  ((∃ body, (validate cfg env fs request).2 = Ret (body, 401)
            ∧ body !! "erro_codigo" = Some (VStr "AUTH_ERROR"))
   ↔ API_SECRET cfg ≠ EmptyString
     ∧ headers_get request "X-API-Secret" ≠ Some (API_SECRET cfg))
  ∧ ((∃ body, (validate cfg env fs request).2 = Ret (body, 401))
     ↔ API_SECRET cfg ≠ EmptyString
       ∧ headers_get request "X-API-Secret" ≠ Some (API_SECRET cfg))
  ∧ _auth_ok {| API_SECRET := EmptyString; MAX_FILE_MB := MAX_FILE_MB cfg |} request = true.
Proof.
  rewrite <- auth_ok_spec.
  pose proof (validate_cases cfg env fs request) as Hcases. cbv zeta in Hcases.
  split; [| split; [| reflexivity]].
  - split.
    + intros (body & Hresp & _).
      destruct Hcases as [[Hauth _] | [_ Hother]]; [exact Hauth |].
      rewrite Hresp in Hother.
      destruct Hother as [(? & [=]) | [(? & ? & [=] & _) | [(? & [=]) | (? & [=])]]].
    + intros Hauth. destruct Hcases as [[_ Hresp] | [Hok _]]; [exact Hresp | congruence].
  - split.
    + intros (body & Hresp).
      destruct Hcases as [[Hauth _] | [_ Hother]]; [exact Hauth |].
      rewrite Hresp in Hother.
      destruct Hother as [(? & [=]) | [(? & ? & [=] & _) | [(? & [=]) | (? & [=])]]].
    + intros Hauth. destruct Hcases as [[_ (body & Hresp & _)] | [Hok _]]; [eauto | congruence].
Qed.

Lemma auth_error_iff_secret_mismatch_witness :
  (∃ body, (validate config_secret env_ok fs_doc (request_plain upload_small)).2
           = Ret (body, 401)
           ∧ body !! "erro_codigo" = Some (VStr "AUTH_ERROR"))
  ∧ ¬ (∃ body, (validate config_secret env_ok fs_doc
                  (request_with_secret "s3cret" upload_small)).2 = Ret (body, 401)).
Proof.
  split.
  - apply (proj1 (@auth_error_iff_secret_mismatch example_runtime config_secret env_ok fs_doc
                    (request_plain upload_small))).
    split; discriminate.
  - intros Hresp.
    apply (proj1 (proj2 (@auth_error_iff_secret_mismatch example_runtime config_secret env_ok
                           fs_doc (request_with_secret "s3cret" upload_small)))) in Hresp.
    destruct Hresp as [_ Hheader]. by apply Hheader.
Defined.

(** C7 (as stated): 413 exactly when the size exceeds the limit.  With a
    limit of zero megabytes this five-byte upload exceeds it, but its name
    does not end in .pdf and the answer is 400 NOT_PDF. *)
Lemma oversize_upload_rejected_for_its_name :
  too_large config_zero upload_text
  ∧ (∃ body, (validate config_zero env_ok fs_doc (request_plain upload_text)).2
             = Ret (body, 400)
             ∧ body !! "erro_codigo" = Some (VStr "NOT_PDF"))
  ∧ ¬ (∃ body, (validate config_zero env_ok fs_doc (request_plain upload_text)).2
               = Ret (body, 413)).
Proof.
  split; [vm_compute; reflexivity |]. split.
  - eexists. split; reflexivity.
  - intros (body & Hresp). discriminate Hresp.
Qed.

(** C7 (amended). A response 413 is sent only for an uploaded file whose
    size in megabytes strictly exceeds [MAX_FILE_MB], with erro_codigo
    FILE_TOO_LARGE.  For a request that passed the authentication, the
    field-present and the .pdf-name checks: a file over the limit is
    answered 413 and nothing is written; a file at or below the limit is
    saved under the temporary path, that path is given to
    [validate_pdf_with_tcees], the record it returns is sent with status
    200, and the temporary file no longer exists afterwards.  A request
    that fails one of the three earlier checks is answered 401 or 400,
    whatever the size of its file. *)
Theorem file_too_large_iff_over_limit `{PyRuntime} (cfg : Config) (env : Env) (fs : FS)
    (request : Request) :
  (∀ body, (validate cfg env fs request).2 = Ret (body, 413) →
     ∃ uploaded, files request !! "file" = Some uploaded
                 ∧ too_large cfg uploaded
                 ∧ body !! "erro_codigo" = Some (VStr "FILE_TOO_LARGE"))
  ∧ (∀ uploaded,
       _auth_ok cfg request = true →
       files request !! "file" = Some uploaded →
       endswith ".pdf" (str_lower (filename uploaded)) = true →
       (too_large cfg uploaded →
          ∃ body, validate cfg env fs request = (fs, Ret (body, 413))
                  ∧ body !! "erro_codigo" = Some (VStr "FILE_TOO_LARGE"))
       ∧ (¬ too_large cfg uploaded →
          let tmp_path := tmp_name env in
          let saved : FS := <[tmp_path := stream uploaded]> fs in
          ∃ resultado,
            os_path_isfile saved tmp_path = true
            ∧ validate_pdf_with_tcees saved (session env) tmp_path false = Ret resultado
            ∧ (validate cfg env fs request).2
              = Ret (setitem "nome_arquivo" (VStr (filename uploaded)) resultado, 200)
            ∧ (validate cfg env fs request).1 !! tmp_path = None
            ∧ os_path_isfile (validate cfg env fs request).1 tmp_path = false))
  ∧ (_auth_ok cfg request = false →
     ∃ body, (validate cfg env fs request).2 = Ret (body, 401)
             ∧ body !! "erro_codigo" = Some (VStr "AUTH_ERROR"))
  ∧ (_auth_ok cfg request = true → files request !! "file" = None →
     ∃ body, (validate cfg env fs request).2 = Ret (body, 400)
             ∧ body !! "erro_codigo" = Some (VStr "NO_FILE"))
  ∧ (∀ uploaded,
       _auth_ok cfg request = true →
       files request !! "file" = Some uploaded →
       endswith ".pdf" (str_lower (filename uploaded)) = false →
       ∃ body, (validate cfg env fs request).2 = Ret (body, 400)
               ∧ body !! "erro_codigo" = Some (VStr "NOT_PDF")).
Proof.
  split; [| split; [| split; [| split]]].
  - intros body Hresp.
    pose proof (validate_cases cfg env fs request) as Hcases. cbv zeta in Hcases.
    rewrite Hresp in Hcases.
    destruct Hcases as [[_ (? & [=] & _)] | [_ Hother]].
    destruct Hother as [(? & [=]) | [(? & uploaded & [= <-] & ? & ? & ?) | [(? & [=]) | (? & [=])]]].
    eauto.
  - intros uploaded Hauth Hfile Hpdf. unfold validate. rewrite Hauth, Hfile, Hpdf. cbn [negb].
    split.
    + intros Hlarge. apply too_large_spec in Hlarge. rewrite Hlarge. eauto.
    + intros Hsmall.
      destruct (negb (Qle_bool _ _)) eqn:Hsize; [by apply too_large_spec in Hsize |].
      cbv zeta.
      destruct (validate_pdf_with_tcees_returns (<[tmp_name env := stream uploaded]> fs)
                  (session env) (tmp_name env) false) as (resultado & Hres & _).
      rewrite Hres. cbn [fst snd]. exists resultado.
      assert ((<[tmp_name env := stream uploaded]> fs : FS) !! tmp_name env
              = Some (stream uploaded)) as Hsaved by apply lookup_insert_eq.
      assert (unlink_quietly (<[tmp_name env := stream uploaded]> fs) (tmp_name env)
                !! tmp_name env = None) as Hgone.
      { unfold unlink_quietly, os_unlink. rewrite Hsaved. apply lookup_delete_eq. }
      repeat split; try done.
      * unfold os_path_isfile. rewrite Hsaved. by apply bool_decide_eq_true.
      * unfold os_path_isfile. rewrite Hgone. apply bool_decide_eq_false. by intros [? [=]].
  - intros Hauth. unfold validate. rewrite Hauth. cbn [negb snd].
    eexists. split; reflexivity.
  - intros Hauth Hfile. unfold validate. rewrite Hauth, Hfile. cbn [negb snd].
    eexists. split; reflexivity.
  - intros uploaded Hauth Hfile Hname. unfold validate. rewrite Hauth, Hfile, Hname.
    cbn [negb snd]. eexists. split; reflexivity.
Qed.

Lemma file_too_large_iff_over_limit_witness :
  (∃ body, validate config_zero env_ok fs_doc (request_plain upload_small)
           = (fs_doc, Ret (body, 413))
           ∧ body !! "erro_codigo" = Some (VStr "FILE_TOO_LARGE"))
  ∧ (∃ resultado,
       os_path_isfile (<[tmp_name env_ok := stream upload_small]> fs_doc) (tmp_name env_ok)
       = true
       ∧ validate_pdf_with_tcees (<[tmp_name env_ok := stream upload_small]> fs_doc)
           (session env_ok) (tmp_name env_ok) false = Ret resultado
       ∧ (validate default_config env_ok fs_doc (request_plain upload_small)).2
         = Ret (setitem "nome_arquivo" (VStr (filename upload_small)) resultado, 200)
       ∧ (validate default_config env_ok fs_doc (request_plain upload_small)).1
           !! tmp_name env_ok = None
       ∧ os_path_isfile (validate default_config env_ok fs_doc (request_plain upload_small)).1
           (tmp_name env_ok) = false)
  ∧ (too_large config_zero upload_text
     ∧ ∃ body, (validate config_zero env_ok fs_doc (request_plain upload_text)).2
               = Ret (body, 400)
               ∧ body !! "erro_codigo" = Some (VStr "NOT_PDF"))
  ∧ (∃ body, (validate config_secret env_ok fs_doc (request_plain upload_small)).2
             = Ret (body, 401)
             ∧ body !! "erro_codigo" = Some (VStr "AUTH_ERROR")).
Proof.
  split; [| split; [| split]].
  - apply (proj1 (proj1 (proj2 (@file_too_large_iff_over_limit example_runtime config_zero
                                  env_ok fs_doc (request_plain upload_small)))
                   upload_small eq_refl eq_refl eq_refl)).
    vm_compute. reflexivity.
  - apply (proj2 (proj1 (proj2 (@file_too_large_iff_over_limit example_runtime default_config
                                  env_ok fs_doc (request_plain upload_small)))
                   upload_small eq_refl eq_refl eq_refl)).
    intros Hlarge. vm_compute in Hlarge. discriminate Hlarge.
  - split; [vm_compute; reflexivity |].
    apply (proj2 (proj2 (proj2 (proj2 (@file_too_large_iff_over_limit example_runtime
                                         config_zero env_ok fs_doc
                                         (request_plain upload_text))))) upload_text);
      reflexivity.
  - apply (proj1 (proj2 (proj2 (@file_too_large_iff_over_limit example_runtime config_secret
                                  env_ok fs_doc (request_plain upload_small)))));
      reflexivity.
Defined.

(** ** Several files *)

Lemma map_indexed_total {A B} (f : nat → A → res B) (l : list A) (i : nat) :
  (∀ j x, ∃ y, f j x = Ret y) →
  ∃ ys, map_indexed f i l = Ret ys
        ∧ length ys = length l
        ∧ ∀ k x, l !! k = Some x → ∃ y, ys !! k = Some y ∧ f (i + k)%nat x = Ret y.
Proof.
  intros Hf. revert i. induction l as [| x l IH]; intros i.
  - exists []. repeat split. intros k x [=].
  - destruct (Hf i x) as (y & Hy). destruct (IH (S i)) as (ys & Hys & Hlen & Hk).
    exists (y :: ys). cbn [map_indexed]. rewrite Hy, bind_Ret, Hys, bind_Ret.
    split; [reflexivity |]. split; [cbn; lia |].
    intros [| k] x' Hx'.
    + injection Hx' as <-. exists y. split; [reflexivity |]. by rewrite Nat.add_0_r.
    + destruct (Hk k x' Hx') as (y' & Hy' & Hfy'). exists y'. split; [exact Hy' |].
      by rewrite Nat.add_succ_r.
Qed.

(** C8 (as stated): one result per validated path whatever [max_workers]
    is.  With [max_workers = 0] the pool cannot be created and the call
    raises instead of returning. *)
Lemma validate_multiple_pdfs_zero_workers :
  validate_multiple_pdfs fs_doc (fun _ => session_ok) None [doc_path] 0
  = Exc "max_workers must be greater than 0"
  ∧ ¬ ∃ results,
        validate_multiple_pdfs fs_doc (fun _ => session_ok) None [doc_path] 0 = Ret results
        ∧ length results = 1%nat.
Proof.
  split; [reflexivity |]. intros (results & Hres & _). discriminate Hres.
Qed.

(** C8 (amended). An empty input gives the empty list, whatever the other
    arguments.  With [max_workers >= 1] the call returns one result per
    path among the first three of the input, in the same order, each naming
    its file, and (when the pool raises nothing) each the record of
    [validate_pdf_with_tcees] on that path.  With [max_workers <= 0] and a
    non-empty input the call raises. *)
Theorem validate_multiple_pdfs_first_three `{PyRuntime} (fs : FS) (sessions : nat → Session)
    (pool_error : option string) (pdf_paths : list string) (max_workers : Z) :
  validate_multiple_pdfs fs sessions pool_error [] max_workers = Ret []
  ∧ (1 ≤ max_workers →
     ∃ results,
       validate_multiple_pdfs fs sessions pool_error pdf_paths max_workers = Ret results
       ∧ length results = Nat.min 3 (length pdf_paths)
       ∧ ∀ i pdf_path, (i < 3)%nat → pdf_paths !! i = Some pdf_path →
           ∃ r, results !! i = Some r
                ∧ r !! "nome_arquivo" = Some (VStr (os_path_basename pdf_path))
                ∧ (pool_error = None →
                   validate_pdf_with_tcees fs (sessions i) pdf_path false = Ret r))
  ∧ (max_workers ≤ 0 → pdf_paths ≠ [] →
     validate_multiple_pdfs fs sessions pool_error pdf_paths max_workers
     = Exc "max_workers must be greater than 0").
Proof.
  split; [reflexivity |]. split.
  - intros Hworkers. unfold validate_multiple_pdfs.
    destruct pdf_paths as [| p0 rest]; [exists []; repeat split; intros ? ? ? [=] |].
    rewrite bool_decide_eq_false_2 by discriminate.
    set (paths := take 3 (p0 :: rest)).
    assert (length paths = Nat.min 3 (length (p0 :: rest))) as Hlen by apply length_take.
    assert (∀ i pdf_path, (i < 3)%nat → (p0 :: rest) !! i = Some pdf_path →
            paths !! i = Some pdf_path) as Htake.
    { intros i pdf_path Hi Hp. unfold paths. by rewrite lookup_take_lt. }
    unfold ThreadPoolExecutor.
    rewrite (proj2 (Z.leb_gt _ _)) by (rewrite Hlen; cbn [length]; lia).
    rewrite bind_Ret. unfold executor_map.
    destruct pool_error as [error |]; cbn [try_except].
    + eexists. split; [reflexivity |]. split; [by rewrite length_map |].
      intros i pdf_path Hi Hp. apply Htake in Hp; [| exact Hi].
      eexists. split; [by rewrite list_lookup_fmap, Hp |]. split; [reflexivity | discriminate].
    + destruct (map_indexed_total
                  (fun i pdf_path => validate_pdf_with_tcees fs (sessions i) pdf_path false)
                  paths 0) as (results & Hres & Hlen' & Hk).
      { intros j x. destruct (validate_pdf_with_tcees_returns fs (sessions j) x false)
          as (d & Hd & _). eauto. }
      rewrite Hres. cbn [try_except]. exists results.
      split; [reflexivity |]. split; [congruence |].
      intros i pdf_path Hi Hp. apply Htake in Hp; [| exact Hi].
      destruct (Hk i pdf_path Hp) as (r & Hr & Hcall). cbn [Nat.add] in Hcall.
      exists r. split; [exact Hr |].
      destruct (validate_pdf_with_tcees_returns fs (sessions i) pdf_path false)
        as (d & Hd & Hname).
      split; [congruence | by intros _].
  - intros Hworkers Hne. unfold validate_multiple_pdfs.
    rewrite bool_decide_eq_false_2 by exact Hne.
    unfold ThreadPoolExecutor.
    rewrite (proj2 (Z.leb_le _ _)) by lia. reflexivity.
Qed.

Lemma validate_multiple_pdfs_first_three_witness :
  ∃ results,
    validate_multiple_pdfs fs_doc (fun _ => session_ok) None
      [doc_path; "/srv/uploads/b.pdf"; "/srv/uploads/c.pdf"; "/srv/uploads/d.pdf"] 8
    = Ret results
    ∧ length results = 3%nat
    ∧ ∀ i pdf_path, (i < 3)%nat →
        [doc_path; "/srv/uploads/b.pdf"; "/srv/uploads/c.pdf"; "/srv/uploads/d.pdf"] !! i
        = Some pdf_path →
        ∃ r, results !! i = Some r
             ∧ r !! "nome_arquivo" = Some (VStr (os_path_basename pdf_path))
             ∧ validate_pdf_with_tcees fs_doc session_ok pdf_path false = Ret r.
Proof.
  destruct (proj1 (proj2 (@validate_multiple_pdfs_first_three example_runtime fs_doc
                            (fun _ => session_ok) None
                            [doc_path; "/srv/uploads/b.pdf"; "/srv/uploads/c.pdf";
                             "/srv/uploads/d.pdf"] 8)))
    as (results & Hres & Hlen & Hall); [lia |].
  exists results. split; [exact Hres |]. split; [exact Hlen |].
  intros i pdf_path Hi Hp. destruct (Hall i pdf_path Hi Hp) as (r & Hr & Hname & Hcall).
  exists r. split; [exact Hr |]. split; [exact Hname | by apply Hcall].
Defined.

(** ** The model on concrete inputs *)

Example pontuacao_of_values :
  map pontuacao_of [0; 1; 2; 3; 4; 5; 6; 7]
  = [Ret 0; Ret 14; Ret 28; Ret 42; Ret 57; Ret 71; Ret 85; Ret 100].
Proof. vm_compute. reflexivity. Qed.

Example pending_cell_is_unresolved :
  _status_from_cell_html (Some (cell_inner_html cell_pending)) = None.
Proof. vm_compute. reflexivity. Qed.

Example signed_document_is_validated :
  record_of (validate_pdf_with_tcees fs_doc session_ok doc_path false) !! "resultado_final"
  = Some (VStr "VALIDADO")
  ∧ record_of (validate_pdf_with_tcees fs_doc session_ok doc_path false) !! "pontuacao"
    = Some (VInt 100).
Proof. split; reflexivity. Qed.

Example unsigned_document_is_not_validated :
  record_of (validate_pdf_with_tcees fs_doc session_unsigned doc_path false)
    !! "resultado_final" = Some (VStr "NÃO VALIDADO")
  ∧ record_of (validate_pdf_with_tcees fs_doc session_unsigned doc_path false) !! "pontuacao"
    = Some (VInt 71).
Proof. split; reflexivity. Qed.

Example silent_portal_is_a_parse_failure :
  route_of fs_doc session_silent doc_path true = ParseFailed
  ∧ waited (poll_loop session_silent (max_wait_of true) poll_start).1 = 30
  ∧ record_of (validate_pdf_with_tcees fs_doc session_silent doc_path true)
      !! "resultado_final" = Some (VStr "ERRO")
  ∧ record_of (validate_pdf_with_tcees fs_doc session_silent doc_path true) !! "pontuacao"
    = Some (VInt 28).
Proof. repeat split; vm_compute; reflexivity. Qed.

Example missing_chrome_is_a_validation_error :
  record_of (validate_pdf_with_tcees fs_doc session_no_chrome doc_path false) !! "erro_codigo"
  = Some (VStr "TCEES_VALIDATION_ERROR").
Proof. reflexivity. Qed.

Example missing_file_is_not_found :
  route_of fs_doc session_ok "/srv/uploads/other.pdf" false = NotFound
  ∧ record_of (validate_pdf_with_tcees fs_doc session_ok "/srv/uploads/other.pdf" false)
      !! "erro" = Some (VStr "Arquivo não encontrado: /srv/uploads/other.pdf").
Proof. split; reflexivity. Qed.

(* ===================================================================== *)
(** * Further properties of the validator and the service *)
(* ===================================================================== *)

(** ** Signatures *)

Lemma statuses_signature_chars (l : list status) :
  _statuses_signature (Some l) = signature_chars l.
Proof. by destruct l. Qed.

Lemma status_char_cons (s : status) (acc : string) :
  ∃ c, status_char s +:+ acc = String c acc
       ∧ c = match s with
             | Some true => "1"%char
             | Some false => "0"%char
             | None => "?"%char
             end.
Proof. destruct s as [[|]|]; eexists; split; reflexivity. Qed.

Lemma signature_chars_inj (l1 l2 : list status) :
  signature_chars l1 = signature_chars l2 → l1 = l2.
Proof.
  revert l2. induction l1 as [| s1 l1 IH]; intros [| s2 l2]; cbn [signature_chars fold_right].
  - reflexivity.
  - destruct (status_char_cons s2 (signature_chars l2)) as (c & Hc & _).
    unfold signature_chars in Hc. rewrite Hc. discriminate.
  - destruct (status_char_cons s1 (signature_chars l1)) as (c & Hc & _).
    unfold signature_chars in Hc. rewrite Hc. discriminate.
  - destruct (status_char_cons s1 (signature_chars l1)) as (c1 & Hc1 & Hv1).
    destruct (status_char_cons s2 (signature_chars l2)) as (c2 & Hc2 & Hv2).
    unfold signature_chars in *. rewrite Hc1, Hc2. intros [= Hc Hrest].
    f_equal; [| by apply IH].
    subst c1 c2. destruct s1 as [[|]|], s2 as [[|]|]; try reflexivity; discriminate.
Qed.

Lemma signature_chars_length (l : list status) :
  String.length (signature_chars l) = length l.
Proof.
  induction l as [| s l IH]; [reflexivity |].
  cbn [signature_chars fold_right].
  destruct (status_char_cons s (signature_chars l)) as (c & Hc & _).
  unfold signature_chars in *. rewrite Hc. cbn. by rewrite IH.
Qed.

(** X1. The signature identifies the status list: two lists have the same
    signature exactly when they are the same list, and the signature has
    one character per status.  Only [None] and the empty list share a
    signature, the empty string. *)
Theorem statuses_signature_faithful (l1 l2 : list status) :
  (_statuses_signature (Some l1) = _statuses_signature (Some l2) ↔ l1 = l2)
  ∧ String.length (_statuses_signature (Some l1)) = length l1
  ∧ _statuses_signature None = _statuses_signature (Some [])
  ∧ _statuses_signature None = EmptyString.
Proof.
  rewrite !statuses_signature_chars.
  split; [| split; [apply signature_chars_length | split; reflexivity]].
  split; [apply signature_chars_inj | by intros ->].
Qed.

(** ** Reading the statuses off the page *)

Lemma count_resolved_nonneg (l : list status) : 0 ≤ count_resolved l.
Proof.
  induction l as [| s l IH]; [done |].
  cbn [count_resolved fold_right]. fold (count_resolved l).
  destruct (bool_decide (s ≠ None)); cbn; lia.
Qed.

Lemma selector_statuses_length `{PyRuntime} (driver : Page) (selector : string)
    (l : list status) :
  selector_statuses driver selector = Some l → length l = 8%nat.
Proof.
  unfold selector_statuses. destruct (find_elements driver selector) as [cells |]; [| done].
  destruct (Z.of_nat (length cells) <? 8) eqn:Hlen; [done |].
  intros [= <-]. rewrite length_map, length_take. apply Z.ltb_ge in Hlen. lia.
Qed.

Lemma extract_from_selectors_step `{PyRuntime} (driver : Page) (selector : string)
    (rest : list string) (best_candidate : option (list status)) (best_resolved : Z) :
  extract_from_selectors driver (selector :: rest) best_candidate best_resolved
  = match selector_statuses driver selector with
    | None => extract_from_selectors driver rest best_candidate best_resolved
    | Some statuses =>
        if 6 <=? count_resolved statuses then Some statuses
        else if best_resolved <? count_resolved statuses
             then extract_from_selectors driver rest (Some statuses) (count_resolved statuses)
             else extract_from_selectors driver rest best_candidate best_resolved
    end.
Proof.
  cbn [extract_from_selectors]. unfold selector_statuses.
  destruct (find_elements driver selector) as [cells |]; [| reflexivity].
  destruct (Z.of_nat (length cells) <? 8); [reflexivity |].
  destruct (best_resolved <? _); destruct (6 <=? _); reflexivity.
Qed.

Lemma extract_from_selectors_spec `{PyRuntime} (driver : Page) (sels : list string)
    (best_candidate : option (list status)) (best_resolved : Z) :
  best_so_far best_candidate best_resolved →
  match extract_from_selectors driver sels best_candidate best_resolved with
  | Some l =>
      (best_candidate = Some l ∨ ∃ sel, sel ∈ sels ∧ selector_statuses driver sel = Some l)
      ∧ Z.min best_resolved 6 ≤ count_resolved l
      ∧ ∀ sel l', sel ∈ sels → selector_statuses driver sel = Some l' →
          Z.min (count_resolved l') 6 ≤ count_resolved l
  | None =>
      best_candidate = None ∧ ∀ sel, sel ∈ sels → selector_statuses driver sel = None
  end.
Proof.
  revert best_candidate best_resolved.
  induction sels as [| selector rest IH]; intros bc br Hinv.
  - cbn [extract_from_selectors]. destruct bc as [l |].
    + split; [by left |]. cbn in Hinv. split; [lia |].
      intros sel l' Hin. by apply elem_of_nil in Hin.
    + split; [reflexivity |]. intros sel Hin. by apply elem_of_nil in Hin.
  - rewrite extract_from_selectors_step.
    destruct (selector_statuses driver selector) as [statuses |] eqn:Hsel.
    + pose proof (count_resolved_nonneg statuses) as Hnn.
      destruct (6 <=? count_resolved statuses) eqn:Hsix.
      * apply Z.leb_le in Hsix. split; [right; exists selector; split; [left | done] |].
        split; [lia |]. intros sel l' _ _. lia.
      * apply Z.leb_gt in Hsix.
        destruct (br <? count_resolved statuses) eqn:Hbetter.
        -- apply Z.ltb_lt in Hbetter.
           specialize (IH (Some statuses) (count_resolved statuses) eq_refl).
           destruct (extract_from_selectors driver rest (Some statuses) (count_resolved statuses))
             as [l |]; [| by destruct IH].
           destruct IH as (Hfrom & Hmin & Hall). split; [| split].
           ++ destruct Hfrom as [[= <-] | (sel & Hin & Hs)];
                right; [exists selector | exists sel]; split; try done; [left | by right].
           ++ lia.
           ++ intros sel l' Hin Hs. apply elem_of_cons in Hin as [-> | Hin]; [| by eapply Hall].
              rewrite Hsel in Hs. injection Hs as <-. lia.
        -- apply Z.ltb_ge in Hbetter. specialize (IH bc br Hinv).
           destruct (extract_from_selectors driver rest bc br) as [l |].
           ++ destruct IH as (Hfrom & Hmin & Hall). split; [| split; [exact Hmin |]].
              ** destruct Hfrom as [-> | (sel & Hin & Hs)]; [by left |].
                 right. exists sel. split; [by right | done].
              ** intros sel l' Hin Hs. apply elem_of_cons in Hin as [-> | Hin]; [| by eapply Hall].
                 rewrite Hsel in Hs. injection Hs as <-. lia.
           ++ destruct IH as (-> & _). cbn in Hinv. lia.
    + specialize (IH bc br Hinv).
      destruct (extract_from_selectors driver rest bc br) as [l |].
      * destruct IH as (Hfrom & Hmin & Hall). split; [| split; [exact Hmin |]].
        -- destruct Hfrom as [-> | (sel & Hin & Hs)]; [by left |].
           right. exists sel. split; [by right | done].
        -- intros sel l' Hin Hs. apply elem_of_cons in Hin as [-> | Hin]; [| by eapply Hall].
           congruence.
      * destruct IH as (-> & Hall). split; [reflexivity |].
        intros sel Hin. apply elem_of_cons in Hin as [-> | Hin]; [done | by apply Hall].
Qed.

(** X2. [_extract_statuses_from_driver] returns [None] exactly when none of
    the three selectors finds at least eight cells (a selector whose lookup
    raises counts as finding none).  A list it returns has exactly eight
    statuses, and they are the statuses of the first eight cells found by
    one of the three selectors. *)
Theorem extract_statuses_from_driver_shape `{PyRuntime} (driver : Page) :
  (_extract_statuses_from_driver driver = None
   ↔ ∀ selector, selector ∈ selectors → selector_statuses driver selector = None)
  ∧ ∀ l, _extract_statuses_from_driver driver = Some l →
         length l = 8%nat
         ∧ ∃ selector, selector ∈ selectors ∧ selector_statuses driver selector = Some l.
Proof.
  unfold _extract_statuses_from_driver.
  pose proof (extract_from_selectors_spec driver selectors None (-1)) as Hspec.
  cbn [best_so_far] in Hspec. specialize (Hspec ltac:(lia)).
  destruct (extract_from_selectors driver selectors None (-1)) as [l |].
  - destruct Hspec as ([[=] | (sel & Hin & Hsel)] & _ & _). split.
    + split; [discriminate |]. intros Hnone. rewrite Hnone in Hsel by exact Hin. discriminate.
    + intros l' [= <-]. split; [by eapply selector_statuses_length | eauto].
  - destruct Hspec as (_ & Hall). split; [by split | discriminate].
Qed.

(** X3. The list [_extract_statuses_from_driver] returns is as resolved as
    that of any selector, up to six: whenever some selector yields a list
    with at least six resolved statuses, the list returned has at least six
    too; otherwise the list returned has the largest number of resolved
    statuses among the three selectors. *)
Theorem extract_statuses_from_driver_best `{PyRuntime} (driver : Page) (l : list status) :
  _extract_statuses_from_driver driver = Some l →
  ∀ selector l', selector ∈ selectors → selector_statuses driver selector = Some l' →
    Z.min (count_resolved l') 6 ≤ count_resolved l.
Proof.
  unfold _extract_statuses_from_driver. intros Hl selector l' Hin Hsel.
  pose proof (extract_from_selectors_spec driver selectors None (-1)) as Hspec.
  cbn [best_so_far] in Hspec. specialize (Hspec ltac:(lia)).
  rewrite Hl in Hspec. destruct Hspec as (_ & _ & Hall). by eapply Hall.
Qed.

Lemma extract_statuses_from_driver_best_witness :
  _extract_statuses_from_driver page_unsigned
  = Some [Some true; Some true; Some true; Some true; Some false; Some false; Some true;
          Some false]
  ∧ ∀ selector l', selector ∈ selectors →
      selector_statuses page_unsigned selector = Some l' →
      Z.min (count_resolved l') 6
      ≤ count_resolved [Some true; Some true; Some true; Some true; Some false; Some false;
                        Some true; Some false].
Proof.
  split; [vm_compute; reflexivity |].
  apply (@extract_statuses_from_driver_best example_runtime page_unsigned).
  vm_compute. reflexivity.
Defined.

(** ** What applying a status list leaves alone *)

Lemma apply_statuses_exact `{PyRuntime} (results : dict) (l : list status)
    (page_text : option string) :
  (8 ≤ length l)%nat →
  _apply_statuses_to_results results (Some l) page_text
  = Ret (if says_unsigned page_text && negb (True_at l 4)
         then setitem "mensagem_erro" (VStr "Arquivo não assinado")
                (positional_update results l)
         else positional_update results l, true).
Proof.
  intros Hlen.
  assert ((len (Some l) <? 8) = false) as Hlong.
  { apply Z.ltb_ge. unfold len. cbn. lia. }
  destruct (eight_or_more l Hlen) as (s0 & s1 & s2 & s3 & s4 & s5 & s6 & s7 & rest & Hl).
  unfold positional_update, verdict_of, says_unsigned.
  rewrite (True_at_lookup l 0 s0), (True_at_lookup l 1 s1), (True_at_lookup l 2 s2),
    (True_at_lookup l 3 s3), (True_at_lookup l 4 s4), (True_at_lookup l 5 s5),
    (True_at_lookup l 6 s6), (True_at_lookup l 7 s7), (False_at_lookup l 7 s7)
    by (subst l; reflexivity).
  cbn [forallb].
  rewrite (True_at_lookup l 0 s0), (True_at_lookup l 1 s1), (True_at_lookup l 2 s2),
    (True_at_lookup l 3 s3), (True_at_lookup l 4 s4), (True_at_lookup l 5 s5),
    (True_at_lookup l 6 s6) by (subst l; reflexivity).
  unfold _apply_statuses_to_results. rewrite Hlong.
  replace (falsy_list (Some l)) with false by (subst l; reflexivity).
  cbn [orb default from_option id].
  replace (getidx l 0) with (Ret s0) by (subst l; reflexivity).
  replace (getidx l 1) with (Ret s1) by (subst l; reflexivity).
  replace (getidx l 2) with (Ret s2) by (subst l; reflexivity).
  replace (getidx l 3) with (Ret s3) by (subst l; reflexivity).
  replace (getidx l 4) with (Ret s4) by (subst l; reflexivity).
  replace (getidx l 5) with (Ret s5) by (subst l; reflexivity).
  replace (getidx l 6) with (Ret s6) by (subst l; reflexivity).
  replace (getidx l 7) with (Ret s7) by (subst l; reflexivity).
  rewrite !bind_Ret. dict_reads. rewrite !bind_Ret. cbn [truthy].
  set (text_says_unsigned := contains _ _ || contains _ _).
  destruct (is_True s7); [| destruct (is_False s7)];
    repeat first [rewrite bind_Ret | progress dict_reads];
    cbn [truthy forallb];
    (destruct text_says_unsigned;
     repeat first [rewrite bind_Ret | progress dict_reads];
     cbn [truthy];
     [ destruct (is_True s4); cbn [negb andb] | ];
     reflexivity).
Qed.

(** X4. Applied to a list of at least eight statuses,
    [_apply_statuses_to_results] succeeds and leaves every key of the
    record other than the ten check and verdict keys and mensagem_erro as
    it was: the file name, size, date, certificate fields and any other
    entry of the record are carried over unchanged. *)
Theorem apply_statuses_keeps_other_keys `{PyRuntime} (results : dict) (l : list status)
    (page_text : option string) (k : string) :
  (8 ≤ length l)%nat →
  k ∉ applied_keys →
  ∃ results',
    _apply_statuses_to_results results (Some l) page_text = Ret (results', true)
    ∧ results' !! k = results !! k.
Proof.
  intros Hlen Hk. rewrite (apply_statuses_exact results l page_text Hlen).
  eexists. split; [reflexivity |].
  unfold applied_keys in Hk. rewrite !not_elem_of_cons in Hk.
  destruct Hk as (? & ? & ? & ? & ? & ? & ? & ? & ? & ? & ? & _).
  destruct (says_unsigned page_text && negb (True_at l 4));
    unfold positional_update; by rewrite !lookup_setitem_ne.
Qed.

Lemma apply_statuses_keeps_other_keys_witness :
  ∃ results',
    _apply_statuses_to_results (initial_results "doc.pdf" 16 "2024-05-06 10:00:00")
      (Some (replicate 8 (Some true))) (Some "Arquivo assinado")
    = Ret (results', true)
    ∧ results' !! "tamanho_bytes" = Some (VInt 16).
Proof.
  destruct (@apply_statuses_keeps_other_keys example_runtime
              (initial_results "doc.pdf" 16 "2024-05-06 10:00:00")
              (replicate 8 (Some true)) (Some "Arquivo assinado") "tamanho_bytes")
    as (results' & Hr & Hk).
  - cbn. lia.
  - unfold applied_keys. repeat (apply not_elem_of_cons; split; [discriminate |]).
    apply not_elem_of_nil.
  - exists results'. split; [exact Hr | exact Hk].
Defined.

(** X5. Applied to a list of at least eight statuses,
    [_apply_statuses_to_results] sets mensagem_erro to the text
    Arquivo não assinado exactly when the lowercased page text contains
    nao assinado or não assinado and the signature status (index 4) is not
    [True]; in every other case mensagem_erro keeps the value it had,
    whatever the other statuses and the verdict are. *)
Theorem apply_statuses_mensagem_erro `{PyRuntime} (results : dict) (l : list status)
    (page_text : option string) :
  (8 ≤ length l)%nat →
  ∃ results',
    _apply_statuses_to_results results (Some l) page_text = Ret (results', true)
    ∧ results' !! "mensagem_erro"
      = if says_unsigned page_text && negb (True_at l 4)
        then Some (VStr "Arquivo não assinado")
        else results !! "mensagem_erro".
Proof.
  intros Hlen. rewrite (apply_statuses_exact results l page_text Hlen).
  eexists. split; [reflexivity |].
  destruct (says_unsigned page_text && negb (True_at l 4));
    unfold positional_update; by dict_reads.
Qed.

Lemma apply_statuses_mensagem_erro_witness :
  (∃ results',
     _apply_statuses_to_results (initial_results "doc.pdf" 16 "2024-05-06 10:00:00")
       (Some [Some true; Some true; Some true; Some true; Some false; Some false; Some true;
              Some false])
       (Some "Documento NÃO ASSINADO") = Ret (results', true)
     ∧ results' !! "mensagem_erro" = Some (VStr "Arquivo não assinado"))
  ∧ (∃ results',
       _apply_statuses_to_results (initial_results "doc.pdf" 16 "2024-05-06 10:00:00")
         (Some (replicate 8 (Some true)))
         (Some "Documento NÃO ASSINADO") = Ret (results', true)
       ∧ results' !! "mensagem_erro" = Some (VStr EmptyString)).
Proof.
  split.
  - destruct (@apply_statuses_mensagem_erro example_runtime
                (initial_results "doc.pdf" 16 "2024-05-06 10:00:00")
                [Some true; Some true; Some true; Some true; Some false; Some false;
                 Some true; Some false]
                (Some "Documento NÃO ASSINADO")) as (results' & Hr & Hm); [cbn; lia |].
    exists results'. split; [exact Hr | exact Hm].
  - destruct (@apply_statuses_mensagem_erro example_runtime
                (initial_results "doc.pdf" 16 "2024-05-06 10:00:00")
                (replicate 8 (Some true))
                (Some "Documento NÃO ASSINADO")) as (results' & Hr & Hm); [cbn; lia |].
    exists results'. split; [exact Hr | exact Hm].
Defined.

(** ** Error records *)

Lemma friendly_network_error_text `{PyRuntime} (error : string) :
  first_matching network_codes (str_upper error) = None →
  _friendly_network_error error = (None, error).
Proof.
  unfold _friendly_network_error, network_codes. cbn [first_matching existsb].
  rewrite !orb_false_r.
  repeat match goal with
         | |- context [if ?b then _ else _] => destruct b; try discriminate
         end.
  reflexivity.
Qed.

(** X6. When the body of [validate_pdf_with_tcees] raises, the record
    returned keeps the text of the exception unchanged under erro_tecnico
    and names the file by its base name; when that text matches none of the
    five network markers, the same text is also the user-facing erro.  The
    record has neither tamanho_bytes nor mensagem_erro. *)
Theorem error_record_keeps_exception_text `{PyRuntime} (fs : FS) (s : Session)
    (pdf_path : string) (quick_mode : bool) (error : string) :
  route_of fs s pdf_path quick_mode = Raised error →
  ∃ d, validate_pdf_with_tcees fs s pdf_path quick_mode = Ret d
       ∧ d !! "erro_tecnico" = Some (VStr error)
       ∧ d !! "nome_arquivo" = Some (VStr (os_path_basename pdf_path))
       ∧ (first_matching network_codes (str_upper error) = None →
          d !! "erro" = Some (VStr error))
       ∧ d !! "tamanho_bytes" = None
       ∧ d !! "mensagem_erro" = None.
Proof.
  unfold route_of, validate_pdf_with_tcees.
  destruct (os_path_isfile fs pdf_path); cbn [negb]; [| discriminate].
  destruct (validate_body fs s pdf_path quick_mode) as [d | e]; [by destruct (8 <=? _) |].
  intros [= ->]. cbn [try_except]. eexists. split; [reflexivity |].
  unfold error_result.
  destruct (_friendly_network_error error) as [code friendly] eqn:Hfriendly.
  split; [reflexivity |]. split; [reflexivity |]. split; [| by split].
  intros Hnone. rewrite (friendly_network_error_text error Hnone) in Hfriendly.
  injection Hfriendly as <- <-.
  change (list_to_map _ !! "erro") with (Some (VStr (str_or error error))).
  unfold str_or. by destruct (String.eqb error EmptyString).
Qed.

Lemma error_record_keeps_exception_text_witness :
  ∃ d, validate_pdf_with_tcees fs_doc session_no_chrome doc_path false = Ret d
       ∧ d !! "erro_tecnico" = Some (VStr "Message: unknown error: cannot find Chrome binary")
       ∧ d !! "erro" = Some (VStr "Message: unknown error: cannot find Chrome binary").
Proof.
  destruct (@error_record_keeps_exception_text example_runtime fs_doc session_no_chrome
              doc_path false "Message: unknown error: cannot find Chrome binary")
    as (d & Hd & Htec & _ & Herro & _); [vm_compute; reflexivity |].
  exists d. split; [exact Hd |]. split; [exact Htec |].
  apply Herro. vm_compute. reflexivity.
Defined.

(** ** More on the polling loop *)

Lemma poll_body_waited `{PyRuntime} (s : Session) (st : PollState) :
  waited (poll_body s st).1 = waited st + poll_interval.
Proof.
  unfold poll_body.
  repeat match goal with
         | |- context [if ?b then _ else _] => destruct b
         end; reflexivity.
Qed.




(** The loop that runs out of budget, from a state reached after [n] polls. *)
Lemma poll_loop_timeout `{PyRuntime} (s : Session) (max_wait : Z) (fuel n : nat)
    (st : PollState) :
  poll_invariant s n st →
  max_wait - poll_interval * Z.of_nat n ≤ poll_interval * Z.of_nat fuel →
  (poll_loop s max_wait st).2 = false →
  ∃ m, (n ≤ m)%nat
       ∧ max_wait ≤ poll_interval * Z.of_nat m
       ∧ (m = n ∨ poll_interval * (Z.of_nat m - 1) < max_wait)
       ∧ poll_invariant s m (poll_loop s max_wait st).1.
Proof.
  revert n st. induction fuel as [| fuel IH]; intros n st Hinv Hfuel;
    rewrite poll_loop_step; pose proof Hinv as (Hw & _);
    destruct (decide (waited st < max_wait)) as [Hlt | Hge];
    try (unfold poll_interval in *; lia); cbn [fst snd].
  - intros _. exists n. split; [lia |]. split; [lia |]. split; [by left | exact Hinv].
  - destruct (poll_body_invariant s n st Hinv) as (Hw' & _ & Hcont).
    destruct (poll_body s st).2 eqn:Hb; cbn [fst snd]; [discriminate |].
    destruct (Hcont eq_refl) as (Hinv' & _). intros Hfalse.
    destruct (IH (S n) (poll_body s st).1 Hinv') as (m & Hm & Hge & Hor & Hfinal).
    + unfold poll_interval in *. lia.
    + exact Hfalse.
    + exists m. split; [lia |]. split; [exact Hge |]. split; [| exact Hfinal].
      right. destruct Hor as [-> | Hor]; [| exact Hor]. unfold poll_interval in *. lia.
  - intros _. exists n. split; [lia |]. split; [lia |]. split; [by left | exact Hinv].
Qed.

(** X8. When the polling loop runs out of time without [break], the
    statuses it leaves are not lost: if some poll of the run yielded a list
    of at least eight statuses with at least six resolved, the list of the
    last such poll is the one applied to the results, without reading the
    page again; only when no poll of the run yielded such a list does the
    loop leave nothing, and the page is read again after the loop. *)
Theorem timeout_keeps_last_usable_poll `{PyRuntime} (s : Session) (quick_mode : bool) :
  (poll_loop s (max_wait_of quick_mode) poll_start).2 = false →
  (∃ j, (1 ≤ j ≤ max_polls quick_mode)%nat
        ∧ qualifies (observed s j) = true
        ∧ (∀ i, (j < i ≤ max_polls quick_mode)%nat → qualifies (observed s i) = false)
        ∧ statuses_for_results s quick_mode = observed s j)
  ∨ ((∀ i, (1 ≤ i ≤ max_polls quick_mode)%nat → qualifies (observed s i) = false)
     ∧ parsed_statuses (poll_loop s (max_wait_of quick_mode) poll_start).1 = None).
Proof.
  intros Hfalse.
  destruct (poll_loop_timeout s (max_wait_of quick_mode) (max_polls quick_mode) 0 poll_start
              (poll_start_invariant s)) as (m & _ & Hge & Hor & Hinv); [| exact Hfalse |].
  { unfold poll_interval. destruct quick_mode; cbn; lia. }
  assert (m = max_polls quick_mode) as ->.
  { unfold poll_interval in *. destruct quick_mode; cbn in *; lia. }
  destruct Hinv as (_ & _ & [(j & Hj & Hq & Hafter & _ & Hparsed) | (Hnone & _ & Hparsed)]).
  - left. exists j. split; [exact Hj |]. split; [exact Hq |]. split; [exact Hafter |].
    unfold statuses_for_results. rewrite Hparsed. by apply select_statuses_parsed.
  - right. by split.
Qed.

Lemma timeout_keeps_last_usable_poll_witness :
  (poll_loop session_flicker (max_wait_of true) poll_start).2 = false
  ∧ statuses_for_results session_flicker true = observed session_flicker 15.
Proof.
  assert ((poll_loop session_flicker (max_wait_of true) poll_start).2 = false) as Hout
    by (vm_compute; reflexivity).
  split; [exact Hout |].
  destruct (@timeout_keeps_last_usable_poll example_runtime session_flicker true Hout)
    as [(j & Hj & _ & Hafter & Hres) | (Hnone & _)].
  - cbn [max_polls] in Hj, Hafter. destruct (decide (j = 15%nat)) as [-> | Hne].
    + exact Hres.
    + specialize (Hafter 15%nat ltac:(lia)). vm_compute in Hafter. discriminate Hafter.
  - specialize (Hnone 1%nat ltac:(cbn [max_polls]; lia)). vm_compute in Hnone. discriminate Hnone.
Defined.

(** X9. The polling loop sleeps a whole number of two-second intervals.  It
    never ends with [break] before the second poll, so a run waits at least
    four seconds for the statuses; a run that ends with [break] has waited
    at most 30 seconds in quick mode and 56 in normal mode; a run that
    times out has waited exactly 30 seconds in quick mode and exactly 56
    seconds in normal mode, one second more than its [max_wait] of 55. *)
Theorem poll_loop_waiting_time `{PyRuntime} (s : Session) (quick_mode : bool) :
  ((poll_loop s (max_wait_of quick_mode) poll_start).2 = true →
   4 ≤ waited (poll_loop s (max_wait_of quick_mode) poll_start).1
     ≤ (if quick_mode then 30 else 56)
   ∧ Z.even (waited (poll_loop s (max_wait_of quick_mode) poll_start).1) = true)
  ∧ ((poll_loop s (max_wait_of quick_mode) poll_start).2 = false →
     waited (poll_loop s (max_wait_of quick_mode) poll_start).1
     = if quick_mode then 30 else 56).
Proof.
  destruct (poll_loop_invariant s (max_wait_of quick_mode) (max_polls quick_mode) 0
              poll_start (poll_start_invariant s))
    as (n & _ & Hw & _ & Htrue & Hfalse).
  { intros k Hk Hrep. apply repeats_last_after_first in Hrep. lia. }
  { unfold poll_interval. destruct quick_mode; cbn; lia. }
  split.
  - intros Hbreak. destruct (Htrue Hbreak) as (_ & Hlast & Hrep & _).
    apply repeats_last_after_first in Hrep. rewrite Hw. unfold poll_interval in *.
    split; [destruct quick_mode; cbn in *; lia |].
    rewrite Z.even_mul. reflexivity.
  - intros Hout. destruct (Hfalse Hout) as (Hge & Hor & _). rewrite Hw.
    unfold poll_interval in *. destruct quick_mode; cbn in *; lia.
Qed.

(** ** The list given to the results *)

Lemma extract_statuses_from_driver_eight `{PyRuntime} (driver : Page) :
  eight_or_none (_extract_statuses_from_driver driver).
Proof.
  unfold _extract_statuses_from_driver, eight_or_none.
  assert (∀ sels bc br, eight_or_none bc →
            eight_or_none (extract_from_selectors driver sels bc br)) as Hgen.
  { induction sels as [| selector rest IH]; intros bc br Hbc; [exact Hbc |].
    cbn [extract_from_selectors].
    destruct (find_elements driver selector) as [cells |]; [| by apply IH].
    destruct (Z.of_nat (length cells) <? 8) eqn:Hlen; [by apply IH |].
    apply Z.ltb_ge in Hlen.
    assert (length (map (fun cell => _status_from_cell_html (Some (cell_inner_html cell)))
                        (take 8 cells)) = 8%nat) as Height
      by (rewrite length_map, length_take; lia).
    destruct (br <? _); destruct (6 <=? _); try exact Height; by apply IH. }
  by apply Hgen.
Qed.

Lemma extract_statuses_from_html_eight `{PyRuntime} (page_html : string) :
  eight_or_none (_extract_statuses_from_html page_html).
Proof.
  unfold _extract_statuses_from_html, eight_or_none.
  destruct (String.eqb page_html EmptyString); [done |].
  destruct (str_find _ _ <? 0); [done |].
  destruct (Z.of_nat _ <? 8) eqn:Hcells; [done |].
  apply Z.ltb_ge in Hcells. rewrite length_map, length_take. lia.
Qed.

Lemma poll_body_eight `{PyRuntime} (s : Session) (st : PollState) :
  eight_or_none (parsed_statuses st) → eight_or_none (parsed_statuses (poll_body s st).1).
Proof.
  intros Hst. unfold poll_body.
  repeat match goal with
         | |- context [if ?b then _ else _] => destruct b
         end; cbn [fst parsed_statuses]; try exact Hst;
    apply extract_statuses_from_driver_eight.
Qed.

Lemma poll_loop_eight `{PyRuntime} (s : Session) (max_wait : Z) (st : PollState) :
  eight_or_none (parsed_statuses st) →
  eight_or_none (parsed_statuses (poll_loop s max_wait st).1).
Proof.
  assert (∀ (fuel : nat) st, max_wait - waited st ≤ poll_interval * Z.of_nat fuel →
            eight_or_none (parsed_statuses st) →
            eight_or_none (parsed_statuses (poll_loop s max_wait st).1)) as Hgen.
  { induction fuel as [| fuel IH]; intros st' Hfuel Hst; rewrite poll_loop_step;
      destruct (decide (waited st' < max_wait)) as [Hlt | Hge]; try exact Hst;
      try (unfold poll_interval in *; lia).
    destruct (poll_body s st').2; cbn [fst]; [by apply poll_body_eight |].
    apply IH; [| by apply poll_body_eight].
    rewrite poll_body_waited. unfold poll_interval in *. lia. }
  apply (Hgen (Z.to_nat (max_wait - waited st))). unfold poll_interval. lia.
Qed.

(** X10. The list handed to [_apply_statuses_to_results] in a run of
    [validate_pdf_with_tcees] is either [None] or a list of exactly eight
    statuses, never an empty, shorter or longer list; so the parse-failure
    fallback is taken exactly when it is [None], which is exactly when the
    polling loop left nothing and both reading the cells of the final page
    and scanning its HTML source gave nothing. *)
Theorem statuses_for_results_eight_or_none `{PyRuntime} (s : Session) (quick_mode : bool) :
  eight_or_none (statuses_for_results s quick_mode)
  ∧ (len (statuses_for_results s quick_mode) < 8 ↔ statuses_for_results s quick_mode = None)
  ∧ (statuses_for_results s quick_mode = None ↔
       parsed_statuses (poll_loop s (max_wait_of quick_mode) poll_start).1 = None
       ∧ _extract_statuses_from_driver (page_final s) = None
       ∧ _extract_statuses_from_html (read_page (page_final s)).1 = None).
Proof.
  assert (∀ o : option (list status), eight_or_none o → falsy_list o = true ↔ o = None)
    as Hfalsy.
  { intros [[| x l] |] Ho; split; intros Hf; done. }
  pose proof (poll_loop_eight s (max_wait_of quick_mode) poll_start I) as Hparsed.
  pose proof (extract_statuses_from_driver_eight (page_final s)) as Hdriver.
  pose proof (extract_statuses_from_html_eight (read_page (page_final s)).1) as Hhtml.
  unfold statuses_for_results, select_statuses.
  set (parsed := parsed_statuses _) in *.
  set (from_driver := _extract_statuses_from_driver _) in *.
  set (from_html := _extract_statuses_from_html _) in *.
  assert (eight_or_none
            (if falsy_list (if falsy_list parsed then from_driver else parsed)
             then from_html else if falsy_list parsed then from_driver else parsed)) as Hshape.
  { destruct (falsy_list parsed); [destruct (falsy_list from_driver) |];
      try done; by destruct (falsy_list parsed). }
  split; [exact Hshape |]. split.
  - destruct (if falsy_list (if falsy_list parsed then from_driver else parsed)
              then from_html else if falsy_list parsed then from_driver else parsed)
      as [l |]; [| done].
    cbn in Hshape. unfold len. cbn [default from_option id]. split; [lia | discriminate].
  - destruct (falsy_list parsed) eqn:Hp.
    + pose proof (proj1 (Hfalsy parsed Hparsed) Hp) as Hnone_parsed.
      destruct (falsy_list from_driver) eqn:Hd.
      * apply Hfalsy in Hd; [| exact Hdriver]. rewrite Hd. tauto.
      * split; [intros Hnone; rewrite Hnone in Hd; discriminate |].
        intros (_ & Hnone & _). rewrite Hnone in Hd. discriminate.
    + rewrite Hp. split; [intros Hnone; rewrite Hnone in Hp; discriminate |].
      intros (Hnone & _). rewrite Hnone in Hp. discriminate.
Qed.

(** ** More on the returned record *)

Lemma route_of_cases `{PyRuntime} (fs : FS) (s : Session) (pdf_path : string)
    (quick_mode : bool) :
  (route_of fs s pdf_path quick_mode = NotFound
   ∧ os_path_isfile fs pdf_path = false
   ∧ validate_pdf_with_tcees fs s pdf_path quick_mode = Ret (not_found_result pdf_path))
  ∨ (∃ error, route_of fs s pdf_path quick_mode = Raised error
              ∧ validate_body fs s pdf_path quick_mode = Exc error
              ∧ validate_pdf_with_tcees fs s pdf_path quick_mode
                = Ret (error_result pdf_path error))
  ∨ (∃ d, (route_of fs s pdf_path quick_mode = Parsed
           ∨ route_of fs s pdf_path quick_mode = ParseFailed)
          ∧ validate_body fs s pdf_path quick_mode = Ret d
          ∧ validate_pdf_with_tcees fs s pdf_path quick_mode = Ret d).
Proof.
  unfold route_of, validate_pdf_with_tcees.
  destruct (os_path_isfile fs pdf_path); cbn [negb]; [| by left].
  destruct (validate_body fs s pdf_path quick_mode) as [d | error]; cbn [try_except].
  - right; right. exists d. split; [| done]. destruct (8 <=? _); [by left | by right].
  - right; left. by exists error.
Qed.

Lemma route_ParseFailed_short `{PyRuntime} (fs : FS) (s : Session) (pdf_path : string)
    (quick_mode : bool) :
  route_of fs s pdf_path quick_mode = ParseFailed → len (statuses_for_results s quick_mode) < 8.
Proof.
  unfold route_of. destruct (negb _); [discriminate |].
  destruct (validate_body _ _ _ _); [| discriminate].
  destruct (8 <=? _) eqn:Hlen; [discriminate |]. intros _. by apply Z.leb_gt.
Qed.

Lemma route_Parsed_long `{PyRuntime} (fs : FS) (s : Session) (pdf_path : string)
    (quick_mode : bool) :
  route_of fs s pdf_path quick_mode = Parsed → 8 ≤ len (statuses_for_results s quick_mode).
Proof.
  unfold route_of. destruct (negb _); [discriminate |].
  destruct (validate_body _ _ _ _); [| discriminate].
  destruct (8 <=? _) eqn:Hlen; [| discriminate]. intros _. by apply Z.leb_le.
Qed.

(** X11. On the parse-failure route the record is built from the file
    alone: extensao_valida tells whether the lowercased extension of the
    path is .pdf, tamanho_arquivo_ok whether the file is not empty, the six
    other check fields are [False], resultado_final is ERRO with the
    message that the answer could not be interpreted, and pontuacao is 14
    for each of the two file checks that holds (0, 14 or 28). *)
Theorem parse_failure_record `{PyRuntime} (fs : FS) (s : Session) (pdf_path : string)
    (quick_mode : bool) (d : dict) :
  route_of fs s pdf_path quick_mode = ParseFailed →
  validate_pdf_with_tcees fs s pdf_path quick_mode = Ret d →
  ∃ size,
    os_path_getsize fs pdf_path = Ret size
    ∧ d !! "extensao_valida"
      = Some (VBool (String.eqb (str_lower (os_path_splitext pdf_path).2) ".pdf"))
    ∧ d !! "tamanho_arquivo_ok" = Some (VBool (0 <? size))
    ∧ (∀ k, k ∈ ["sem_senha"; "tamanho_pagina_ok"; "assinado"; "autenticidade_ok";
                 "integridade_ok"; "pesquisavel"] → d !! k = Some (VBool false))
    ∧ d !! "resultado_final" = Some (VStr "ERRO")
    ∧ d !! "mensagem_erro"
      = Some (VStr "Não foi possível interpretar a resposta do TCEES.")
    ∧ d !! "pontuacao"
      = Some (VInt (14 * (Z.b2z (String.eqb (str_lower (os_path_splitext pdf_path).2) ".pdf")
                          + Z.b2z (0 <? size)))).
Proof.
  intros Hroute Hd.
  destruct (route_of_normal _ _ _ _ (or_intror Hroute)) as (_ & Heq & _). rewrite Heq in Hd.
  destruct (validate_body_scored _ _ _ _ _ Hd) as (size & results & Hsize & Hrec & ->).
  apply route_ParseFailed_short in Hroute.
  destruct Hrec as [l Hl Hlen _ | _ ->].
  { rewrite Hl in Hroute. unfold len in Hroute. cbn [default from_option id] in Hroute.
    unfold id in Hroute. lia. }
  exists size. split; [exact Hsize |].
  rewrite (campos_True_bools _ _ _ _ _ _ _ _ (fallback_update_bools _ _ _ _)).
  unfold fallback_update.
  split; [by dict_reads |]. split; [by dict_reads |]. split.
  { intros k Hk. repeat (apply elem_of_cons in Hk as [-> | Hk]; [by dict_reads |]).
    by apply elem_of_nil in Hk. }
  split; [by dict_reads |]. split; [by dict_reads |].
  dict_reads. do 2 f_equal.
  destruct (String.eqb _ _), (0 <? size); reflexivity.
Qed.

Lemma parse_failure_record_witness :
  ∃ size,
    os_path_getsize fs_doc doc_path = Ret size
    ∧ record_of (validate_pdf_with_tcees fs_doc session_silent doc_path true)
        !! "extensao_valida" = Some (VBool true)
    ∧ record_of (validate_pdf_with_tcees fs_doc session_silent doc_path true)
        !! "tamanho_arquivo_ok" = Some (VBool (0 <? size))
    ∧ record_of (validate_pdf_with_tcees fs_doc session_silent doc_path true)
        !! "pontuacao" = Some (VInt 28).
Proof.
  destruct (@parse_failure_record example_runtime fs_doc session_silent doc_path true
              (record_of (validate_pdf_with_tcees fs_doc session_silent doc_path true)))
    as (size & Hsize & Hext & Hok & _ & _ & _ & Hp).
  - vm_compute. reflexivity.
  - reflexivity.
  - exists size. split; [exact Hsize |]. split; [exact Hext |]. split; [exact Hok |].
    rewrite Hp. f_equal. f_equal.
    assert (size = 16) as -> by (vm_compute in Hsize; congruence).
    vm_compute. reflexivity.
Defined.

(** X12. [validate_pdf_with_tcees] never fills in the certificate: in every
    record it returns, titular_certificado, emissor_certificado and
    validade_certificado are the empty string (they are absent from the
    file-not-found record), and numero_assinaturas, when present, is 0 or
    1, never a larger count. *)
Theorem certificate_fields_never_filled `{PyRuntime} (fs : FS) (s : Session)
    (pdf_path : string) (quick_mode : bool) :
  ∃ d, validate_pdf_with_tcees fs s pdf_path quick_mode = Ret d
       ∧ (∀ k, k ∈ certificate_fields →
            d !! k = match route_of fs s pdf_path quick_mode with
                     | NotFound => None
                     | _ => Some (VStr EmptyString)
                     end)
       ∧ (d !! "numero_assinaturas" = None
          ∨ d !! "numero_assinaturas" = Some (VInt 0)
          ∨ d !! "numero_assinaturas" = Some (VInt 1)).
Proof.
  destruct (route_of_cases fs s pdf_path quick_mode)
    as [(Hr & _ & Hv) | [(error & Hr & _ & Hv) | (d & Hr & Hbody & Hv)]].
  - exists (not_found_result pdf_path). rewrite Hr. split; [exact Hv |]. split; [| by left].
    intros k Hk. unfold certificate_fields in Hk.
    repeat (apply elem_of_cons in Hk as [-> | Hk]; [reflexivity |]). by apply elem_of_nil in Hk.
  - exists (error_result pdf_path error). rewrite Hr. split; [exact Hv |].
    unfold error_result. destruct (_friendly_network_error error).
    split; [| right; by left].
    intros k Hk. unfold certificate_fields in Hk.
    repeat (apply elem_of_cons in Hk as [-> | Hk]; [reflexivity |]). by apply elem_of_nil in Hk.
  - exists d. split; [exact Hv |].
    destruct (validate_body_scored _ _ _ _ _ Hbody) as (size & results & _ & Hrec & ->).
    split.
    + intros k Hk.
      assert (setitem "pontuacao" (VInt (100 * campos_True results / 7)) results !! k
              = Some (VStr EmptyString)) as ->; [| by destruct Hr as [-> | ->]].
      unfold certificate_fields in Hk.
      destruct Hrec as [l _ _ [-> | ->] | _ ->];
        unfold positional_update, fallback_update;
        repeat (apply elem_of_cons in Hk as [-> | Hk]; [by dict_reads |]);
        by apply elem_of_nil in Hk.
    + destruct Hrec as [l _ _ [-> | ->] | _ ->];
        unfold positional_update, fallback_update; dict_reads;
        [destruct (True_at l 4) | destruct (True_at l 4) |]; auto.
Qed.

(** X13. When the statuses were parsed and the eighth status, the verdict
    of the portal, is unresolved, the verdict of the record is inferred
    from the seven base checks and agrees with the score: resultado_final
    is VALIDADO exactly when pontuacao is 100, and NÃO VALIDADO exactly
    when it is below 100. *)
Theorem inferred_verdict_iff_full_score `{PyRuntime} (fs : FS) (s : Session)
    (pdf_path : string) (quick_mode : bool) (d : dict) (l : list status) :
  route_of fs s pdf_path quick_mode = Parsed →
  validate_pdf_with_tcees fs s pdf_path quick_mode = Ret d →
  statuses_for_results s quick_mode = Some l →
  l !! 7%nat = Some None →
  (d !! "resultado_final" = Some (VStr "VALIDADO") ↔ d !! "pontuacao" = Some (VInt 100))
  ∧ (d !! "resultado_final" = Some (VStr "NÃO VALIDADO") ↔ d !! "pontuacao" ≠ Some (VInt 100)).
Proof.
  intros Hroute Hd Hl H7.
  destruct (route_of_normal _ _ _ _ (or_introl Hroute)) as (_ & Heq & _). rewrite Heq in Hd.
  destruct (validate_body_scored _ _ _ _ _ Hd) as (size & results & _ & Hrec & ->).
  apply route_Parsed_long in Hroute.
  destruct Hrec as [l' Hl' _ Hr | Hshort _]; [| lia].
  assert (l' = l) as -> by congruence.
  set (init := initial_results _ _ _) in *.
  assert (campos_True results
          = Z.b2z (True_at l 0) + (Z.b2z (True_at l 1) + (Z.b2z (True_at l 2)
            + (Z.b2z (True_at l 3) + (Z.b2z (True_at l 4) + (Z.b2z (True_at l 5)
            + (Z.b2z (True_at l 6) + 0))))))) as Hk.
  { apply campos_True_bools. destruct Hr as [-> | ->].
    - apply positional_update_bools.
    - apply bool_campos_setitem; [| apply positional_update_bools].
      unfold campos. repeat (apply not_elem_of_cons; split; [discriminate |]).
      apply not_elem_of_nil. }
  assert (results !! "resultado_final" = Some (VStr (verdict_of l))) as Hv.
  { destruct Hr as [-> | ->]; dict_reads; apply positional_update_fields. }
  assert (True_at l 7 = false) as Htrue by (unfold True_at; by rewrite H7).
  assert (False_at l 7 = false) as Hfalse by (unfold False_at; by rewrite H7).
  dict_reads. rewrite Hv, Hk. unfold verdict_of. rewrite Htrue, Hfalse.
  cbn [forallb].
  destruct (True_at l 0), (True_at l 1), (True_at l 2), (True_at l 3), (True_at l 4),
    (True_at l 5), (True_at l 6); vm_compute;
    (split; split; intros Hyp; first [congruence | exfalso; apply Hyp; reflexivity]).
Qed.

Lemma inferred_verdict_iff_full_score_witness :
  (record_of (validate_pdf_with_tcees fs_doc session_no_verdict doc_path false)
     !! "resultado_final" = Some (VStr "VALIDADO")
   ↔ record_of (validate_pdf_with_tcees fs_doc session_no_verdict doc_path false)
       !! "pontuacao" = Some (VInt 100))
  ∧ (record_of (validate_pdf_with_tcees fs_doc session_no_verdict doc_path false)
       !! "resultado_final" = Some (VStr "NÃO VALIDADO")
     ↔ record_of (validate_pdf_with_tcees fs_doc session_no_verdict doc_path false)
         !! "pontuacao" ≠ Some (VInt 100)).
Proof.
  apply (@inferred_verdict_iff_full_score example_runtime fs_doc session_no_verdict doc_path
           false _ (replicate 7 (Some true) ++ [None])).
  - vm_compute. reflexivity.
  - reflexivity.
  - vm_compute. reflexivity.
  - reflexivity.
Defined.

(** ** Several files, when the pool fails *)

(** X14. When running the thread pool raises (and [max_workers >= 1]),
    [validate_multiple_pdfs] still returns: one record for each of the
    first three paths, every one with resultado_final ERRO and the text of
    that exception as erro, including the files that had been validated
    before the failure.  These records have no pontuacao and no
    erro_codigo, unlike the error records of [validate_pdf_with_tcees]. *)
Theorem pool_failure_records `{PyRuntime} (fs : FS) (sessions : nat → Session)
    (error : string) (pdf_paths : list string) (max_workers : Z) :
  1 ≤ max_workers →
  ∃ results,
    validate_multiple_pdfs fs sessions (Some error) pdf_paths max_workers = Ret results
    ∧ length results = Nat.min 3 (length pdf_paths)
    ∧ ∀ r, r ∈ results →
        r !! "resultado_final" = Some (VStr "ERRO")
        ∧ r !! "erro" = Some (VStr error)
        ∧ r !! "pontuacao" = None
        ∧ r !! "erro_codigo" = None.
Proof.
  intros Hworkers. unfold validate_multiple_pdfs.
  destruct pdf_paths as [| p0 rest].
  { exists []. split; [reflexivity |]. split; [reflexivity |].
    intros r Hr. by apply elem_of_nil in Hr. }
  rewrite bool_decide_eq_false_2 by discriminate.
  set (paths := take 3 (p0 :: rest)).
  assert (length paths = Nat.min 3 (length (p0 :: rest))) as Hlen by apply length_take.
  unfold ThreadPoolExecutor.
  rewrite (proj2 (Z.leb_gt _ _)) by (rewrite Hlen; cbn [length]; lia).
  rewrite bind_Ret. cbn [executor_map try_except].
  eexists. split; [reflexivity |]. split; [by rewrite length_map |].
  intros r Hr. apply list_elem_of_fmap in Hr as (pdf_path & -> & _).
  repeat split; reflexivity.
Qed.

Lemma pool_failure_records_witness :
  ∃ results,
    validate_multiple_pdfs fs_doc (fun _ => session_ok) (Some "can't start new thread")
      [doc_path; "/srv/uploads/b.pdf"] 3 = Ret results
    ∧ length results = 2%nat
    ∧ ∀ r, r ∈ results →
        r !! "resultado_final" = Some (VStr "ERRO")
        ∧ r !! "erro" = Some (VStr "can't start new thread")
        ∧ r !! "pontuacao" = None
        ∧ r !! "erro_codigo" = None.
Proof.
  apply (@pool_failure_records example_runtime fs_doc (fun _ => session_ok)
           "can't start new thread" [doc_path; "/srv/uploads/b.pdf"] 3).
  lia.
Defined.

(** ** Locating Chrome *)

Lemma first_existing_path_spec (h : Host) (candidates : list (option string)) :
  match _first_existing_path h candidates with
  | Some path =>
      ∃ before after,
        candidates = (before ++ Some path :: after)%list
        ∧ Forall (fun c => usable_candidate h c = false) before
        ∧ path ≠ EmptyString
        ∧ os_path_exists h path = true
  | None => Forall (fun c => usable_candidate h c = false) candidates
  end.
Proof.
  induction candidates as [| candidate rest IH]; cbn [_first_existing_path]; [constructor |].
  fold (usable_candidate h candidate).
  destruct (usable_candidate h candidate) eqn:Hc.
  - unfold usable_candidate in Hc. apply andb_true_iff in Hc as [Htruthy Hexists].
    destruct candidate as [path |]; [| discriminate].
    exists [], rest. split; [reflexivity |]. split; [constructor |].
    cbn in Htruthy, Hexists. split; [| exact Hexists].
    intros ->. discriminate.
  - destruct (_first_existing_path h rest) as [path |].
    + destruct IH as (before & after & -> & Hbefore & Hne & Hex).
      exists (candidate :: before), after. split; [reflexivity |].
      split; [by constructor | by split].
    + by constructor.
Qed.

(** X15. [_first_existing_path] returns the first candidate, in list order,
    that is a non-empty path that exists: the path returned is not empty,
    exists, and stands at a position before which no candidate is usable.
    It returns [None] exactly when no candidate is usable, in particular
    for the empty list; [None] and empty candidates are skipped without
    asking the file system. *)
Theorem first_existing_path_is_first (h : Host) (candidates : list (option string)) :
  (∀ path, _first_existing_path h candidates = Some path →
     path ≠ EmptyString ∧ os_path_exists h path = true
     ∧ ∃ i, candidates !! i = Some (Some path)
            ∧ ∀ j c, (j < i)%nat → candidates !! j = Some c → usable_candidate h c = false)
  ∧ (_first_existing_path h candidates = None
     ↔ ∀ c, c ∈ candidates → usable_candidate h c = false).
Proof.
  pose proof (first_existing_path_spec h candidates) as Hspec.
  destruct (_first_existing_path h candidates) as [found |].
  - destruct Hspec as (before & after & -> & Hbefore & Hne & Hex). split.
    + intros path [= <-]. split; [exact Hne |]. split; [exact Hex |].
      exists (length before). split; [by rewrite list_lookup_middle |].
      intros j c Hj Hc. rewrite lookup_app_l in Hc by exact Hj.
      rewrite Forall_lookup in Hbefore. by eapply Hbefore.
    + split; [discriminate |]. intros Hall.
      specialize (Hall (Some found)). unfold usable_candidate in Hall.
      rewrite elem_of_app, elem_of_cons in Hall. specialize (Hall ltac:(auto)).
      cbn in Hall. rewrite Hex, andb_true_r in Hall.
      apply negb_false_iff, String.eqb_eq in Hall. contradiction.
  - split; [discriminate |]. split; [| reflexivity].
    intros _. by apply Forall_forall.
Qed.

(** X16. A path returned by [get_chrome_binary_path] or
    [get_chrome_driver_path] exists on the host and is one of the
    candidates of that look-up (three environment variables, the programs
    found on the search path, the fixed locations).  The environment wins:
    when CHROME_BIN (CHROMEDRIVER_PATH for the driver) names an existing
    path, that path is returned, whatever is installed elsewhere.  On a
    host where no path exists both look-ups return [None]. *)
Theorem chrome_paths_exist_and_env_wins (h : Host) :
  (∀ path, get_chrome_binary_path h = Some path →
     os_path_exists h path = true ∧ Some path ∈ chrome_binary_candidates h)
  ∧ (∀ path, get_chrome_driver_path h = Some path →
       os_path_exists h path = true ∧ Some path ∈ chrome_driver_candidates h)
  ∧ (∀ path, os_getenv h "CHROME_BIN" = Some path → path ≠ EmptyString →
       os_path_exists h path = true → get_chrome_binary_path h = Some path)
  ∧ (∀ path, os_getenv h "CHROMEDRIVER_PATH" = Some path → path ≠ EmptyString →
       os_path_exists h path = true → get_chrome_driver_path h = Some path)
  ∧ ((∀ path, os_path_exists h path = false) →
     get_chrome_binary_path h = None ∧ get_chrome_driver_path h = None).
Proof.
  assert (∀ candidates path, _first_existing_path h candidates = Some path →
            os_path_exists h path = true ∧ Some path ∈ candidates) as Hfound.
  { intros candidates path Hp. pose proof (first_existing_path_spec h candidates) as Hspec.
    rewrite Hp in Hspec. destruct Hspec as (before & after & -> & _ & _ & Hex).
    split; [exact Hex |]. rewrite elem_of_app, elem_of_cons. auto. }
  assert (∀ path rest, path ≠ EmptyString → os_path_exists h path = true →
            _first_existing_path h (Some path :: rest) = Some path) as Hhead.
  { intros path rest Hne Hex. cbn. rewrite Hex, andb_true_r.
    destruct (String.eqb_spec path EmptyString); [contradiction | reflexivity]. }
  assert ((∀ path, os_path_exists h path = false) →
          ∀ candidates, _first_existing_path h candidates = None) as Hnone.
  { intros Hno. induction candidates as [| c rest IH]; [reflexivity |].
    cbn. by rewrite Hno, andb_false_r. }
  split; [intros path; apply Hfound |]. split; [intros path; apply Hfound |].
  split; [| split].
  - intros path Henv Hne Hex. unfold get_chrome_binary_path. rewrite Henv. by apply Hhead.
  - intros path Henv Hne Hex. unfold get_chrome_driver_path. rewrite Henv. by apply Hhead.
  - intros Hno. split; by apply Hnone.
Qed.

Lemma chrome_paths_exist_and_env_wins_witness :
  get_chrome_binary_path host_custom = Some "/opt/chrome/chrome"
  ∧ get_chrome_binary_path host_chromium = Some "/usr/bin/chromium"
  ∧ os_path_exists host_chromium "/usr/bin/chromium" = true.
Proof.
  split; [| split; [reflexivity |]].
  - apply (proj1 (proj2 (proj2 (chrome_paths_exist_and_env_wins host_custom))));
      [reflexivity | discriminate | reflexivity].
  - apply (proj1 (chrome_paths_exist_and_env_wins host_chromium)). reflexivity.
Defined.

(** ** Chrome options *)

(** X17. [build_chrome_options] always asks for the eager page-load
    strategy and passes the eleven base arguments in a fixed order.  The
    three proxy arguments follow them exactly when the environment
    variable TCEES_DISABLE_CHROME_PROXY is the string 1; when the variable
    is unset or has any other value no proxy argument is passed.  The
    binary location is the path found by [get_chrome_binary_path], left
    empty when none is found, so a location that is set always exists. *)
Theorem chrome_options_proxy_and_binary (h : Host) :
  page_load_strategy (build_chrome_options h) = "eager"
  ∧ arguments (build_chrome_options h)
    = (base_arguments
       ++ (if bool_decide (os_getenv h "TCEES_DISABLE_CHROME_PROXY" = Some "1")
           then proxy_arguments else []))%list
  ∧ ("--no-proxy-server" ∈ arguments (build_chrome_options h)
     ↔ os_getenv h "TCEES_DISABLE_CHROME_PROXY" = Some "1")
  ∧ binary_location (build_chrome_options h) = or_empty (get_chrome_binary_path h)
  ∧ (binary_location (build_chrome_options h) ≠ EmptyString →
     os_path_exists h (binary_location (build_chrome_options h)) = true).
Proof.
  assert (String.eqb (os_getenv_default h "TCEES_DISABLE_CHROME_PROXY" "0") "1"
          = bool_decide (os_getenv h "TCEES_DISABLE_CHROME_PROXY" = Some "1")) as Hproxy.
  { unfold os_getenv_default.
    destruct (os_getenv h "TCEES_DISABLE_CHROME_PROXY") as [v |]; cbn [default from_option id].
    - unfold id. destruct (String.eqb_spec v "1") as [-> | Hne].
      + by rewrite bool_decide_eq_true_2.
      + rewrite bool_decide_eq_false_2; [reflexivity | congruence].
    - by rewrite bool_decide_eq_false_2. }
  assert (binary_location (build_chrome_options h) = or_empty (get_chrome_binary_path h))
    as Hbinary.
  { unfold build_chrome_options.
    destruct (get_chrome_binary_path h) as [path |]; cbn [truthy_str or_empty default from_option].
    - destruct (String.eqb_spec path EmptyString) as [-> | Hne]; cbn [negb].
      + by destruct (String.eqb _ "1").
      + reflexivity.
    - by destruct (String.eqb _ "1"). }
  assert (arguments (build_chrome_options h)
          = (base_arguments
             ++ (if bool_decide (os_getenv h "TCEES_DISABLE_CHROME_PROXY" = Some "1")
                 then proxy_arguments else []))%list) as Hargs.
  { unfold build_chrome_options. rewrite Hproxy.
    destruct (bool_decide _); destruct (truthy_str _); reflexivity. }
  split.
  { unfold build_chrome_options. destruct (String.eqb _ "1"); destruct (truthy_str _); reflexivity. }
  split; [exact Hargs |]. split; [| split; [exact Hbinary |]].
  - rewrite Hargs. destruct (bool_decide _) eqn:Hb.
    + apply bool_decide_eq_true in Hb. split; [done |]. intros _.
      apply elem_of_app. right. apply list_elem_of_here.
    + apply bool_decide_eq_false in Hb. split; [| done]. intros Hin. exfalso.
      rewrite app_nil_r in Hin. unfold base_arguments in Hin.
      repeat (apply elem_of_cons in Hin as [Hin | Hin]; [discriminate |]).
      by apply elem_of_nil in Hin.
  - rewrite Hbinary. pose proof (first_existing_path_spec h
      (chrome_binary_candidates h)) as Hspec.
    change (_first_existing_path h (chrome_binary_candidates h))
      with (get_chrome_binary_path h) in Hspec.
    destruct (get_chrome_binary_path h) as [path |]; [| done].
    destruct Hspec as (_ & _ & _ & _ & _ & Hex). intros _. exact Hex.
Qed.

(** ** More on the HTTP service *)

Lemma unlink_quietly_saved (fs : FS) (tmp_path content : string) :
  unlink_quietly (<[tmp_path := content]> fs) tmp_path = delete tmp_path fs.
Proof.
  unfold unlink_quietly, os_unlink. rewrite lookup_insert_eq. apply delete_insert_eq.
Qed.

(** The branches of the handler, with the file system each one leaves. *)
Lemma validate_branches `{PyRuntime} (cfg : Config) (env : Env) (fs : FS) (request : Request) :
  (_auth_ok cfg request = false
   ∧ ∃ body, validate cfg env fs request = (fs, Ret (body, 401))
             ∧ body !! "resultado_final" = Some (VStr "ERRO")
             ∧ body !! "erro_codigo" = Some (VStr "AUTH_ERROR"))
  ∨ (_auth_ok cfg request = true ∧ files request !! "file" = None
     ∧ ∃ body, validate cfg env fs request = (fs, Ret (body, 400))
               ∧ body !! "resultado_final" = Some (VStr "ERRO")
               ∧ body !! "erro_codigo" = Some (VStr "NO_FILE"))
  ∨ (∃ uploaded,
       _auth_ok cfg request = true ∧ files request !! "file" = Some uploaded
       ∧ ((endswith ".pdf" (str_lower (filename uploaded)) = false
           ∧ ∃ body, validate cfg env fs request = (fs, Ret (body, 400))
                     ∧ body !! "resultado_final" = Some (VStr "ERRO")
                     ∧ body !! "erro_codigo" = Some (VStr "NOT_PDF"))
          ∨ (endswith ".pdf" (str_lower (filename uploaded)) = true
             ∧ too_large cfg uploaded
             ∧ ∃ body, validate cfg env fs request = (fs, Ret (body, 413))
                       ∧ body !! "resultado_final" = Some (VStr "ERRO")
                       ∧ body !! "erro_codigo" = Some (VStr "FILE_TOO_LARGE"))
          ∨ (endswith ".pdf" (str_lower (filename uploaded)) = true
             ∧ ¬ too_large cfg uploaded
             ∧ ∃ resultado,
                 validate_pdf_with_tcees (<[tmp_name env := stream uploaded]> fs)
                   (session env) (tmp_name env) false = Ret resultado
                 ∧ validate cfg env fs request
                   = (delete (tmp_name env) fs,
                      Ret (setitem "nome_arquivo" (VStr (filename uploaded)) resultado, 200))))).
Proof.
  unfold validate.
  destruct (_auth_ok cfg request); cbn [negb].
  2: { left. split; [reflexivity |]. eexists. repeat split; reflexivity. }
  right. destruct (files request !! "file") as [uploaded |].
  2: { left. split; [reflexivity |]. split; [reflexivity |]. eexists. repeat split; reflexivity. }
  right. exists uploaded. split; [reflexivity |]. split; [reflexivity |].
  destruct (endswith _ _); cbn [negb].
  2: { left. split; [reflexivity |]. eexists. repeat split; reflexivity. }
  right. destruct (negb (Qle_bool _ _)) eqn:Hsize.
  - left. apply too_large_spec in Hsize. split; [reflexivity |]. split; [exact Hsize |].
    eexists. repeat split; reflexivity.
  - right. split; [reflexivity |].
    split; [intros Hlarge; apply too_large_spec in Hlarge; congruence |].
    cbv zeta.
    destruct (validate_pdf_with_tcees_returns (<[tmp_name env := stream uploaded]> fs)
                (session env) (tmp_name env) false) as (resultado & Hres & _).
    exists resultado. split; [exact Hres |]. by rewrite Hres, unlink_quietly_saved.
Qed.






Lemma validate_body_tamanho_bytes `{PyRuntime} (fs : FS) (s : Session) (pdf_path : string)
    (quick_mode : bool) (d : dict) :
  validate_body fs s pdf_path quick_mode = Ret d →
  ∃ size, os_path_getsize fs pdf_path = Ret size ∧ d !! "tamanho_bytes" = Some (VInt size).
Proof.
  intros Hbody.
  destruct (validate_body_scored _ _ _ _ _ Hbody) as (size & results & Hsize & Hrec & ->).
  exists size. split; [exact Hsize |].
  destruct Hrec as [l _ _ [-> | ->] | _ ->];
    unfold positional_update, fallback_update; by dict_reads.
Qed.

(** X20. An accepted upload (authorised, with a file whose name ends in
    .pdf and whose size is within the limit) is answered 200 with the
    record of the validator in which nome_arquivo is the name the client
    gave, not the name of the temporary file.  The validator always finds
    the saved file, so the file-not-found record is never sent; when the
    validation ran to its end, tamanho_bytes is the number of bytes
    uploaded, and when it raised, the record has no tamanho_bytes. *)
Theorem accepted_upload_response `{PyRuntime} (cfg : Config) (env : Env) (fs : FS)
    (request : Request) (uploaded : FileStorage) :
  _auth_ok cfg request = true →
  files request !! "file" = Some uploaded →
  endswith ".pdf" (str_lower (filename uploaded)) = true →
  ¬ too_large cfg uploaded →
  ∃ body,
    (validate cfg env fs request).2 = Ret (body, 200)
    ∧ body !! "nome_arquivo" = Some (VStr (filename uploaded))
    ∧ route_of (<[tmp_name env := stream uploaded]> fs) (session env) (tmp_name env) false
      ≠ NotFound
    ∧ match route_of (<[tmp_name env := stream uploaded]> fs) (session env) (tmp_name env)
              false with
      | Parsed | ParseFailed =>
          body !! "tamanho_bytes" = Some (VInt (Z.of_nat (String.length (stream uploaded))))
      | _ => body !! "tamanho_bytes" = None
      end.
Proof.
  intros Hauth Hfile Hname Hsmall.
  destruct (validate_branches cfg env fs request)
    as [(Hno & _) | [(_ & Hf & _) | (u & _ & Hf & Hcases)]]; [congruence.. |].
  assert (u = uploaded) as -> by congruence.
  destruct Hcases as [(Hn & _) | [(_ & Hl & _) | (_ & _ & r & Hr & ->)]];
    [congruence | contradiction |].
  cbn [snd]. eexists. split; [reflexivity |]. split; [by dict_reads |].
  set (saved := <[tmp_name env := stream uploaded]> fs) in *.
  assert (saved !! tmp_name env = Some (stream uploaded)) as Hsaved by apply lookup_insert_eq.
  assert (os_path_isfile saved (tmp_name env) = true) as Hisfile.
  { unfold os_path_isfile. rewrite Hsaved. by apply bool_decide_eq_true. }
  unfold route_of. unfold validate_pdf_with_tcees in Hr.
  rewrite Hisfile in *. cbn [negb] in *.
  destruct (validate_body saved (session env) (tmp_name env) false) as [d | error] eqn:Hbody;
    cbn [try_except] in Hr; injection Hr as <-.
  - destruct (validate_body_tamanho_bytes _ _ _ _ _ Hbody) as (size & Hsize & Hbytes).
    unfold os_path_getsize in Hsize. rewrite Hsaved in Hsize. injection Hsize as <-.
    destruct (8 <=? _); (split; [discriminate | by dict_reads]).
  - split; [discriminate |]. dict_reads.
    unfold error_result. by destruct (_friendly_network_error error).
Qed.

Lemma accepted_upload_response_witness :
  ∃ body,
    (validate default_config env_ok fs_doc (request_plain upload_small)).2 = Ret (body, 200)
    ∧ body !! "nome_arquivo" = Some (VStr "Contrato.PDF")
    ∧ body !! "tamanho_bytes" = Some (VInt 16).
Proof.
  destruct (@accepted_upload_response example_runtime default_config env_ok fs_doc
              (request_plain upload_small) upload_small eq_refl eq_refl eq_refl)
    as (body & Hresp & Hname & _ & Hbytes).
  - intros Hlarge. vm_compute in Hlarge. discriminate.
  - exists body. split; [exact Hresp |]. split; [exact Hname |].
    assert (route_of (<[tmp_name env_ok := stream upload_small]> fs_doc) (session env_ok)
              (tmp_name env_ok) false = Parsed) as Hroute by (vm_compute; reflexivity).
    rewrite Hroute in Hbytes. exact Hbytes.
Defined.

(** X21. In bytes, for an authorised request whose file name ends in .pdf
    and whose file is smaller than 2^53 bytes (so that the size in
    megabytes is computed exactly): the request is answered 413 exactly
    when the file has more than MAX_FILE_MB * 1048576 bytes and 200 exactly
    when it has at most that many.  A file of exactly the limit is
    accepted; with a limit of zero only the empty file is; with a negative
    limit every file is refused. *)
Theorem size_limit_in_bytes `{PyRuntime} (cfg : Config) (env : Env) (fs : FS)
    (request : Request) (uploaded : FileStorage) :
  _auth_ok cfg request = true →
  files request !! "file" = Some uploaded →
  endswith ".pdf" (str_lower (filename uploaded)) = true →
  Z.of_nat (String.length (stream uploaded)) < 2 ^ 53 →
  ((∃ body, (validate cfg env fs request).2 = Ret (body, 413))
   ↔ MAX_FILE_MB cfg * 1048576 < Z.of_nat (String.length (stream uploaded)))
  ∧ ((∃ body, (validate cfg env fs request).2 = Ret (body, 200))
     ↔ Z.of_nat (String.length (stream uploaded)) ≤ MAX_FILE_MB cfg * 1048576)
  ∧ (MAX_FILE_MB cfg < 0 → ∃ body, (validate cfg env fs request).2 = Ret (body, 413)).
Proof.
  intros Hauth Hfile Hname _.
  pose proof (too_large_bytes cfg uploaded) as Hbytes.
  change (1024 * 1024) with 1048576 in Hbytes.
  destruct (validate_branches cfg env fs request)
    as [(Hno & _) | [(_ & Hf & _) | (u & _ & Hf & Hcases)]]; [congruence.. |].
  assert (u = uploaded) as -> by congruence.
  destruct Hcases as [(Hn & _) | [(_ & Hl & body & -> & _) | (_ & Hs & r & _ & ->)]];
    [congruence | |]; cbn [snd].
  - apply Hbytes in Hl. split; [split | split; [split |]].
    + intros _. exact Hl.
    + intros _. eauto.
    + intros (body' & [=]).
    + intros Hle. lia.
    + intros _. eauto.
  - assert (¬ MAX_FILE_MB cfg * 1048576 < Z.of_nat (String.length (stream uploaded))) as Hnot
      by (intros Hlt; apply Hs, Hbytes, Hlt).
    split; [split | split; [split |]].
    + intros (body & [=]).
    + intros Hlt. contradiction.
    + intros _. lia.
    + intros _. eauto.
    + intros Hneg. lia.
Qed.

Lemma size_limit_in_bytes_witness :
  (∃ body, (validate config_zero env_ok fs_doc (request_plain upload_empty)).2
           = Ret (body, 200))
  ∧ (∃ body, (validate config_zero env_ok fs_doc (request_plain upload_small)).2
             = Ret (body, 413)).
Proof.
  split.
  - apply (proj1 (proj2 (@size_limit_in_bytes example_runtime config_zero env_ok fs_doc
                           (request_plain upload_empty) upload_empty eq_refl eq_refl eq_refl
                           eq_refl))).
    vm_compute. discriminate.
  - apply (proj1 (@size_limit_in_bytes example_runtime config_zero env_ok fs_doc
                    (request_plain upload_small) upload_small eq_refl eq_refl eq_refl
                    eq_refl)).
    vm_compute. reflexivity.
Defined.
